(** * B.E.L.L.A. content-calendar generator: generation, fallback and pacing

    A shallow embedding of the generation pipeline of the repository
    (fallback_content.py, content_diversity.py, ssds_ai.py, main.py,
    crash_prevention.py, deployment_main.py, ultra_safe_main.py), of the
    image generation (image_ai.py and the image route of main.py) and of
    the batch helpers (enterprise_features.py, performance_optimizer.py),
    with the properties its specification states about it and further
    properties read off the code.

    Conventions of the embedding:
    - a Python [str] is a [string]; its characters are the ASCII code points
      (case mapping and white space are those of ASCII);
    - a Python [int] is a [Z]; [%] with a positive modulus is [Z.modulo];
    - a raised exception is the [Raise] branch of [result];
    - a [dict] with string keys is a [gmap string _], a [set] a [gset];
    - the outcome of a call that leaves the process (the text-generation
      service, the hashtag service, the memory probe, the renderer) is an
      input of the model. *)

From Stdlib Require Import ZArith Ascii String DecimalString.
From Stdlib Require QArith.
From stdpp Require Import base tactics option list list_numbers strings gmap.

Local Open Scope string_scope.
Local Open Scope list_scope.
Local Open Scope stdpp_scope.
Local Open Scope Z_scope.

(** ** Exceptions *)

Inductive exn : Type :=
  | IndexError
  | TypeError
  | AttributeError
  | KeyError
  | ValueError
  | ServiceError.

Inductive result (A : Type) : Type :=
  | Ok (a : A)
  | Raise (e : exn).
Arguments Ok {A} a.
Arguments Raise {A} e.

#[global] Instance result_ret : MRet result := fun _ a => Ok a.
#[global] Instance result_bind : MBind result := fun _ _ f m =>
  match m with
  | Ok a => f a
  | Raise e => Raise e
  end.
#[global] Instance result_fmap : FMap result := fun _ _ f m =>
  match m with
  | Ok a => Ok (f a)
  | Raise e => Raise e
  end.

Definition is_ok {A} (m : result A) : bool :=
  match m with Ok _ => true | Raise _ => false end.

(** A [while] loop run for at most [fuel] tests of its condition: [None]
    when the fuel is used up before the condition turns false. *)
Fixpoint while {S : Type} (fuel : nat) (cond : S -> bool)
    (body : S -> result S) (s : S) : option (result S) :=
  match fuel with
  | O => None
  | Datatypes.S fuel' =>
      if cond s then
        match body s with
        | Ok s' => while fuel' cond body s'
        | Raise e => Some (Raise e)
        end
      else Some (Ok s)
  end.

(** ** Python strings *)

Module Py.

Definition pipe : ascii := "|"%char.
Definition comma : ascii := ","%char.
Definition space : ascii := " "%char.
Definition newline : ascii := "010"%char.

Definition code (c : ascii) : N := N_of_ascii c.

Definition is_lower (c : ascii) : bool := (97 <=? code c)%N && (code c <=? 122)%N.
Definition is_upper (c : ascii) : bool := (65 <=? code c)%N && (code c <=? 90)%N.

Definition to_upper (c : ascii) : ascii :=
  if is_lower c then ascii_of_N (code c - 32) else c.
Definition to_lower (c : ascii) : ascii :=
  if is_upper c then ascii_of_N (code c + 32) else c.

(** [str.isspace] on ASCII: tab, line feed, vertical tab, form feed,
    carriage return, the four separators 28..31, and the blank. *)
Definition is_space (c : ascii) : bool :=
  ((9 <=? code c)%N && (code c <=? 13)%N)
  || ((28 <=? code c)%N && (code c <=? 32)%N).

(** [s.lower()] *)
Fixpoint lower (s : string) : string :=
  match s with
  | EmptyString => EmptyString
  | String c s' => String (to_lower c) (lower s')
  end.

(** [s.title()]: a cased character is upper-cased when it follows an
    uncased one (or starts the string) and lower-cased otherwise. *)
Fixpoint title_go (prev_cased : bool) (s : string) : string :=
  match s with
  | EmptyString => EmptyString
  | String c s' =>
      if is_lower c then
        String (if prev_cased then c else to_upper c) (title_go true s')
      else if is_upper c then
        String (if prev_cased then to_lower c else c) (title_go true s')
      else String c (title_go false s')
  end.
Definition title (s : string) : string := title_go false s.

(** [s.replace(c, r)] for a one-character pattern [c]. *)
Fixpoint replace (c : ascii) (r : string) (s : string) : string :=
  match s with
  | EmptyString => EmptyString
  | String a s' =>
      if Ascii.eqb a c then r +:+ replace c r s' else String a (replace c r s')
  end.

(** [s.lstrip()], [s.rstrip()], [s.strip()] *)
Fixpoint lstrip (s : string) : string :=
  match s with
  | EmptyString => EmptyString
  | String c s' => if is_space c then lstrip s' else s
  end.
Fixpoint rstrip (s : string) : string :=
  match s with
  | EmptyString => EmptyString
  | String c s' =>
      match rstrip s' with
      | EmptyString => if is_space c then EmptyString else String c EmptyString
      | t => String c t
      end
  end.
Definition strip (s : string) : string := rstrip (lstrip s).

(** [s.split(c)] for a one-character separator: never the empty list. *)
Fixpoint split (c : ascii) (s : string) : list string :=
  match s with
  | EmptyString => [EmptyString]
  | String a s' =>
      if Ascii.eqb a c then EmptyString :: split c s'
      else match split c s' with
           | [] => [String a EmptyString]
           | w :: ws => String a w :: ws
           end
  end.

(** [sep.join(l)] *)
Fixpoint join (sep : string) (l : list string) : string :=
  match l with
  | [] => EmptyString
  | [x] => x
  | x :: xs => x +:+ sep +:+ join sep xs
  end.

(** [sub in s] *)
Fixpoint contains (sub s : string) : bool :=
  String.prefix sub s
  || match s with
     | EmptyString => false
     | String _ s' => contains sub s'
     end.

(** [s[:n]] for a non-negative [n] *)
Fixpoint left (n : nat) (s : string) : string :=
  match n, s with
  | S n', String c s' => String c (left n' s')
  | _, _ => EmptyString
  end.

(** [int(s)] on a [str]: around the numeral the white space of C's
    [isspace] is skipped, the characters 9 to 13 and the blank (not the
    separators 28 to 31, which [strip] removes as well); the numeral is an
    optional sign and decimal digits, with single underscores between
    digits, of at most 4300 digits; anything else raises. *)
Definition is_cspace (c : ascii) : bool :=
  ((9 <=? code c)%N && (code c <=? 13)%N) || (code c =? 32)%N.

Fixpoint skip_cspace (s : string) : string :=
  match s with
  | EmptyString => EmptyString
  | String c s' => if is_cspace c then skip_cspace s' else s
  end.

Fixpoint drop_cspace (s : string) : string :=
  match s with
  | EmptyString => EmptyString
  | String c s' =>
      match drop_cspace s' with
      | EmptyString => if is_cspace c then EmptyString else String c EmptyString
      | t => String c t
      end
  end.

Definition digit (c : ascii) : option Z :=
  if (48 <=? code c)%N && (code c <=? 57)%N
  then Some (Z.of_N (code c) - 48) else None.

Fixpoint int_digits (acc : Z) (after_digit : bool) (s : string) : result Z :=
  match s with
  | EmptyString => if after_digit then Ok acc else Raise ValueError
  | String c s' =>
      match digit c with
      | Some d => int_digits (10 * acc + d) true s'
      | None =>
          if Ascii.eqb c "_"%char && after_digit
          then int_digits acc false s'
          else Raise ValueError
      end
  end.

(** The number of decimal digits in a numeral, and the limit on it
    ([sys.int_info.default_max_str_digits]). *)
Fixpoint digit_count (s : string) : Z :=
  match s with
  | EmptyString => 0
  | String c s' =>
      (match digit c with Some _ => 1 | None => 0 end) + digit_count s'
  end.

Definition max_str_digits : Z := 4300.

Definition int (s : string) : result Z :=
  let t := drop_cspace (skip_cspace s) in
  if digit_count t >? max_str_digits then Raise ValueError
  else
    match t with
    | String "+"%char r => int_digits 0 false r
    | String "-"%char r => Z.opp <$> int_digits 0 false r
    | t => int_digits 0 false t
    end.

(** [str(z)] *)
Definition str (z : Z) : string := NilZero.string_of_int (Z.to_int z).

(** Truth value of a [str]: non-empty. *)
Definition truthy (s : string) : bool :=
  match s with EmptyString => false | _ => true end.

(** [l[i]]: negative indices count from the end, out of range raises. *)
Definition getitem {A} (l : list A) (i : Z) : result A :=
  let n := Z.of_nat (length l) in
  let j := if i <? 0 then i + n else i in
  if (j <? 0) || (n <=? j) then Raise IndexError
  else match l !! Z.to_nat j with
       | Some a => Ok a
       | None => Raise IndexError
       end.

(** [len(l)] *)
Definition len {A} (l : list A) : Z := Z.of_nat (length l).

(** [range(a, b)] *)
Definition range (a b : Z) : list Z := seqZ a (b - a).

(** [range(a, b, step)]: a zero step raises. *)
Definition range3 (a b step : Z) : result (list Z) :=
  if step =? 0 then Raise ValueError
  else
    let n := if 0 <? step then (b - a + step - 1) `div` step
             else (a - b - step - 1) `div` (- step) in
    Ok ((fun k => a + k * step) <$> seqZ 0 n).

(** [l[a:b]] for [0 <= a] and [0 <= b] *)
Definition slice {A} (l : list A) (a b : Z) : list A :=
  take (Z.to_nat (b - a)) (drop (Z.to_nat a) l).

(** Number of occurrences of a character, and the number of fields a
    split on it yields. *)
Fixpoint count (c : ascii) (s : string) : nat :=
  match s with
  | EmptyString => O
  | String a s' => if Ascii.eqb a c then S (count c s') else count c s'
  end.

End Py.

(** ** Python values stored in dicts *)

Inductive pyval : Type :=
  | PStr (s : string)
  | PInt (z : Z).

#[global] Instance pyval_eq_dec : EqDecision pyval.
Proof. solve_decision. Defined.

(** Truth value of an object: a non-empty [str], a non-zero [int]. *)
Definition truthy_val (v : pyval) : bool :=
  match v with
  | PStr s => Py.truthy s
  | PInt z => negb (z =? 0)
  end.

(** A calendar entry, a business description: dicts with string keys. *)
Abbreviation pydict := (gmap string pyval).

(** Number of pipe-delimited fields of a post: [len(post.split("|"))]. *)
Definition fields (post : string) : nat := length (Py.split Py.pipe post).

(** The common last line of both template generators:
    [f"Day {day} | {activity} | ... | {prompt}"]. *)
Record selection : Type := {
  sel_activity : string;
  sel_script : string;
  sel_visual : string;
  sel_caption : string;
  sel_hashtags : string;
  sel_time : string;
  sel_cta : string;
  sel_prompt : string
}.

Definition format_post (day : Z) (f : selection) : string :=
  "Day " +:+ Py.str day +:+ " | " +:+ sel_activity f +:+ " | " +:+ sel_script f
  +:+ " | " +:+ sel_visual f +:+ " | " +:+ sel_caption f +:+ " | "
  +:+ sel_hashtags f +:+ " | " +:+ sel_time f +:+ " | " +:+ sel_cta f
  +:+ " | " +:+ sel_prompt f.

Definition beauty_words : list string :=
  ["hair"; "nail"; "beauty"; "salon"; "spa"; "microblading"; "lash"; "brow"].

(** [any(beauty_word in niche.lower() for beauty_word in [...])] *)
Definition is_beauty (niche : string) : bool :=
  existsb (fun w => Py.contains w (Py.lower niche)) beauty_words.

(** ** fallback_content.py *)

Module fallback_content.

Record templates : Type := {
  activities : list string;
  scripts : list string;
  visuals : list string;
  captions : list string;
  hashtags : list string
}.

(** The inner function [get_niche_templates(niche)]; [city] is the
    enclosing function's argument. *)
Definition get_niche_templates (city niche : string) : templates :=
  let base_activities := [
    Py.title niche +:+ " showcase"; Py.title niche +:+ " tutorial";
    Py.title niche +:+ " process video";
    "Client " +:+ niche +:+ " experience"; "Behind-the-scenes " +:+ niche;
    Py.title niche +:+ " transformation";
    "Professional " +:+ niche +:+ " work"; Py.title niche +:+ " techniques";
    "Quality " +:+ niche +:+ " service";
    Py.title niche +:+ " consultation" ] in
  let base_scripts := [
    "Experience exceptional " +:+ niche +:+ " quality and service";
    "See our professional " +:+ niche +:+ " expertise in action";
    "Your " +:+ niche +:+ " goals are our priority in " +:+ city;
    "Professional " +:+ niche +:+ " services that exceed expectations";
    "Behind the scenes of our " +:+ niche +:+ " process";
    "Transform your " +:+ niche +:+ " experience with our experts";
    "Quality " +:+ niche +:+ " services you can trust";
    "Watch our " +:+ niche +:+ " professionals at work";
    "Exceptional " +:+ niche +:+ " results for " +:+ city +:+ " clients";
    "Your satisfaction is our " +:+ niche +:+ " mission" ] in
  let base_visuals := [
    "High-quality " +:+ niche +:+ " photography";
    "Professional " +:+ niche +:+ " video content";
    "Before and after " +:+ niche +:+ " results"; "Process documentation";
    "Client satisfaction moments"; "Detail shots of " +:+ niche +:+ " work";
    "Professional workspace"; "Quality " +:+ niche +:+ " equipment" ] in
  let base_captions := [
    "Ready for exceptional " +:+ niche +:+ " service in " +:+ city
      +:+ "? We deliver quality results every time!";
    "Your " +:+ niche +:+ " experience matters to us. Book your " +:+ city
      +:+ " appointment today!";
    "Excellence in " +:+ niche +:+ " services, right here in " +:+ city
      +:+ ". Experience the difference!";
    "Professional " +:+ niche
      +:+ " solutions tailored for you. Welcome to quality service!";
    "Transform your " +:+ niche +:+ " needs with our expert team in " +:+ city
      +:+ "!" ] in
  let niche_clean := Py.title (Py.replace Py.space "" niche) in
  let city_clean := Py.title (Py.replace Py.space "" city) in
  let base_hashtags := [
    "#" +:+ niche_clean; "#" +:+ city_clean +:+ niche_clean;
    "#Professional" +:+ niche_clean; "#" +:+ city_clean +:+ "Business" ] in
  {| activities := base_activities;
     scripts := base_scripts;
     visuals := base_visuals;
     captions := base_captions;
     hashtags := base_hashtags |}.

Definition times : list string :=
  ["Morning (9-11am)"; "Afternoon (2-4pm)"; "Evening (6-8pm)";
   "Peak hours (10am-2pm)"; "Weekend mornings"; "Lunch break (12-1pm)";
   "After work (5-7pm)"; "Early evening"].

Definition ctas : list string :=
  ["Book your appointment today!"; "DM us to get started!";
   "Call now to schedule!"; "Visit our website to book!";
   "Limited slots available!"; "Book your consultation!";
   "Transform today!"; "Schedule your session!"].

(** [day_index = (day - 1) % len(template["activities"])] *)
Definition day_index (template : templates) (day : Z) : Z :=
  (day - 1) `mod` Py.len (activities template).

(** The values of the local variables of [get_fallback_content] when it
    reaches its [return]. *)
Definition select (niche city : string) (day : Z) : result selection :=
  let template := get_niche_templates city niche in
  let day_index := day_index template day in
  activity ← Py.getitem (activities template) day_index;
  script ← Py.getitem (scripts template) day_index;
  visual ← Py.getitem (visuals template) day_index;
  caption ← Py.getitem (captions template)
               (day_index `mod` Py.len (captions template));
  let hashtags0 :=
    Py.join " " (hashtags template) +:+ " #" +:+ Py.replace Py.space "" city
    +:+ "Local" in
  time ← Py.getitem times (day_index `mod` Py.len times);
  cta ← Py.getitem ctas (day_index `mod` Py.len ctas);
  let '(prompt, location_hashtags) :=
    if is_beauty niche then
      ("Professional " +:+ niche +:+ " salon interior in " +:+ city
       +:+ " with modern aesthetic, natural lighting, premium equipment, and '@salonsuitedigitalstudio' subtly visible on signage, reflection, or background element",
       " #" +:+ Py.replace Py.space "" city +:+ "Salon #"
       +:+ Py.replace Py.space "" city +:+ "Beauty #Local"
       +:+ Py.title (Py.replace Py.space "" niche))
    else
      ("Professional " +:+ niche +:+ " business interior in " +:+ city
       +:+ " with modern aesthetic, natural lighting, quality setup, and '@salonsuitedigitalstudio' subtly visible on signage, reflection, or background element",
       " #" +:+ Py.replace Py.space "" city +:+ "Business #"
       +:+ Py.title (Py.replace Py.space "" city)
       +:+ Py.title (Py.replace Py.space "" niche) +:+ " #Local"
       +:+ Py.title (Py.replace Py.space "" niche)) in
  mret {| sel_activity := activity;
          sel_script := script;
          sel_visual := visual;
          sel_caption := caption;
          sel_hashtags := hashtags0 +:+ location_hashtags;
          sel_time := time;
          sel_cta := cta;
          sel_prompt := prompt |}.

Definition get_fallback_content (niche city : string) (day : Z) : result string :=
  format_post day <$> select niche city day.

End fallback_content.

(** ** content_diversity.py *)

Module content_diversity.

Record theme : Type := {
  activities : list string;
  scripts : list string
}.

(** The dict literal [content_themes], in insertion order. *)
Definition content_themes (niche city : string) : list (string * theme) := [
  ("transformation",
   {| activities := ["Amazing Transformation Tuesday"; "Makeover Magic";
                     "Before & After Reveal"; "Client Glow-Up Story";
                     "Confidence Transformation"];
      scripts := [
        "Watch this incredible " +:+ niche +:+ " transformation in " +:+ city;
        "From ordinary to extraordinary - " +:+ niche +:+ " magic happens here";
        "This " +:+ city +:+ " client's transformation will inspire you"] |});
  ("education",
   {| activities := ["Tutorial Thursday"; "Technique Breakdown";
                     "Pro Tips Friday"; "Educational Content"; "How-To Guide"];
      scripts := [
        "Learn professional " +:+ niche +:+ " techniques from our " +:+ city
          +:+ " experts";
        "Master these " +:+ niche +:+ " tips for amazing results";
        "Behind-the-scenes " +:+ niche +:+ " education"] |});
  ("behind_scenes",
   {| activities := ["Behind the Scenes"; "Day in the Life"; "Process Video";
                     "Studio Tour"; "Artist at Work"];
      scripts := [
        "See what happens behind the scenes at our " +:+ city +:+ " studio";
        "A day in the life of " +:+ niche +:+ " professionals";
        "The artistry behind every " +:+ niche +:+ " service"] |});
  ("client_focus",
   {| activities := ["Client Spotlight"; "Success Story";
                     "Testimonial Feature"; "Happy Client Friday";
                     "Client Love"];
      scripts := [
        "Meet our amazing " +:+ city +:+ " clients and their " +:+ niche
          +:+ " journey";
        "Nothing makes us happier than satisfied " +:+ niche +:+ " clients";
        "Client love from the heart of " +:+ city] |});
  ("trends",
   {| activities := ["Trending Now"; "Style Forecast"; "What's Hot";
                     "Season's Best"; "Latest Looks"];
      scripts := [
        "The hottest " +:+ niche +:+ " trends taking over " +:+ city;
        "Stay ahead with these " +:+ niche +:+ " style predictions";
        "What's trending in " +:+ niche +:+ " this season"] |})
].

(** [d[key]] on a dict kept in insertion order. *)
Fixpoint dict_getitem {V} (d : list (string * V)) (key : string) : result V :=
  match d with
  | [] => Raise KeyError
  | (k, v) :: d' => if String.eqb k key then Ok v else dict_getitem d' key
  end.

Definition visuals (niche : string) : list string := [
  "High-quality " +:+ niche +:+ " photography";
  "Professional " +:+ niche +:+ " video content";
  "Before and after " +:+ niche +:+ " shots";
  "Process documentation";
  "Client reaction captures";
  "Detail shots of " +:+ niche +:+ " work";
  "Studio atmosphere photos";
  "Tool and technique displays"].

Definition captions (niche city : string) : list string := [
  "Ready to elevate your " +:+ niche +:+ " game in " +:+ city
    +:+ "? We're here to make it happen!";
  "Your " +:+ niche
    +:+ " journey starts with the right professionals. Book your " +:+ city
    +:+ " appointment today!";
  "Excellence in " +:+ niche +:+ " services, right here in " +:+ city
    +:+ ". Experience the difference!";
  "Transform your look, boost your confidence. That's the " +:+ niche
    +:+ " magic we create in " +:+ city +:+ "!";
  "Professional " +:+ niche
    +:+ " services that exceed expectations. Welcome to your " +:+ city
    +:+ " beauty destination!"].

Definition hashtags_sets (niche city : string) : list string :=
  let n := Py.replace Py.space "" niche in
  let c := Py.replace Py.space "" city in [
  "#" +:+ n +:+ " #" +:+ c +:+ "Beauty #Transform #BookNow";
  "#" +:+ n +:+ "Goals #" +:+ c +:+ "Salon #Professional #BeautyVibes";
  "#" +:+ n +:+ "Expert #" +:+ c +:+ "Style #Confidence #GlowUp";
  "#" +:+ n +:+ "Art #" +:+ c +:+ "Beauty #Precision #Results";
  "#" +:+ n +:+ "Magic #" +:+ c +:+ "Professionals #Excellence #SalonLife"].

Definition times : list string :=
  ["Peak hours"; "Morning sessions"; "Afternoon appointments";
   "Evening slots"; "Weekend availability"; "Flexible scheduling"].

Definition ctas : list string :=
  ["Book your transformation!"; "Schedule today!"; "Call now!";
   "DM to book!"; "Limited availability!"; "Transform with us!";
   "Your appointment awaits!"; "Book consultation!"].

(** [f"{activity.lower()}_{script[:30].lower()}"] *)
Definition signature (activity script : string) : string :=
  Py.lower activity +:+ "_" +:+ Py.lower (Py.left 30 script).

(** The variables the collision loop reads and writes. *)
Record loop_state : Type := {
  counter : Z;
  activity_index : Z;
  script_index : Z;
  activity : string;
  script : string;
  content_signature : string
}.

(** [content_signature in used_content and counter < 10] *)
Definition loop_cond (used_content : gset string) (st : loop_state) : bool :=
  bool_decide (content_signature st ∈ used_content) && (counter st <? 10).

Definition loop_body (t : theme) (st : loop_state) : result loop_state :=
  let counter' := counter st + 1 in
  let activity_index' := (activity_index st + 1) `mod` Py.len (activities t) in
  let script_index' := (script_index st + 1) `mod` Py.len (scripts t) in
  activity' ← Py.getitem (activities t) activity_index';
  script' ← Py.getitem (scripts t) script_index';
  mret {| counter := counter';
          activity_index := activity_index';
          script_index := script_index';
          activity := activity';
          script := script';
          content_signature := signature activity' script' |}.

(** The theme of the day and the state in which the loop is entered. *)
Definition select_theme (niche city : string) (day : Z) : result theme :=
  let themes := content_themes niche city in
  let theme_keys := themes.*1 in
  key ← Py.getitem theme_keys (day `mod` Py.len theme_keys);
  dict_getitem themes key.

Definition loop_entry (t : theme) (day : Z) : result loop_state :=
  let activity_index0 := (day - 1) `mod` Py.len (activities t) in
  let script_index0 := (day - 1) `mod` Py.len (scripts t) in
  activity0 ← Py.getitem (activities t) activity_index0;
  script0 ← Py.getitem (scripts t) script_index0;
  mret {| counter := 0;
          activity_index := activity_index0;
          script_index := script_index0;
          activity := activity0;
          script := script0;
          content_signature := signature activity0 script0 |}.

(** The values of the local variables of [generate_diverse_content] when
    it reaches its [return], the loop being given [fuel] tests. *)
Definition select (fuel : nat) (niche city : string) (day : Z)
    (used_content : gset string) : option (result (loop_state * selection)) :=
  match select_theme niche city day with
  | Raise e => Some (Raise e)
  | Ok t =>
      match loop_entry t day with
      | Raise e => Some (Raise e)
      | Ok st0 =>
          match while fuel (loop_cond used_content) (loop_body t) st0 with
          | None => None
          | Some (Raise e) => Some (Raise e)
          | Some (Ok st) => Some (
              visual ← Py.getitem (visuals niche) (day `mod` Py.len (visuals niche));
              caption ← Py.getitem (captions niche city)
                           (day `mod` Py.len (captions niche city));
              hashtags ← Py.getitem (hashtags_sets niche city)
                            (day `mod` Py.len (hashtags_sets niche city));
              time ← Py.getitem times (day `mod` Py.len times);
              cta ← Py.getitem ctas (day `mod` Py.len ctas);
              let prompt :=
                if is_beauty niche then
                  "Professional " +:+ niche +:+ " salon in " +:+ city
                  +:+ ", modern interior design, natural lighting, happy clients, premium equipment, '@salonsuitedigitalstudio' subtly visible in background or signage"
                else
                  "Professional " +:+ niche +:+ " business in " +:+ city
                  +:+ ", modern interior design, natural lighting, satisfied customers, quality equipment, '@salonsuitedigitalstudio' subtly visible in background or signage" in
              mret (st, {| sel_activity := activity st;
                           sel_script := script st;
                           sel_visual := visual;
                           sel_caption := caption;
                           sel_hashtags := hashtags;
                           sel_time := time;
                           sel_cta := cta;
                           sel_prompt := prompt |}))
          end
      end
  end.

Definition generate_diverse_content_fuel (fuel : nat) (niche city : string)
    (day : Z) (used_content : gset string) : option (result string) :=
  fmap (M := result) (fun r => format_post day r.2)
    <$> select fuel niche city day used_content.

(** Eleven tests of the loop condition are always enough
    (see [generate_diverse_content_terminates]); the callers run it so. *)
Definition loop_fuel : nat := 11.

Definition generate_diverse_content (niche city : string) (day : Z)
    (used_content : gset string) : result string :=
  match generate_diverse_content_fuel loop_fuel niche city day used_content with
  | Some r => r
  | None => Raise ServiceError
  end.

End content_diversity.

(** ** ssds_ai.py *)

Module ssds_ai.

Record trend : Type := {
  audio : string;
  hashtags : string
}.

Definition trends : list (string * trend) := [
  ("hair", {| audio := "Trending hair transformation audio with before/after transitions";
              hashtags := "#HairTransformation #HairGoals #SalonLife #HairTrends #BeautyTok" |});
  ("nails", {| audio := "Nail art process audio with satisfying ASMR sounds";
               hashtags := "#NailArt #NailGoals #SalonNails #NailTrends #BeautyVibes" |});
  ("lashes", {| audio := "Lash extension process with dramatic reveal audio";
                hashtags := "#LashGoals #LashExtensions #BeautyTrends #EyeLashes #SalonLife" |});
  ("makeup", {| audio := "Makeup transformation with trending beauty audio";
                hashtags := "#MakeupArtist #MakeupGoals #BeautyMakeup #GlamSquad #MakeupTrends" |});
  ("skincare", {| audio := "Skincare routine audio with calming background music";
                  hashtags := "#SkinCare #GlowUp #HealthySkin #SkinGoals #BeautyRoutine" |});
  ("eyebrows", {| audio := "Eyebrow shaping process with precision audio";
                  hashtags := "#BrowGoals #EyebrowShaping #BrowArt #BeautyBrows #SalonBrows" |});
  ("microblading", {| audio := "Precision microblading process with satisfying technique audio";
                      hashtags := "#Microblading #BrowArt #PermanentMakeup #BeautyProfessional #BrowGoals" |});
  ("massage", {| audio := "Relaxing spa music with peaceful ambience";
                 hashtags := "#MassageTherapy #SelfCare #Wellness #Relaxation #SpaLife" |});
  ("fitness", {| audio := "Motivational workout music with high energy beats";
                 hashtags := "#FitnessMotivation #WorkoutGoals #HealthyLifestyle #FitLife #Wellness" |});
  ("photography", {| audio := "Behind-the-scenes creative process audio";
                     hashtags := "#Photography #CreativeProcess #PhotoShoot #ArtisticVision #BehindTheScenes" |});
  ("consulting", {| audio := "Professional business development audio";
                    hashtags := "#BusinessConsulting #ProfessionalDevelopment #Success #Strategy #Growth" |})
].

Definition default_trend : trend :=
  {| audio := "Trending transformation audio with engaging reveals";
     hashtags := "#SmallBusiness #Entrepreneur #LocalBusiness #Success #Growth" |}.

(** [trends.get(niche.lower(), {...})] *)
Definition get_live_trends (niche : string) : trend :=
  match content_diversity.dict_getitem trends (Py.lower niche) with
  | Ok t => t
  | Raise _ => default_trend
  end.

(** What [client.chat.completions.create] does on a prompt: it raises
    (time-out, network, no choice in the response), or it returns a
    response whose first message content is [None] or a [str]. *)
Inductive completion : Type :=
  | Failed (e : exn)
  | Content (c : option string).

(** The two services [generate_social_post] talks to.  [get_live_hashtags]
    catches everything and returns a string; its value on a keyword is
    taken as given. *)
Record services : Type := {
  get_live_hashtags : string -> string;
  create : string -> completion
}.

(** [sep.join(l)] on objects: every item must be a [str]. *)
Fixpoint strs (l : list pyval) : result (list string) :=
  match l with
  | [] => Ok []
  | PStr s :: l' => (s ::.) <$> strs l'
  | PInt _ :: _ => Raise TypeError
  end.

(** [[post.get(key, '') for post in previous_posts if post.get(key)]] *)
Definition collect (key : string) (previous_posts : list pydict) : list pyval :=
  flat_map (fun post : pydict =>
              match post !! key with
              | Some v => if truthy_val v then [v] else []
              | None => []
              end) previous_posts.

(** The loop over [used_concepts] filling [key_concepts]. *)
Fixpoint key_concepts (used_concepts : list pyval) : result (list string) :=
  match used_concepts with
  | [] => Ok []
  | visual :: rest =>
      if truthy_val visual then
        match visual with
        | PStr v =>
            if 10 <? Z.of_nat (String.length v)
            then ((Py.left 50 v +:+ "...") ::.) <$> key_concepts rest
            else key_concepts rest
        | PInt _ => Raise TypeError
        end
      else key_concepts rest
  end.

Definition nl : string := String Py.newline EmptyString.
Definition dq : string := String "034"%char EmptyString.

Definition previous_context (previous_posts : list pydict) : result string :=
  match previous_posts with
  | [] => Ok ""
  | _ =>
      let used_activities := collect "Activity" previous_posts in
      let used_concepts := collect "Visual" previous_posts in
      ctx1 ← match used_activities with
             | [] => Ok ""
             | _ => l ← strs used_activities;
                    mret (nl +:+ nl +:+ "PREVIOUS ACTIVITIES USED (DO NOT REPEAT): "
                          +:+ Py.join ", " l)
             end;
      match used_concepts with
      | [] => Ok ctx1
      | _ => ks ← key_concepts used_concepts;
             match ks with
             | [] => Ok ctx1
             | _ => Ok (ctx1 +:+ nl +:+ nl
                        +:+ "PREVIOUS VISUAL CONCEPTS USED (CREATE SOMETHING DIFFERENT): "
                        +:+ Py.join "; " ks)
             end
      end
  end.

Definition prompt_text (niche city : string) (day : Z)
    (focus_instruction audio previous_context live_hashtags : string) : string :=
  Py.join nl [
    "";
    "You are an expert AI social media strategist helping a " +:+ niche
      +:+ " professional in " +:+ city +:+ ".";
    "";
    "Your task is to generate a single Instagram or TikTok post idea for Day "
      +:+ Py.str day +:+ " focused specifically on " +:+ niche +:+ ".";
    "";
    "CONTENT STRATEGY:";
    "- Mix content types: reels (2-3x/week), carousels, stories, client features, behind-scenes";
    "- Each day should be UNIQUE and engaging - avoid repeating previous concepts";
    "- " +:+ focus_instruction;
    "- Include local " +:+ city +:+ " appeal when relevant";
    "- Current trend to incorporate: " +:+ audio;
    previous_context;
    "";
    "UNIQUENESS REQUIREMENTS:";
    "- Create completely different activity types from previous days";
    "- Use fresh visual concepts and angles";
    "- Vary the content format (video vs photo, indoor vs outdoor, etc.)";
    "- Ensure each day offers unique value to followers";
    "";
    "OUTPUT FORMAT: Use exactly 9 fields separated by pipes (|), no extra text or labels:";
    "Day | Activity | Script | Visual | Caption | Hashtags | Time | CTA | Prompt";
    "";
    "GUIDELINES:";
    "- Day: Write " +:+ dq +:+ "Day " +:+ Py.str day +:+ dq;
    "- Activity: Type of post (transformation reel, tutorial, client feature, behind-scenes, etc.) - MUST BE DIFFERENT from previous days";
    "- Script: What they would say/text overlay (keep concise, 1-2 sentences)";
    "- Visual: Describe the video/image concept in detail - MUST BE UNIQUE from previous posts";
    "- Caption: Engaging caption with personality, no hashtags here (2-3 sentences)";
    "- Hashtags: Mix of niche, location, trending tags: " +:+ live_hashtags;
    "- Time: Best posting time (morning/afternoon/evening)";
    "- CTA: Clear call-to-action";
    "- Prompt: AI image generation prompt for creating marketing background images. Always include "
      +:+ dq +:+ "@salonsuitedigitalstudio" +:+ dq
      +:+ " subtly hidden in the image (on a sign, reflection, or background element). Make it photorealistic and professional.";
    "";
    "Focus on authentic, engaging content that drives bookings and builds community while ensuring each day is completely unique.";
    ""
  ].

(** [niche.split(',')[0].strip() if ',' in niche else niche] *)
Definition primary_niche (niche : string) : string :=
  if Py.contains "," niche
  then Py.strip (hd "" (Py.split Py.comma niche))
  else niche.

(** The hard-coded last resort of [generate_social_post]. *)
Definition emergency_content (niche city : string) (day : Z)
    (fallback_hashtags : string) : string :=
  "Day " +:+ Py.str day +:+ " | Professional Content | Engaging " +:+ niche
  +:+ " content | High-quality visuals | Professional " +:+ niche
  +:+ " content for " +:+ city +:+ " | " +:+ fallback_hashtags
  +:+ " | Peak hours | Book today | Professional marketing image with @salonsuitedigitalstudio visible".

Definition generate_social_post (w : services) (niche city : string) (day : Z)
    (previous_posts : list pydict) : result string :=
  let primary_niche := primary_niche niche in
  let trend_data := get_live_trends primary_niche in
  let audio := audio trend_data in
  let fallback_hashtags := hashtags trend_data in
  let live_hashtags :=
    let h := get_live_hashtags w (niche +:+ " " +:+ city) in
    if Py.truthy h then h else fallback_hashtags in
  let focus_instruction :=
    if Py.contains "," niche
    then "Create content that can appeal to clients interested in any of these services: "
         +:+ niche
    else "Focus on " +:+ niche +:+ " expertise while showcasing personality" in
  previous_context ← previous_context previous_posts;
  let prompt :=
    prompt_text niche city day focus_instruction audio previous_context
      live_hashtags in
  match fallback_content.get_fallback_content niche city day with
  | Ok fallback_post =>
      match create w prompt with
      | Content (Some c) =>
          if Py.truthy c then Ok (Py.strip c) else Ok fallback_post
      | Content None => Ok fallback_post
      | Failed _ => Ok fallback_post
      end
  | Raise _ => Ok (emergency_content niche city day fallback_hashtags)
  end.

End ssds_ai.

(** ** main.py *)

Module main.

(** The submitted form: [request.form]. *)
Record form : Type := {
  niches : list string;
  customNiche : option string;
  city : option string;
  days : option string
}.

Inductive request : Type :=
  | GET
  | POST (f : form).

(** What [df.to_html] does on the accumulated rows. *)
Inductive rendering : Type :=
  | Html (table : string)
  | RenderError (message : string).

(** The world a request runs in: the services as they answer on each
    day, and the renderer. *)
Record world : Type := {
  services_on : Z -> ssds_ai.services;
  to_html : list pydict -> rendering
}.

(** The handler's locals when it returns, and the days on which it
    called [generate_social_post]. *)
Record response : Type := {
  table_html : option string;
  error_message : option string;
  calendar_data : list pydict;
  ai_calls : list Z
}.

(** Lines 58-68: the combined niche string. *)
Definition combined_niche (selected_niches : list string)
    (custom_niche : string) : string :=
  let selected_niches :=
    if bool_decide ("other" ∈ selected_niches) && Py.truthy custom_niche then
      filter (fun n => n ≠ "other") selected_niches ++ [custom_niche]
    else if bool_decide ("other" ∈ selected_niches)
            && negb (Py.truthy custom_niche) then
      filter (fun n => n ≠ "other") selected_niches
    else selected_niches in
  match selected_niches with
  | [] => ""
  | _ => Py.join ", " selected_niches
  end.

Definition activities : list string :=
  ["Behind the Scenes"; "Client Testimonial"; "Before & After";
   "Educational Tip"; "Team Spotlight"; "Product Feature";
   "Service Highlight"].

Definition scripts (niche city : string) : list string := [
  "See what makes our " +:+ niche +:+ " special in " +:+ city;
  "Happy clients are our priority in " +:+ city;
  "Professional " +:+ niche +:+ " services you can trust in " +:+ city;
  "Quality " +:+ niche +:+ " experience in " +:+ city;
  "Your local " +:+ niche +:+ " experts in " +:+ city;
  "Excellence in " +:+ niche +:+ " services in " +:+ city;
  "Transform your look with our " +:+ niche +:+ " in " +:+ city].

Definition times : list string :=
  ["Morning (9-11am)"; "Afternoon (2-4pm)"; "Evening (6-8pm)"; "Peak hours";
   "Lunch break"; "Weekend"].

Definition ctas : list string :=
  ["Book now"; "Call today"; "DM us"; "Visit our website";
   "Schedule consultation"; "Get started"].

(** [niche.split(',')[0].replace(' ', '')] *)
Definition first_niche_tag (niche : string) : result string :=
  Py.replace Py.space "" <$> Py.getitem (Py.split Py.comma niche) 0.

(** Lines 116-134: the safe predefined content of a day. *)
Definition safe_post (niche city : string) (day : Z) : result string :=
  activity ← Py.getitem activities ((day - 1) `mod` Py.len activities);
  script ← Py.getitem (scripts niche city)
              ((day - 1) `mod` Py.len (scripts niche city));
  time_slot ← Py.getitem times ((day - 1) `mod` Py.len times);
  cta ← Py.getitem ctas ((day - 1) `mod` Py.len ctas);
  tag ← first_niche_tag niche;
  mret ("Day " +:+ Py.str day +:+ " | " +:+ activity +:+ " | " +:+ script
        +:+ " | Professional " +:+ niche +:+ " content | " +:+ script
        +:+ " Book your appointment today! | #" +:+ tag +:+ " #"
        +:+ Py.replace Py.space "" city +:+ " #Professional #Local | "
        +:+ time_slot +:+ " | " +:+ cta +:+ " | Professional " +:+ niche
        +:+ " business in " +:+ city
        +:+ ", modern setup, '@salonsuitedigitalstudio' visible").

(** Line 137: [[p.strip().replace("\n", " ") for p in post.strip().split("|")]] *)
Definition parts_of (post : string) : list string :=
  (fun p => Py.replace Py.newline " " (Py.strip p))
    <$> Py.split Py.pipe (Py.strip post).

(** [parts[i] if len(parts) > i else default] *)
Definition part_or (parts : list string) (i : Z) (default : result string)
    : result string :=
  if Py.len parts >? i then Py.getitem parts i else default.

(** Lines 141-151: the calendar entry with safe defaults. *)
Definition calendar_entry (niche city : string) (day : Z) (parts : list string)
    : result pydict :=
  e_day ← part_or parts 0 (Ok ("Day " +:+ Py.str day));
  e_activity ← part_or parts 1 (Ok "Social media post");
  e_script ← part_or parts 2 (Ok ("Professional " +:+ niche +:+ " content"));
  e_visual ← part_or parts 3 (Ok "Professional visual");
  e_caption ← part_or parts 4 (Ok ("Quality " +:+ niche +:+ " in " +:+ city));
  e_hashtags ← part_or parts 5
    (tag ← first_niche_tag niche;
     mret ("#" +:+ tag +:+ " #" +:+ Py.replace Py.space "" city));
  e_time ← part_or parts 6 (Ok "Peak hours");
  e_cta ← part_or parts 7 (Ok "Book now");
  e_prompt ← part_or parts 8
    (Ok ("Professional " +:+ niche +:+ " business in " +:+ city));
  mret (list_to_map [
    ("Day", PStr e_day); ("Activity", PStr e_activity);
    ("Script", PStr e_script); ("Visual", PStr e_visual);
    ("Caption", PStr e_caption); ("Hashtags", PStr e_hashtags);
    ("Time", PStr e_time); ("CTA", PStr e_cta); ("Prompt", PStr e_prompt)]).

(** Lines 163-173: the emergency entry of the [except] branch. *)
Definition emergency_entry (niche city : string) (day : Z) : pydict :=
  let tag := match first_niche_tag niche with Ok t => t | Raise _ => "" end in
  list_to_map [
    ("Day", PStr ("Day " +:+ Py.str day));
    ("Activity", PStr "Social Media Post");
    ("Script", PStr ("Professional " +:+ niche +:+ " services in " +:+ city));
    ("Visual", PStr "Professional business photo");
    ("Caption", PStr ("Quality " +:+ niche +:+ " services in " +:+ city
                      +:+ " - book today!"));
    ("Hashtags", PStr ("#" +:+ tag +:+ " #" +:+ Py.replace Py.space "" city
                       +:+ " #Professional"));
    ("Time", PStr "Peak hours");
    ("CTA", PStr "Book now");
    ("Prompt", PStr ("Professional " +:+ niche +:+ " business in " +:+ city))].

(** [not post or len(post.split("|")) < 6] *)
Definition unusable (post : option string) : bool :=
  match post with
  | None => true
  | Some p => negb (Py.truthy p) || (Py.len (Py.split Py.pipe p) <? 6)
  end.

(** Lines 105-111: the guarded attempt at generated content.  The flag
    tells whether [generate_social_post] was called. *)
Definition attempt (w : world) (niche city : string) (num_days day : Z)
    (calendar_data : list pydict) : option string * bool :=
  if num_days <=? 7 then
    match ssds_ai.generate_social_post (services_on w day) niche city day
            calendar_data with
    | Ok post => (Some post, true)
    | Raise _ => (None, true)
    end
  else (None, false).

(** Lines 98-178: one turn of the loop over the days. *)
Definition day_turn (w : world) (niche city : string) (num_days : Z)
    (acc : list pydict * list Z) (day : Z) : list pydict * list Z :=
  let '(calendar_data, calls) := acc in
  let '(post, called) := attempt w niche city num_days day calendar_data in
  let calls := if called then calls ++ [day] else calls in
  let entry :=
    post ← (if unusable post then safe_post niche city day
            else Ok (default "" post));
    calendar_entry niche city day (parts_of post) in
  match entry with
  | Ok calendar_entry => (calendar_data ++ [calendar_entry], calls)
  | Raise _ => (calendar_data ++ [emergency_entry niche city day], calls)
  end.

Definition generate_calendar (w : world) (req : request) : response :=
  match req with
  | GET =>
      {| table_html := None; error_message := None; calendar_data := [];
         ai_calls := [] |}
  | POST f =>
      let selected_niches := niches f in
      let custom_niche := Py.strip (default "" (customNiche f)) in
      let city := Py.strip (default "" (city f)) in
      let num_days := default "7" (days f) in
      let niche := combined_niche selected_niches custom_niche in
      if negb (Py.truthy niche) || negb (Py.truthy city) then
        {| table_html := None;
           error_message :=
             Some "Please select at least one niche and enter your city.";
           calendar_data := []; ai_calls := [] |}
      else
        match Py.int num_days with
        | Raise _ =>
            {| table_html := None;
               error_message := Some "Please enter a valid number of days.";
               calendar_data := []; ai_calls := [] |}
        | Ok num_days =>
            if (num_days <? 1) || (num_days >? 30) then
              {| table_html := None;
                 error_message :=
                   Some "Number of days must be between 1 and 30.";
                 calendar_data := []; ai_calls := [] |}
            else
              let num_days := Z.min num_days 30 in
              let '(calendar_data, calls) :=
                foldl (day_turn w niche city num_days) ([], [])
                      (Py.range 1 (num_days + 1)) in
              match calendar_data with
              | [] =>
                  {| table_html := None;
                     error_message := Some
                       "No content was generated. Please check your input and try again.";
                     calendar_data := calendar_data; ai_calls := calls |}
              | _ =>
                  match to_html w calendar_data with
                  | Html table =>
                      {| table_html := Some table; error_message := None;
                         calendar_data := calendar_data; ai_calls := calls |}
                  | RenderError message =>
                      {| table_html := None;
                         error_message := Some
                           ("An error occurred while generating content: "
                            +:+ message);
                         calendar_data := calendar_data; ai_calls := calls |}
                  end
              end
        end
  end.

End main.

(** ** crash_prevention.py *)

Module crash_prevention.

(** [get_emergency_fallback]: the positional arguments
    when there are at least three, else the keyword defaults (the callers
    pass no keyword). *)
Definition get_emergency_fallback (args : option (string * string * Z)) : string :=
  let '(niche, city, day) := default ("business", "local", 1) args in
  "Day " +:+ Py.str day +:+ " | " +:+ Py.title niche
  +:+ " Content | Professional " +:+ niche +:+ " service in " +:+ city
  +:+ " | High-quality content | Quality " +:+ niche +:+ " services in "
  +:+ city +:+ " - book today! | #" +:+ Py.replace Py.space "" niche +:+ " #"
  +:+ Py.replace Py.space "" city
  +:+ "Business #Professional | Peak hours | Book now | Professional "
  +:+ niche +:+ " business in " +:+ city
  +:+ ", modern setup, '@salonsuitedigitalstudio' visible".

(** The wrapper [safe_generation_wrapper] returns: [disturbed] tells
    whether the protection itself (memory probe, alarm signal, time-out)
    raised; [ran] is what the wrapped function does when it is let run. *)
Definition safe_generation_wrapper (disturbed : bool) (ran : result string)
    (args : option (string * string * Z)) : string :=
  if disturbed then get_emergency_fallback args
  else match ran with
       | Ok r => r
       | Raise _ => get_emergency_fallback args
       end.

(** [chunk_large_request(total_items, chunk_size)] *)
Definition chunk_large_request (total_items chunk_size : Z)
    : result (list (Z * Z)) :=
  starts ← Py.range3 0 total_items chunk_size;
  mret (fmap (M := list)
          (fun i => (i, Z.min (i + chunk_size) total_items)) starts).

(** The world a batch runs in: the sampled memory utilisation, and for
    the business at a position and a day, the services and whether the
    protection raised. *)
Record world : Type := {
  memory_percent : QArith_base.Q;
  services_on : Z -> Z -> ssds_ai.services;
  disturbed_on : Z -> Z -> bool
}.

(** Lines 192-198 *)
Definition safe_chunk_size (memory_percent : QArith_base.Q)
    (max_chunk_size : Z) : Z :=
  if negb (QArith_base.Qle_bool memory_percent (QArith_base.inject_Z 60))
  then 3
  else if negb (QArith_base.Qle_bool memory_percent (QArith_base.inject_Z 40))
  then 5
  else Z.min max_chunk_size 10.

(** [item.get(key, default)] followed by a [str] method. *)
Definition get_str (item : pydict) (key : string) : result string :=
  match item !! key with
  | None => Ok ""
  | Some (PStr s) => Ok s
  | Some (PInt _) => Raise AttributeError
  end.

(** Lines 221-224: the set comprehension over [calendar_data]. *)
Fixpoint used_signatures (calendar_data : list pydict) : result (gset string) :=
  match calendar_data with
  | [] => Ok ∅
  | item :: rest =>
      a ← get_str item "Activity";
      s ← get_str item "Script";
      used ← used_signatures rest;
      mret ({[ Py.lower a +:+ "_" +:+ Py.lower (Py.left 30 s) ]} ∪ used)
  end.

(** Lines 218-226: the body of [generate_single_post]. *)
Definition generate_single_post (sv : ssds_ai.services) (niche city : string)
    (day : Z) (calendar_data : list pydict) : result string :=
  post ← ssds_ai.generate_social_post sv niche city day calendar_data;
  if negb (Py.truthy post) || (Py.len (Py.split Py.pipe post) <? 6) then
    used ← used_signatures calendar_data;
    content_diversity.generate_diverse_content niche city day used
  else Ok post.

(** Lines 233-243 *)
Definition post_data (day : Z) (fields : list string) : result pydict :=
  activity ← Py.getitem fields 1;
  script ← Py.getitem fields 2;
  visual ← Py.getitem fields 3;
  caption ← Py.getitem fields 4;
  hashtags ← Py.getitem fields 5;
  time ← Py.getitem fields 6;
  cta ← Py.getitem fields 7;
  ai_prompt ← Py.getitem fields 8;
  mret (list_to_map [
    ("day", PInt day); ("activity", PStr (Py.strip activity));
    ("script", PStr (Py.strip script)); ("visual", PStr (Py.strip visual));
    ("caption", PStr (Py.strip caption));
    ("hashtags", PStr (Py.strip hashtags)); ("time", PStr (Py.strip time));
    ("cta", PStr (Py.strip cta)); ("ai_prompt", PStr (Py.strip ai_prompt))]).

(** Lines 216-252: one turn of the loop over the days of a business. *)
Definition day_turn (sv : Z -> ssds_ai.services) (disturbed : Z -> bool)
    (niche city : string) (calendar_data : list pydict) (day : Z)
    : list pydict :=
  let post :=
    safe_generation_wrapper (disturbed day)
      (generate_single_post (sv day) niche city day calendar_data) None in
  if Py.truthy post then
    let fields := Py.split Py.pipe post in
    if Py.len fields >=? 9 then
      match post_data day fields with
      | Ok d => calendar_data ++ [d]
      | Raise _ => calendar_data
      end
    else calendar_data
  else calendar_data.

(** Line 215: [range(1, min(days + 1, 10))] *)
Definition day_range (days : Z) : list Z := Py.range 1 (Z.min (days + 1) 10).

(** Lines 210-252: the calendar of one business. *)
Definition business_calendar (sv : Z -> ssds_ai.services)
    (disturbed : Z -> bool) (business : gmap string string) (days : Z)
    : list pydict :=
  let niche := default "business" (business !! "niche") in
  let city := default "local" (business !! "city") in
  foldl (day_turn sv disturbed niche city) [] (day_range days).

(** The record appended for a business whose processing completed. *)
Record batch_result : Type := {
  business : gmap string string;
  calendar_data : list pydict;
  status : string;
  posts_generated : Z
}.

Definition process_business (w : world) (position : Z)
    (business : gmap string string) (days : Z) : batch_result :=
  let calendar_data :=
    business_calendar (services_on w position) (disturbed_on w position)
      business days in
  {| business := business;
     calendar_data := calendar_data;
     status := "completed";
     posts_generated := Py.len calendar_data |}.

(** Lines 203-273: the results of one chunk. *)
Definition process_chunk (w : world) (businesses : list (gmap string string))
    (days : Z) (chunk : Z * Z) : list batch_result :=
  let '(chunk_start, chunk_end) := chunk in
  let chunk_businesses := Py.slice businesses chunk_start chunk_end in
  imap (fun i b => process_business w (chunk_start + Z.of_nat i) b days)
       chunk_businesses.

Definition safe_batch_generation (w : world)
    (businesses : list (gmap string string)) (days max_chunk_size : Z)
    : result (list batch_result) :=
  let max_chunk_size := safe_chunk_size (memory_percent w) max_chunk_size in
  chunks ← chunk_large_request (Py.len businesses) max_chunk_size;
  mret (chunks ≫= process_chunk w businesses days).

End crash_prevention.

(** ** deployment_main.py: the production governor *)

Module deployment_main.

(** The fields of [ProductionSafety] that gate admission.  Every method
    runs under [self.lock], so each is one atomic transition. *)
Record ProductionSafety : Type := {
  max_concurrent : Z;
  active_requests : Z
}.

(** [__init__] *)
Definition init : ProductionSafety :=
  {| max_concurrent := 2; active_requests := 0 |}.

Definition can_process (s : ProductionSafety) : bool :=
  active_requests s <? max_concurrent s.

Definition busy : string := "Server busy - too many concurrent requests".

(** [start_request]: the raised message, or nothing, and the state left. *)
Definition start_request (s : ProductionSafety)
    : option string * ProductionSafety :=
  if active_requests s >=? max_concurrent s then (Some busy, s)
  else (None, {| max_concurrent := max_concurrent s;
                 active_requests := active_requests s + 1 |}).

Definition end_request (s : ProductionSafety) : ProductionSafety :=
  {| max_concurrent := max_concurrent s;
     active_requests := Z.max 0 (active_requests s - 1) |}.

(** The calls a governor can receive. *)
Inductive call : Type :=
  | CanProcess
  | StartRequest
  | EndRequest.

Definition step (s : ProductionSafety) (c : call) : ProductionSafety :=
  match c with
  | CanProcess => s
  | StartRequest => (start_request s).2
  | EndRequest => end_request s
  end.

(** The states reached from [init] by some sequence of calls. *)
Definition reachable (s : ProductionSafety) : Prop :=
  exists calls : list call, s = foldl step init calls.

End deployment_main.

(** ** ultra_safe_main.py *)

Module ultra_safe_main.

Record UltraSafety : Type := {
  active_requests : Z;
  max_requests : Z
}.

Definition init : UltraSafety := {| active_requests := 0; max_requests := 5 |}.

Definition busy : string := "System busy, try again in a moment".

(** Entering [safe_request()]: the raised message, or nothing, and the
    state left. *)
Definition safe_request_enter (s : UltraSafety) : option string * UltraSafety :=
  if active_requests s >=? max_requests s then (Some busy, s)
  else (None, {| active_requests := active_requests s + 1;
                 max_requests := max_requests s |}).

(** Leaving it: the [finally] clause. *)
Definition safe_request_exit (s : UltraSafety) : UltraSafety :=
  {| active_requests := active_requests s - 1;
     max_requests := max_requests s |}.

(** The governor together with the number of requests that are inside
    the [with] block.  A request enters (admitted or rejected) or one of
    those inside leaves. *)
Record system : Type := {
  safety : UltraSafety;
  inside : Z
}.

Inductive event : Type :=
  | Enter
  | Leave.

Definition step (y : system) (e : event) : system :=
  match e with
  | Enter =>
      match safe_request_enter (safety y) with
      | (Some _, s) => {| safety := s; inside := inside y |}
      | (None, s) => {| safety := s; inside := inside y + 1 |}
      end
  | Leave =>
      if 0 <? inside y
      then {| safety := safe_request_exit (safety y); inside := inside y - 1 |}
      else y
  end.

Definition reachable (y : system) : Prop :=
  exists events : list event,
    y = foldl step {| safety := init; inside := 0 |} events.

Definition activities : list string :=
  ["Behind the Scenes"; "Client Testimonial"; "Before & After";
   "Educational Tip"; "Team Spotlight"; "Product Feature";
   "Service Highlight"].

Definition scripts (safe_niche safe_city : string) : list string := [
  "See what makes our " +:+ safe_niche +:+ " special in " +:+ safe_city;
  "Happy clients are our priority at our " +:+ safe_niche +:+ " in "
    +:+ safe_city;
  "Professional " +:+ safe_niche +:+ " services you can trust in "
    +:+ safe_city;
  "Quality " +:+ safe_niche +:+ " experience in " +:+ safe_city;
  "Your local " +:+ safe_niche +:+ " experts in " +:+ safe_city;
  "Excellence in " +:+ safe_niche +:+ " services in " +:+ safe_city;
  "Transform your look with our " +:+ safe_niche +:+ " in " +:+ safe_city].

Definition times : list string :=
  ["Morning (9-11am)"; "Afternoon (2-4pm)"; "Evening (6-8pm)"; "Peak hours";
   "Lunch break"; "Weekend"].

Definition ctas : list string :=
  ["Book now"; "Call today"; "DM us"; "Visit our website";
   "Schedule consultation"; "Get started"].

Definition create_safe_content (niche city : string) (day : Z) : result pydict :=
  safe_niche ← (if Py.truthy niche
                then Py.strip <$> Py.getitem (Py.split Py.comma niche) 0
                else Ok "business");
  let safe_city := if Py.truthy city then Py.strip city else "local" in
  activity ← Py.getitem activities ((day - 1) `mod` Py.len activities);
  script ← Py.getitem (scripts safe_niche safe_city)
              ((day - 1) `mod` Py.len (scripts safe_niche safe_city));
  time_slot ← Py.getitem times ((day - 1) `mod` Py.len times);
  cta ← Py.getitem ctas ((day - 1) `mod` Py.len ctas);
  mret (list_to_map [
    ("Day", PStr ("Day " +:+ Py.str day));
    ("Activity", PStr activity);
    ("Script", PStr script);
    ("Visual", PStr ("Professional " +:+ safe_niche +:+ " content"));
    ("Caption", PStr (script +:+ " Book your appointment today!"));
    ("Hashtags", PStr ("#" +:+ Py.replace Py.space "" safe_niche +:+ " #"
                       +:+ Py.replace Py.space "" safe_city
                       +:+ " #Professional #Local"));
    ("Time", PStr time_slot);
    ("CTA", PStr cta);
    ("Prompt", PStr ("Professional " +:+ safe_niche +:+ " business in "
                     +:+ safe_city
                     +:+ ", modern setup, '@salonsuitedigitalstudio' visible"))]).

Record response : Type := {
  table_html : option string;
  error_message : option string;
  calendar_data : list pydict
}.

(** Lines 95-126: one turn of the loop over the days. *)
Definition day_turn (niche city : string) (calendar_data : list pydict)
    (day : Z) : list pydict :=
  match create_safe_content niche city day with
  | Ok day_content => calendar_data ++ [day_content]
  | Raise _ => calendar_data ++ [main.emergency_entry niche city day]
  end.

(** Lines 62-144: the body of the [with] block. *)
Definition admitted (to_html : list pydict -> main.rendering) (f : main.form)
    : response :=
  let selected_niches := main.niches f in
  let custom_niche := Py.strip (default "" (main.customNiche f)) in
  let city := Py.strip (default "" (main.city f)) in
  let num_days := default "7" (main.days f) in
  let niche := main.combined_niche selected_niches custom_niche in
  if negb (Py.truthy niche) || negb (Py.truthy city) then
    {| table_html := None;
       error_message :=
         Some "Please select at least one niche and enter your city.";
       calendar_data := [] |}
  else
    match Py.int num_days with
    | Raise _ =>
        {| table_html := None;
           error_message := Some "Please enter a valid number of days.";
           calendar_data := [] |}
    | Ok num_days =>
        if (num_days <? 1) || (num_days >? 10) then
          {| table_html := None;
             error_message := Some "Number of days must be between 1 and 10.";
             calendar_data := [] |}
        else
          let calendar_data :=
            foldl (day_turn niche city) [] (Py.range 1 (num_days + 1)) in
          match calendar_data with
          | [] =>
              {| table_html := None;
                 error_message :=
                   Some "No content was generated. Please try again.";
                 calendar_data := calendar_data |}
          | _ =>
              match to_html calendar_data with
              | main.Html table =>
                  {| table_html := Some table; error_message := None;
                     calendar_data := calendar_data |}
              | main.RenderError _ =>
                  {| table_html := None;
                     error_message := Some
                       "Content generated but display failed. Please try again.";
                     calendar_data := calendar_data |}
              end
          end
    end.

Definition generate_calendar (to_html : list pydict -> main.rendering)
    (s : UltraSafety) (req : main.request) : response * UltraSafety :=
  match req with
  | main.GET =>
      ({| table_html := None; error_message := None; calendar_data := [] |}, s)
  | main.POST f =>
      match safe_request_enter s with
      | (Some _, s') =>
          ({| table_html := None;
              error_message := Some
                "System temporarily unavailable. Please try again in a moment.";
              calendar_data := [] |}, s')
      | (None, s') => (admitted to_html f, safe_request_exit s')
      end
  end.

End ultra_safe_main.

(** ** deployment_main.py: the request handler *)

Module deployment_calendar.

Definition activities : list string :=
  ["Behind the Scenes"; "Client Testimonial"; "Before & After";
   "Educational Tip"; "Team Spotlight"; "Product Feature";
   "Service Highlight"; "Client Review"; "Process Video"; "FAQ Post"].

Definition scripts (niche city : string) : list string := [
  "See what makes our " +:+ niche +:+ " special in " +:+ city;
  "Happy clients are our priority in " +:+ city;
  "Professional " +:+ niche +:+ " services you can trust in " +:+ city;
  "Quality " +:+ niche +:+ " experience awaits you in " +:+ city;
  "Your local " +:+ niche +:+ " experts in " +:+ city;
  "Excellence in " +:+ niche +:+ " services in " +:+ city;
  "Transform your experience with our " +:+ niche +:+ " in " +:+ city;
  "Discover why " +:+ city +:+ " chooses our " +:+ niche +:+ " services";
  "Premium " +:+ niche +:+ " solutions in " +:+ city;
  "Book your " +:+ niche +:+ " appointment in " +:+ city +:+ " today"].

Definition times : list string :=
  ["Morning (9-11am)"; "Afternoon (2-4pm)"; "Evening (6-8pm)"; "Peak hours";
   "Lunch break"; "Weekend"; "Early morning"; "Late afternoon";
   "Business hours"; "After work"].

Definition ctas : list string :=
  ["Book now"; "Call today"; "DM us"; "Visit our website";
   "Schedule consultation"; "Get started"; "Learn more"; "Contact us";
   "Reserve your spot"; "Claim your appointment"].

(** Lines 173-194: the entry of a day, built in the [try] branch. *)
Definition calendar_entry (niche city : string) (day : Z) : result pydict :=
  activity ← Py.getitem activities ((day - 1) `mod` Py.len activities);
  script ← Py.getitem (scripts niche city)
              ((day - 1) `mod` Py.len (scripts niche city));
  time_slot ← Py.getitem times ((day - 1) `mod` Py.len times);
  cta ← Py.getitem ctas ((day - 1) `mod` Py.len ctas);
  tag ← main.first_niche_tag niche;
  mret (list_to_map [
    ("Day", PStr ("Day " +:+ Py.str day));
    ("Activity", PStr activity);
    ("Script", PStr script);
    ("Visual", PStr ("Professional " +:+ niche +:+ " content"));
    ("Caption", PStr (script +:+ " Book your appointment today!"));
    ("Hashtags", PStr ("#" +:+ tag +:+ " #" +:+ Py.replace Py.space "" city
                       +:+ " #Professional #Local"));
    ("Time", PStr time_slot);
    ("CTA", PStr cta);
    ("Prompt", PStr ("Professional " +:+ niche +:+ " business in " +:+ city
                     +:+ ", modern setup, '@salonsuitedigitalstudio' visible"))]).

(** Lines 171-215: one turn of the loop over the days. *)
Definition day_turn (niche city : string) (calendar_data : list pydict)
    (day : Z) : list pydict :=
  match calendar_entry niche city day with
  | Ok e => calendar_data ++ [e]
  | Raise _ => calendar_data ++ [main.emergency_entry niche city day]
  end.

(** Lines 105-233: the body of the [try], after [start_request]. *)
Definition admitted (to_html : list pydict -> main.rendering) (f : main.form)
    : ultra_safe_main.response :=
  let selected_niches := main.niches f in
  let custom_niche := Py.strip (default "" (main.customNiche f)) in
  let city := Py.strip (default "" (main.city f)) in
  let num_days := default "7" (main.days f) in
  let niche := main.combined_niche selected_niches custom_niche in
  if negb (Py.truthy niche) || negb (Py.truthy city) then
    {| ultra_safe_main.table_html := None;
       ultra_safe_main.error_message :=
         Some "Please select at least one niche and enter your city.";
       ultra_safe_main.calendar_data := [] |}
  else
    match Py.int num_days with
    | Raise _ =>
        {| ultra_safe_main.table_html := None;
           ultra_safe_main.error_message :=
             Some "Please enter a valid number of days.";
           ultra_safe_main.calendar_data := [] |}
    | Ok num_days =>
        if (num_days <? 1) || (num_days >? 10) then
          {| ultra_safe_main.table_html := None;
             ultra_safe_main.error_message :=
               Some "Number of days must be between 1 and 10.";
             ultra_safe_main.calendar_data := [] |}
        else
          let calendar_data :=
            foldl (day_turn niche city) [] (Py.range 1 (num_days + 1)) in
          match calendar_data with
          | [] =>
              {| ultra_safe_main.table_html := None;
                 ultra_safe_main.error_message :=
                   Some "No content was generated. Please try again.";
                 ultra_safe_main.calendar_data := calendar_data |}
          | _ =>
              match to_html calendar_data with
              | main.Html table =>
                  {| ultra_safe_main.table_html := Some table;
                     ultra_safe_main.error_message := None;
                     ultra_safe_main.calendar_data := calendar_data |}
              | main.RenderError _ =>
                  {| ultra_safe_main.table_html := None;
                     ultra_safe_main.error_message := Some
                       "Content generated but display failed. Please refresh and try again.";
                     ultra_safe_main.calendar_data := calendar_data |}
              end
          end
    end.

(** Lines 85-242: the handler run on its own, no other request moving
    the counter meanwhile.  The locals [table_html], [error_message] and
    [calendar_data] when it returns, and the governor it leaves. *)
Definition generate_calendar (to_html : list pydict -> main.rendering)
    (s : deployment_main.ProductionSafety) (req : main.request)
    : ultra_safe_main.response * deployment_main.ProductionSafety :=
  match req with
  | main.GET =>
      ({| ultra_safe_main.table_html := None;
          ultra_safe_main.error_message := None;
          ultra_safe_main.calendar_data := [] |}, s)
  | main.POST f =>
      if negb (deployment_main.can_process s) then
        ({| ultra_safe_main.table_html := None;
            ultra_safe_main.error_message := Some
              "Server is currently busy processing other requests. Please try again in a moment.";
            ultra_safe_main.calendar_data := [] |}, s)
      else
        match deployment_main.start_request s with
        | (Some _, s') =>
            ({| ultra_safe_main.table_html := None;
                ultra_safe_main.error_message := Some
                  "Service temporarily unavailable. Please try again in a moment.";
                ultra_safe_main.calendar_data := [] |},
             deployment_main.end_request s')
        | (None, s') => (admitted to_html f, deployment_main.end_request s')
        end
  end.

(** Where a request stands in the handler: before [can_process], between
    [can_process] and [start_request], in the body after an admitted
    [start_request], in the [finally] after a rejected one, or returned. *)
Inductive stage : Type :=
  | Arrived
  | Checked
  | Running
  | Rejected
  | Returned.

#[global] Instance stage_eq_dec : EqDecision stage.
Proof. solve_decision. Defined.

(** The governor and the requests being served, each on its thread. *)
Record server : Type := {
  safety : deployment_main.ProductionSafety;
  requests : list stage
}.

(** Request [i] takes its next step under the lock; the lock makes the
    steps of different requests follow one another in some order. *)
Definition advance (y : server) (i : nat) : server :=
  match requests y !! i with
  | Some Arrived =>
      {| safety := safety y;
         requests :=
           <[i := if deployment_main.can_process (safety y)
                  then Checked else Returned]> (requests y) |}
  | Some Checked =>
      match deployment_main.start_request (safety y) with
      | (Some _, s) => {| safety := s; requests := <[i := Rejected]> (requests y) |}
      | (None, s) => {| safety := s; requests := <[i := Running]> (requests y) |}
      end
  | Some Running | Some Rejected =>
      {| safety := deployment_main.end_request (safety y);
         requests := <[i := Returned]> (requests y) |}
  | Some Returned | None => y
  end.

Definition running (y : server) : nat :=
  length (filter (fun st => st = Running) (requests y)).

End deployment_calendar.

(** ** image_ai.py *)

Module image_ai.

(** A call that returns a value or raises with a message. *)
Inductive outcome (A : Type) : Type :=
  | Returns (a : A)
  | Raises (message : string).
Arguments Returns {A} a.
Arguments Raises {A} message.

Definition branding : string := "@salonsuitedigitalstudio".

Definition enhance_prompt_with_branding (prompt : string) : string :=
  prompt +:+ ". MANDATORY: Include '" +:+ branding
  +:+ "' prominently and clearly visible in the image (on a sign, window display, wall art, business card, or digital screen). Make the branding professional and naturally integrated into the scene as if it's the business name.".

Definition prohibited_words : list string :=
  ["nude"; "nsfw"; "violent"; "illegal"; "harmful"].

(** [len(s)] of a [str] *)
Definition strlen (s : string) : Z := Z.of_nat (String.length s).

Definition validate_prompt (prompt : string) : outcome string :=
  if negb (Py.truthy prompt) || negb (Py.truthy (Py.strip prompt)) then
    Raises "Prompt cannot be empty"
  else
    let prompt := Py.strip prompt in
    if strlen prompt <? 10 then
      Raises "Prompt must be at least 10 characters long"
    else if strlen prompt >? 4000 then
      Raises "Prompt must be less than 4000 characters"
    else if existsb (fun word => Py.contains word (Py.lower prompt))
              prohibited_words then
      Raises "Prompt contains prohibited content"
    else Returns prompt.

(** What [client.images.generate] does for one image: it raises or gives
    no data, or it gives an address and perhaps a revised prompt.  The
    service is a function of the turn, the prompt and the size sent. *)
Inductive generation : Type :=
  | NoImage
  | ImageAt (url : string) (revised_prompt : option string).

(** The two shapes of the dicts in the returned list. *)
Inductive image : Type :=
  | Generated (url revised_prompt size : string) (index : Z)
  | Unavailable (error size : string) (index : Z).

Definition index_of (im : image) : Z :=
  match im with
  | Generated _ _ _ i => i
  | Unavailable _ _ i => i
  end.

Definition size_of (im : image) : string :=
  match im with
  | Generated _ _ s _ => s
  | Unavailable _ s _ => s
  end.

Definition sizes : list string := ["1024x1024"; "1792x1024"; "1024x1792"].

(** Lines 71-108: one turn of the loop over the images. *)
Definition service : Type := Z -> string -> string -> generation.

Definition image_turn (generate : service) (enhanced_prompt size : string)
    (images : list image) (i : Z) : list image :=
  match generate i enhanced_prompt size with
  | ImageAt url revised =>
      images ++ [Generated url (default enhanced_prompt revised) size (i + 1)]
  | NoImage =>
      images ++ [Unavailable "Image generation temporarily unavailable" size
                   (i + 1)]
  end.

Definition generate_images (generate : service) (prompt : string)
    (num_images : Z) (size : string) : outcome (list image) :=
  let enhanced_prompt := enhance_prompt_with_branding prompt in
  if (num_images <? 1) || (num_images >? 4) then
    Raises "Image generation failed: Number of images must be between 1 and 4"
  else if negb (bool_decide (size ∈ sizes)) then
    Raises "Image generation failed: Invalid image size"
  else
    let num_images := if num_images >? 3 then 3 else num_images in
    Returns (foldl (image_turn generate enhanced_prompt size) []
               (Py.range 0 num_images)).

End image_ai.

(** ** main.py: the image route *)

Module image_generator.

(** The fields of [request.form] the handler reads. *)
Record form : Type := {
  prompt : option string;
  num_images : option string;
  image_size : option string;
  is_refinement : option string;
  base_prompt : option string;
  refinement_details : option string
}.

Inductive method : Type :=
  | GET
  | POST (f : form).

(** The request: its method, [request.args.get('prompts')] and what the
    session holds under [calendar_image_prompts]. *)
Record request : Type := {
  how : method;
  args_prompts : option string;
  session_prompts : option (list pydict)
}.

(** An image as the template gets it, with the two keys added at lines
    264-265. *)
Record shown : Type := {
  img : image_ai.image;
  shown_base_prompt : string;
  is_refined : bool
}.

(** The arguments of the [render_template] call the handler returns:
    [error] alone at lines 241 and 254, all three at line 276. *)
Inductive page : Type :=
  | ErrorOnly (error : string)
  | Full (images : list shown) (error : option string)
      (suggested_prompts : list pydict).

Definition images_of (p : page) : list shown :=
  match p with
  | ErrorOnly _ => []
  | Full images _ _ => images
  end.

Definition error_of (p : page) : option string :=
  match p with
  | ErrorOnly e => Some e
  | Full _ e _ => e
  end.

(** Line 225: [int(request.form.get("num_images", 1))] *)
Definition asked (f : form) : result Z :=
  match num_images f with
  | None => Ok 1
  | Some s => Py.int s
  end.

Definition image_generator (generate : image_ai.service) (r : request) : page :=
  let suggested_prompts :=
    if bool_decide (args_prompts r = Some "calendar")
    then default [] (session_prompts r) else [] in
  match how r with
  | GET => Full [] None suggested_prompts
  | POST f =>
      let prompt0 := Py.strip (default "" (prompt f)) in
      match asked f with
      | Raise _ =>
          Full []
            (Some "Image generation is temporarily unavailable. Please try again later.")
            suggested_prompts
      | Ok num_images =>
          let image_size := default "1024x1024" (image_size f) in
          let is_refinement := bool_decide (is_refinement f = Some "true") in
          let base_prompt := Py.strip (default "" (base_prompt f)) in
          let refinement_details :=
            Py.strip (default "" (refinement_details f)) in
          let prompt :=
            if is_refinement && Py.truthy base_prompt
               && Py.truthy refinement_details
            then base_prompt +:+ ", " +:+ refinement_details
            else prompt0 in
          if negb (Py.truthy prompt) then
            ErrorOnly "Please enter an image prompt."
          else
            let '(num_images, error_message) :=
              if num_images >? 3 then
                (3, Some "Limited to 3 images for stability. Generating 3 images...")
              else (num_images, None) in
            match image_ai.validate_prompt prompt with
            | image_ai.Raises e => ErrorOnly e
            | image_ai.Returns validated_prompt =>
                match image_ai.generate_images generate validated_prompt
                        num_images image_size with
                | image_ai.Returns images =>
                    Full ((fun im =>
                             {| img := im;
                                shown_base_prompt :=
                                  if is_refinement then base_prompt
                                  else prompt;
                                is_refined := is_refinement |}) <$> images)
                      error_message suggested_prompts
                | image_ai.Raises _ =>
                    Full []
                      (Some "Image generation is temporarily unavailable due to network issues. Please try again.")
                      suggested_prompts
                end
            end
      end
  end.

End image_generator.

(** ** enterprise_features.py: BatchProcessor.split_large_request *)

Module enterprise_features.

(** A batch: the dict with the keys [businesses] and [days]. *)
Record batch (A : Type) : Type := {
  businesses : list A;
  days : Z
}.
Arguments businesses {A} b.
Arguments days {A} b.

Definition split_large_request {A} (businesses : list A)
    (days max_batch_size : Z) : result (list (batch A)) :=
  let total_items := Py.len businesses * days in
  if total_items <=? max_batch_size then
    Ok [{| businesses := businesses; days := days |}]
  else
    let items_per_batch :=
      if days >? 0 then max_batch_size `div` days else max_batch_size in
    starts ← Py.range3 0 (Py.len businesses) items_per_batch;
    mret (fmap (M := list)
            (fun i => {| businesses :=
                           Py.slice businesses i (i + items_per_batch);
                         days := days |}) starts).

End enterprise_features.

(** ** performance_optimizer.py *)

Module performance_optimizer.

(** The world a parallel batch runs in: for the business at a position,
    the services as they answer on each day, and whether its future
    times out. *)
Record world : Type := {
  services_on : Z -> Z -> ssds_ai.services;
  timed_out : Z -> bool
}.

(** Lines 110-146: one turn of the loop of [_generate_single_business].
    The statements that fetch and parse the post are those of the batch
    generator of crash_prevention.py; an exception anywhere in the turn
    skips the day. *)
Definition day_turn (sv : Z -> ssds_ai.services) (niche city : string)
    (calendar_data : list pydict) (day : Z) : list pydict :=
  match crash_prevention.generate_single_post (sv day) niche city day
          calendar_data with
  | Raise _ => calendar_data
  | Ok post =>
      if Py.truthy post then
        let fields := Py.split Py.pipe post in
        if Py.len fields >=? 9 then
          match crash_prevention.post_data day fields with
          | Ok d => calendar_data ++ [d]
          | Raise _ => calendar_data
          end
        else calendar_data
      else calendar_data
  end.

Definition _generate_single_business (sv : Z -> ssds_ai.services)
    (niche city : string) (days : Z) : list pydict :=
  foldl (day_turn sv niche city) [] (Py.range 1 (days + 1)).

(** The dicts [_process_business_chunk] returns.  The third shape, for a
    future that raises, does not arise: [_generate_single_business]
    catches what its turns raise. *)
Inductive record : Type :=
  | Completed (business : gmap string string) (calendar_data : list pydict)
      (posts_generated : Z)
  | TimedOut (business : gmap string string) (error : string).

Definition business_of (r : record) : gmap string string :=
  match r with
  | Completed b _ _ => b
  | TimedOut b _ => b
  end.

(** [business[key]] *)
Definition subscript (business : gmap string string) (key : string)
    : result string :=
  match business !! key with
  | Some v => Ok v
  | None => Raise KeyError
  end.

(** Lines 66-74: the submissions, in order; the subscripts are
    evaluated here, outside every [try]. *)
Fixpoint submit (w : world) (position : Z)
    (businesses : list (gmap string string)) (days : Z)
    : result (list (gmap string string * Z * list pydict)) :=
  match businesses with
  | [] => Ok []
  | business :: rest =>
      niche ← subscript business "niche";
      city ← subscript business "city";
      futures ← submit w (position + 1) rest days;
      mret ((business, position,
             _generate_single_business (services_on w position) niche city days)
            :: futures)
  end.

(** Lines 76-99: the results, in the order of the submissions. *)
Definition collect (w : world)
    (future : gmap string string * Z * list pydict) : record :=
  let '(business, position, calendar_data) := future in
  if timed_out w position then
    TimedOut business "Generation timed out after 5 minutes"
  else Completed business calendar_data (Py.len calendar_data).

Definition _process_business_chunk (w : world) (position : Z)
    (businesses : list (gmap string string)) (days : Z)
    : result (list record) :=
  futures ← submit w position businesses days;
  mret (fmap (M := list) (collect w) futures).

(** Lines 49-55: the loop over the chunks. *)
Fixpoint process_chunks (w : world) (businesses : list (gmap string string))
    (days chunk_size : Z) (starts : list Z) (results : list record)
    : result (list record) :=
  match starts with
  | [] => Ok results
  | i :: rest =>
      chunk_results ←
        _process_business_chunk w i (Py.slice businesses i (i + chunk_size))
          days;
      process_chunks w businesses days chunk_size rest
        (results ++ chunk_results)
  end.

Definition batch_generate_parallel (w : world)
    (businesses : list (gmap string string)) (days max_concurrent : Z)
    : result (list record) :=
  let chunk_size := Z.min max_concurrent (Py.len businesses) in
  starts ← Py.range3 0 (Py.len businesses) chunk_size;
  process_chunks w businesses days chunk_size starts [].

End performance_optimizer.

(** * Properties *)

(** ** Facts about the string operations *)

Section string_facts.

Implicit Types (s t p q r : string) (c a : ascii).

Lemma append_nil_r s : s +:+ "" = s.
Proof. induction s as [|c s IH]; [done|]. unfold String.app in *. simpl. by rewrite IH. Qed.


Lemma append_cons c s t : String c s +:+ t = String c (s +:+ t).
Proof. done. Qed.

Lemma count_app c s t : Py.count c (s +:+ t) = (Py.count c s + Py.count c t)%nat.
Proof.
  induction s as [|a s IH]; [done|].
  rewrite append_cons. simpl. destruct (Ascii.eqb a c); lia.
Qed.

(** A split yields one field more than there are separators. *)
Lemma length_split c s : length (Py.split c s) = S (Py.count c s).
Proof.
  induction s as [|a s IH]; [done|].
  simpl. destruct (Ascii.eqb a c); simpl; [by rewrite IH|].
  destruct (Py.split c s); simpl in *; lia.
Qed.

Lemma fields_count post : fields post = S (Py.count Py.pipe post).
Proof. apply length_split. Qed.

Lemma split_app_sep c p q :
  Py.count c p = 0%nat -> Py.split c (p +:+ String c q) = p :: Py.split c q.
Proof.
  induction p as [|a p IH]; intros Hp.
  - change ("" +:+ String c q) with (String c q). simpl.
    by rewrite Ascii.eqb_refl.
  - rewrite append_cons. simpl in *.
    destruct (Ascii.eqb a c); [done|]. by rewrite IH.
Qed.

Lemma split_no_sep c p : Py.count c p = 0%nat -> Py.split c p = [p].
Proof.
  induction p as [|a p IH]; intros Hp; [done|].
  simpl in *. destruct (Ascii.eqb a c); [done|]. by rewrite IH.
Qed.

(** Case mapping sends a cased letter to a cased letter. *)
Lemma upper_to_lower a : Py.is_upper a = true -> Py.is_lower (Py.to_lower a) = true.
Proof. destruct a as [[] [] [] [] [] [] [] []]; vm_compute; congruence. Qed.

Lemma lower_to_upper a : Py.is_lower a = true -> Py.is_upper (Py.to_upper a) = true.
Proof. destruct a as [[] [] [] [] [] [] [] []]; vm_compute; congruence. Qed.

Lemma eqb_to_lower a c :
  Py.is_lower c = false -> Py.is_upper c = false ->
  Ascii.eqb (Py.to_lower a) c = Ascii.eqb a c.
Proof.
  intros Hl Hu. destruct (Py.is_upper a) eqn:Ha.
  - pose proof (upper_to_lower a Ha) as Hla.
    rewrite (proj2 (Ascii.eqb_neq (Py.to_lower a) c)) by congruence.
    by rewrite (proj2 (Ascii.eqb_neq a c)) by congruence.
  - unfold Py.to_lower. by rewrite Ha.
Qed.

Lemma eqb_to_upper a c :
  Py.is_lower c = false -> Py.is_upper c = false ->
  Ascii.eqb (Py.to_upper a) c = Ascii.eqb a c.
Proof.
  intros Hl Hu. destruct (Py.is_lower a) eqn:Ha.
  - pose proof (lower_to_upper a Ha) as Hua.
    rewrite (proj2 (Ascii.eqb_neq (Py.to_upper a) c)) by congruence.
    by rewrite (proj2 (Ascii.eqb_neq a c)) by congruence.
  - unfold Py.to_upper. by rewrite Ha.
Qed.

Lemma eqb_cased a c :
  Py.is_lower c = false -> Py.is_upper c = false ->
  Py.is_lower a || Py.is_upper a = true -> Ascii.eqb a c = false.
Proof.
  intros Hl Hu Ha. apply Ascii.eqb_neq. intros ->.
  rewrite Hl, Hu in Ha. done.
Qed.

(** Case mapping moves no uncased character. *)
Lemma count_lower c s :
  Py.is_lower c = false -> Py.is_upper c = false ->
  Py.count c (Py.lower s) = Py.count c s.
Proof.
  intros Hl Hu. induction s as [|a s IH]; [done|].
  simpl. by rewrite eqb_to_lower, IH.
Qed.

Lemma count_title_go c b s :
  Py.is_lower c = false -> Py.is_upper c = false ->
  Py.count c (Py.title_go b s) = Py.count c s.
Proof.
  intros Hl Hu. revert b. induction s as [|a s IH]; intros b; [done|].
  simpl. destruct (Py.is_lower a) eqn:Ha; [|destruct (Py.is_upper a) eqn:Ha'].
  - destruct b; simpl; rewrite ?eqb_to_upper, IH; done.
  - destruct b; simpl; rewrite ?eqb_to_lower, IH; done.
  - simpl. by rewrite IH.
Qed.

Lemma count_title c s :
  Py.is_lower c = false -> Py.is_upper c = false ->
  Py.count c (Py.title s) = Py.count c s.
Proof. apply count_title_go. Qed.

Lemma count_replace c a r s :
  Ascii.eqb a c = false -> Py.count c r = 0%nat ->
  Py.count c (Py.replace a r s) = Py.count c s.
Proof.
  intros Hac Hr. induction s as [|b s IH]; [done|].
  simpl. destruct (Ascii.eqb b a) eqn:Hb.
  - apply Ascii.eqb_eq in Hb as ->. rewrite Hac, count_app. lia.
  - simpl. by rewrite IH.
Qed.

Lemma count_join c sep l :
  Py.count c sep = 0%nat ->
  Py.count c (Py.join sep l) = sum_list (Py.count c <$> l).
Proof.
  intros Hsep. induction l as [|x [|y l] IH]; [done| |].
  - simpl. lia.
  - change (Py.join sep (x :: y :: l)) with (x +:+ sep +:+ Py.join sep (y :: l)).
    rewrite !count_app, IH, Hsep. simpl. lia.
Qed.

Lemma count_left c n s : (Py.count c (Py.left n s) <= Py.count c s)%nat.
Proof.
  revert s. induction n as [|n IH]; intros [|a s]; simpl; try lia.
  specialize (IH s). destruct (Ascii.eqb a c); lia.
Qed.

Lemma count_lstrip c s : Py.is_space c = false -> Py.count c (Py.lstrip s) = Py.count c s.
Proof.
  intros Hc. induction s as [|a s IH]; [done|].
  simpl. destruct (Py.is_space a) eqn:Ha; [|done].
  rewrite IH. destruct (Ascii.eqb a c) eqn:E; [|done].
  apply Ascii.eqb_eq in E. congruence.
Qed.

Lemma count_rstrip c s : Py.is_space c = false -> Py.count c (Py.rstrip s) = Py.count c s.
Proof.
  intros Hc. induction s as [|a s IH]; [done|].
  simpl. destruct (Py.rstrip s) as [|b t] eqn:E.
  - destruct (Py.is_space a) eqn:Ha; simpl in *.
    + destruct (Ascii.eqb a c) eqn:E'; [|done].
      apply Ascii.eqb_eq in E'. congruence.
    + rewrite <- IH. by destruct (Ascii.eqb a c).
  - simpl in *. rewrite IH. done.
Qed.

Lemma count_strip c s : Py.is_space c = false -> Py.count c (Py.strip s) = Py.count c s.
Proof. intros Hc. unfold Py.strip. by rewrite count_rstrip, count_lstrip. Qed.

(** The decimal numeral of an integer holds digits and a sign only. *)
Definition numeral_char (c : ascii) : bool :=
  match Py.digit c with
  | Some _ => true
  | None => Ascii.eqb c "-"%char
  end.

Lemma count_string_of_uint c d :
  numeral_char c = false -> Py.count c (NilEmpty.string_of_uint d) = 0%nat.
Proof.
  intros Hc.
  induction d; cbn [NilEmpty.string_of_uint Py.count]; try done;
    match goal with
    | |- context [Ascii.eqb ?x c] =>
        destruct (Ascii.eqb x c) eqn:E; [|done];
        apply Ascii.eqb_eq in E; subst c; discriminate Hc
    end.
Qed.

Lemma count_str c z : numeral_char c = false -> Py.count c (Py.str z) = 0%nat.
Proof.
  intros Hc. unfold Py.str, NilZero.string_of_int.
  assert (Hu : forall d, Py.count c (NilZero.string_of_uint d) = 0%nat).
  { intros d. unfold NilZero.string_of_uint.
    destruct d; try apply (count_string_of_uint c _ Hc).
    cbn [Py.count]. destruct (Ascii.eqb "0" c) eqn:E; [|done].
    apply Ascii.eqb_eq in E; subst c; discriminate Hc. }
  destruct (Z.to_int z); [apply Hu|].
  cbn [Py.count]. rewrite Hu. destruct (Ascii.eqb "-" c) eqn:E; [|done].
  apply Ascii.eqb_eq in E; subst c; discriminate Hc.
Qed.


End string_facts.

(** Indexing inside the bounds returns the element there. *)
Lemma getitem_lookup {A} (l : list A) (i : Z) (a : A) :
  0 <= i -> l !! Z.to_nat i = Some a -> Py.getitem l i = Ok a.
Proof.
  intros Hi Hl. unfold Py.getitem.
  assert (Z.to_nat i < length l)%nat by (by eapply lookup_lt_Some).
  replace (i <? 0) with false by lia.
  replace ((i <? 0) || (Z.of_nat (length l) <=? i)) with false by lia.
  by rewrite Hl.
Qed.

Lemma getitem_mod_ok {A} (l : list A) (x : Z) :
  l <> [] -> exists a, Py.getitem l (x `mod` Py.len l) = Ok a
                       /\ l !! Z.to_nat (x `mod` Py.len l) = Some a.
Proof.
  intros Hl. unfold Py.len.
  assert (0 < Z.of_nat (length l)) by (destruct l; [done|simpl; lia]).
  pose proof (Z.mod_pos_bound x (Z.of_nat (length l)) ltac:(lia)) as Hb.
  destruct (lookup_lt_is_Some_2 l (Z.to_nat (x `mod` Z.of_nat (length l))))
    as [a Ha]; [lia|].
  exists a. split; [|done]. apply getitem_lookup; [lia|done].
Qed.

Lemma getitem_raises {A} (l : list A) (i : Z) :
  Py.len l <= i -> Py.getitem l i = Raise IndexError.
Proof.
  intros Hi. unfold Py.getitem, Py.len in *.
  replace (i <? 0) with false by lia.
  replace ((i <? 0) || (Z.of_nat (length l) <=? i)) with true by lia. done.
Qed.

Lemma getitem_inv {A} (l : list A) (i : Z) (a : A) :
  0 <= i -> Py.getitem l i = Ok a -> l !! Z.to_nat i = Some a.
Proof.
  intros Hi. unfold Py.getitem.
  replace (i <? 0) with false by lia.
  destruct ((i <? 0) || (Z.of_nat (length l) <=? i)); [done|].
  destruct (l !! Z.to_nat i); congruence.
Qed.

Lemma getitem_elem {A} (l : list A) (i : Z) (a : A) :
  Py.getitem l i = Ok a -> a ∈ l.
Proof.
  unfold Py.getitem.
  destruct (_ || _); [done|].
  destruct (l !! _) eqn:E; [|done].
  intros [= <-]. by eapply list_elem_of_lookup_2.
Qed.

Lemma getitem_in_range {A} (l : list A) (i : Z) :
  0 <= i < Py.len l -> exists a, Py.getitem l i = Ok a.
Proof.
  intros Hi. unfold Py.len in Hi.
  destruct (lookup_lt_is_Some_2 l (Z.to_nat i)) as [a Ha]; [lia|].
  exists a. apply getitem_lookup; [lia|done].
Qed.

Lemma bind_Ok {A B} (m : result A) (f : A -> result B) (b : B) :
  m ≫= f = Ok b -> exists a, m = Ok a /\ f a = Ok b.
Proof. destruct m as [a|e]; [|done]. intros H. by exists a. Qed.

Lemma fmap_Ok {A B} (m : result A) (f : A -> B) (b : B) :
  f <$> m = Ok b -> exists a, m = Ok a /\ f a = b.
Proof. destruct m as [a|e]; [|done]. intros [= <-]. by exists a. Qed.

(** Inverts a chain of binds ending in [Ok]. *)
Ltac invert_binds H :=
  repeat match type of H with
         | _ ≫= _ = Ok _ =>
             let a := fresh "x" in
             let Ha := fresh "G" in
             apply bind_Ok in H as (a & Ha & H)
         | _ <$> _ = Ok _ =>
             let a := fresh "x" in
             let Ha := fresh "G" in
             apply fmap_Ok in H as (a & Ha & H)
         end.

(** ** Pipes in the generated posts *)

Definition pipe_free (s : string) : Prop := Py.count Py.pipe s = 0%nat.

Lemma pipes_title s : Py.count Py.pipe (Py.title s) = Py.count Py.pipe s.
Proof. by apply count_title. Qed.
Lemma pipes_lower s : Py.count Py.pipe (Py.lower s) = Py.count Py.pipe s.
Proof. by apply count_lower. Qed.
Lemma pipes_unspace s :
  Py.count Py.pipe (Py.replace Py.space "" s) = Py.count Py.pipe s.
Proof. by apply count_replace. Qed.
Lemma pipes_unline s :
  Py.count Py.pipe (Py.replace Py.newline " " s) = Py.count Py.pipe s.
Proof. by apply count_replace. Qed.
Lemma pipes_strip s : Py.count Py.pipe (Py.strip s) = Py.count Py.pipe s.
Proof. by apply count_strip. Qed.
Lemma pipes_str z : Py.count Py.pipe (Py.str z) = 0%nat.
Proof. by apply count_str. Qed.

Ltac pipes_norm :=
  repeat first
    [ rewrite count_app | rewrite pipes_title | rewrite pipes_lower
    | rewrite pipes_unspace | rewrite pipes_unline | rewrite pipes_strip
    | rewrite pipes_str ].

(** Counts the pipes of a string assembled from literals and from
    strings that hypotheses state to be free of pipes. *)
Ltac count_pipes :=
  unfold pipe_free in *;
  cbn [Py.join];
  pipes_norm;
  repeat match goal with
         | H : Py.count Py.pipe ?s = 0%nat |- context [Py.count Py.pipe ?s] =>
             rewrite H
         end;
  reflexivity.

Lemma pipes_format_post day f :
  Py.count Py.pipe (format_post day f)
  = (8 + (Py.count Py.pipe (sel_activity f) + Py.count Py.pipe (sel_script f)
          + Py.count Py.pipe (sel_visual f) + Py.count Py.pipe (sel_caption f)
          + Py.count Py.pipe (sel_hashtags f) + Py.count Py.pipe (sel_time f)
          + Py.count Py.pipe (sel_cta f) + Py.count Py.pipe (sel_prompt f)))%nat.
Proof.
  unfold format_post. pipes_norm.
  change (Py.count Py.pipe "Day ") with 0%nat.
  change (Py.count Py.pipe " | ") with 1%nat. lia.
Qed.

Definition selection_pipe_free (f : selection) : Prop :=
  pipe_free (sel_activity f) /\ pipe_free (sel_script f)
  /\ pipe_free (sel_visual f) /\ pipe_free (sel_caption f)
  /\ pipe_free (sel_hashtags f) /\ pipe_free (sel_time f)
  /\ pipe_free (sel_cta f) /\ pipe_free (sel_prompt f).

Lemma fields_format_post day f :
  selection_pipe_free f -> fields (format_post day f) = 9%nat.
Proof.
  unfold selection_pipe_free, pipe_free.
  intros (?&?&?&?&?&?&?&?). rewrite fields_count, pipes_format_post. lia.
Qed.

Section fallback_pipes.

Variables niche city : string.
Hypothesis Hniche : pipe_free niche.
Hypothesis Hcity : pipe_free city.

Let t := fallback_content.get_niche_templates city niche.

Lemma fallback_activities_pipe_free :
  Forall pipe_free (fallback_content.activities t).
Proof using Hniche Hcity. repeat constructor; count_pipes. Qed.

Lemma fallback_scripts_pipe_free :
  Forall pipe_free (fallback_content.scripts t).
Proof using Hniche Hcity. repeat constructor; count_pipes. Qed.

Lemma fallback_visuals_pipe_free :
  Forall pipe_free (fallback_content.visuals t).
Proof using Hniche Hcity. repeat constructor; count_pipes. Qed.

Lemma fallback_captions_pipe_free :
  Forall pipe_free (fallback_content.captions t).
Proof using Hniche Hcity. repeat constructor; count_pipes. Qed.

Lemma fallback_times_pipe_free : Forall pipe_free fallback_content.times.
Proof. repeat constructor. Qed.

Lemma fallback_ctas_pipe_free : Forall pipe_free fallback_content.ctas.
Proof. repeat constructor. Qed.

Lemma fallback_select_pipe_free day f :
  fallback_content.select niche city day = Ok f -> selection_pipe_free f.
Proof using Hniche Hcity.
  unfold fallback_content.select. fold t. intros H. invert_binds H.
  pose proof (proj1 (Forall_forall _ _) fallback_activities_pipe_free _
                (getitem_elem _ _ _ G)).
  pose proof (proj1 (Forall_forall _ _) fallback_scripts_pipe_free _
                (getitem_elem _ _ _ G0)).
  pose proof (proj1 (Forall_forall _ _) fallback_visuals_pipe_free _
                (getitem_elem _ _ _ G1)).
  pose proof (proj1 (Forall_forall _ _) fallback_captions_pipe_free _
                (getitem_elem _ _ _ G2)).
  pose proof (proj1 (Forall_forall _ _) fallback_times_pipe_free _
                (getitem_elem _ _ _ G3)).
  pose proof (proj1 (Forall_forall _ _) fallback_ctas_pipe_free _
                (getitem_elem _ _ _ G4)).
  destruct (is_beauty niche); injection H as <-;
    repeat split; try done; cbn [sel_hashtags sel_prompt]; subst t;
    cbn [fallback_content.hashtags fallback_content.get_niche_templates];
    count_pipes.
Qed.

Lemma fallback_select_ok day :
  (day - 1) `mod` 10 < 8 -> exists f, fallback_content.select niche city day = Ok f.
Proof.
  intros Hd. unfold fallback_content.select, fallback_content.day_index.
  fold t. change (Py.len (fallback_content.activities t)) with 10.
  pose proof (Z.mod_pos_bound (day - 1) 10 ltac:(lia)) as Hb.
  set (i := (day - 1) `mod` 10) in *.
  destruct (getitem_in_range (fallback_content.activities t) i) as [a ->];
    [done|].
  destruct (getitem_in_range (fallback_content.scripts t) i) as [s ->];
    [done|].
  destruct (getitem_in_range (fallback_content.visuals t) i) as [v ->];
    [change (Py.len _) with 8; lia|].
  destruct (getitem_mod_ok (fallback_content.captions t) i) as (c & -> & _);
    [done|].
  destruct (getitem_mod_ok fallback_content.times i) as (tm & -> & _); [done|].
  destruct (getitem_mod_ok fallback_content.ctas i) as (ct & -> & _); [done|].
  cbn [mbind result_bind]. destruct (is_beauty niche); eexists; reflexivity.
Qed.

End fallback_pipes.

(** ** The deterministic fallback generator *)

(** C1 (as amended): for every niche and city string that holds no pipe
    character and every day whose rotation index [(day - 1) mod 10] is
    below 8, [get_fallback_content] returns a string with exactly 9
    pipe-delimited fields.  The function is total: it is defined by
    structural recursion only, so it terminates on every input. *)
Theorem get_fallback_content_nine_fields niche city day :
  pipe_free niche -> pipe_free city -> (day - 1) `mod` 10 < 8 ->
  exists post,
    fallback_content.get_fallback_content niche city day = Ok post
    /\ fields post = 9%nat.
Proof.
  intros Hn Hc Hd.
  destruct (fallback_select_ok niche city day Hd) as [f Hf].
  exists (format_post day f). split.
  - unfold fallback_content.get_fallback_content. by rewrite Hf.
  - apply fields_format_post.
    exact (fallback_select_pipe_free niche city Hn Hc day f Hf).
Qed.

Lemma get_fallback_content_nine_fields_witness :
  pipe_free "hair salon" /\ pipe_free "New York" /\ (3 - 1) `mod` 10 < 8
  /\ exists post,
       fallback_content.get_fallback_content "hair salon" "New York" 3 = Ok post
       /\ fields post = 9%nat.
Proof.
  split; [reflexivity|]. split; [reflexivity|]. split; [reflexivity|].
  apply (get_fallback_content_nine_fields "hair salon" "New York" 3);
    reflexivity.
Defined.

(** C1 as stated fails for a niche that holds a pipe: the post for the
    niche "hair|nails" on day 1 has eighteen fields, not nine. *)
Lemma get_fallback_content_pipe_in_niche :
  ~ (exists post,
       fallback_content.get_fallback_content "hair|nails" "Austin" 1 = Ok post
       /\ fields post = 9%nat).
Proof.
  intros (post & H & Hf). vm_compute in H. injection H as <-.
  vm_compute in Hf. discriminate.
Qed.

(** The list of visuals has 8 items and is indexed without the modulus
    its neighbours use: on the days whose rotation index is 8 or 9 (day 9,
    10, 19, 20, ...) the function raises. *)
Lemma get_fallback_content_raises niche city day :
  8 <= (day - 1) `mod` 10 ->
  fallback_content.get_fallback_content niche city day = Raise IndexError.
Proof.
  intros Hd.
  unfold fallback_content.get_fallback_content, fallback_content.select,
    fallback_content.day_index.
  set (t := fallback_content.get_niche_templates city niche).
  change (Py.len (fallback_content.activities t)) with 10.
  pose proof (Z.mod_pos_bound (day - 1) 10 ltac:(lia)) as Hb.
  set (i := (day - 1) `mod` 10) in *.
  destruct (getitem_in_range (fallback_content.activities t) i) as [a ->];
    [done|].
  destruct (getitem_in_range (fallback_content.scripts t) i) as [s ->];
    [done|].
  rewrite (getitem_raises (fallback_content.visuals t) i); [done|].
  by change (Py.len _) with 8.
Qed.

Example get_fallback_content_day_9 :
  fallback_content.get_fallback_content "hair" "Austin" 9 = Raise IndexError.
Proof. reflexivity. Qed.

(** Where the fallback generator takes its strings from. *)
Lemma fallback_select_positions niche city day f :
  fallback_content.select niche city day = Ok f ->
  let t := fallback_content.get_niche_templates city niche in
  let i := (day - 1) `mod` 10 in
  fallback_content.activities t !! Z.to_nat i = Some (sel_activity f)
  /\ fallback_content.scripts t !! Z.to_nat i = Some (sel_script f)
  /\ fallback_content.visuals t !! Z.to_nat i = Some (sel_visual f)
  /\ fallback_content.captions t !! Z.to_nat (i `mod` 5) = Some (sel_caption f)
  /\ fallback_content.times !! Z.to_nat (i `mod` 8) = Some (sel_time f)
  /\ fallback_content.ctas !! Z.to_nat (i `mod` 8) = Some (sel_cta f)
  /\ exists location_hashtags,
       sel_hashtags f
       = (Py.join " " (fallback_content.hashtags t) +:+ " #"
          +:+ Py.replace Py.space "" city +:+ "Local") +:+ location_hashtags.
Proof.
  intros H t i. unfold fallback_content.select, fallback_content.day_index in H.
  fold t in H. change (Py.len (fallback_content.activities t)) with 10 in H.
  fold i in H.
  change (Py.len (fallback_content.captions t)) with 5 in H.
  change (Py.len fallback_content.times) with 8 in H.
  change (Py.len fallback_content.ctas) with 8 in H.
  pose proof (Z.mod_pos_bound (day - 1) 10 ltac:(lia)) as Hb. fold i in Hb.
  pose proof (Z.mod_pos_bound i 5 ltac:(lia)).
  pose proof (Z.mod_pos_bound i 8 ltac:(lia)).
  invert_binds H.
  apply getitem_inv in G, G0, G1, G2, G3, G4; try lia.
  destruct (is_beauty niche); injection H as <-;
    cbn [sel_activity sel_script sel_visual sel_caption sel_hashtags
         sel_time sel_cta]; repeat split; eauto.
Qed.

(** ** Bounded loops *)

Section while_facts.

Context {S : Type} (cond : S -> bool) (body : S -> result S).

Lemma while_more_fuel fuel fuel' s r :
  while fuel cond body s = Some r -> (fuel <= fuel')%nat ->
  while fuel' cond body s = Some r.
Proof.
  revert fuel' s. induction fuel as [|fuel IH]; intros fuel' s H Hle; [done|].
  destruct fuel' as [|fuel']; [lia|]. simpl in *.
  destruct (cond s); [|done].
  destruct (body s) as [s'|e]; [|done]. apply IH; [done|lia].
Qed.

(** A loop whose every turn lowers a measure ends before the fuel does. *)
Lemma while_terminates (inv : S -> Prop) (measure : S -> nat) fuel s :
  (forall s, inv s -> cond s = true ->
             exists s', body s = Ok s' /\ inv s' /\ (measure s' < measure s)%nat) ->
  inv s -> (measure s < fuel)%nat ->
  exists r, while fuel cond body s = Some (Ok r) /\ inv r /\ cond r = false.
Proof.
  intros Hstep. revert s. induction fuel as [|fuel IH]; intros s Hs Hm; [lia|].
  simpl. destruct (cond s) eqn:Hc; [|by exists s].
  destruct (Hstep s Hs Hc) as (s' & -> & Hs' & Hlt).
  apply IH; [done|lia].
Qed.

End while_facts.

(** ** The deduplicating generator *)

Section diverse.

Variables niche city : string.

Lemma select_theme_ok day :
  exists t, content_diversity.select_theme niche city day = Ok t
            /\ Py.len (content_diversity.activities t) = 5
            /\ Py.len (content_diversity.scripts t) = 3.
Proof.
  unfold content_diversity.select_theme.
  set (themes := content_diversity.content_themes niche city).
  destruct (getitem_mod_ok (themes.*1) day) as (key & -> & Hkey); [done|].
  apply list_elem_of_lookup_2 in Hkey.
  cbn [mbind result_bind].
  repeat (apply elem_of_cons in Hkey as [-> | Hkey];
          [eexists; split; [reflexivity|done] |]).
  by apply elem_of_nil in Hkey.
Qed.

(** What holds of the loop variables before and after every turn. *)
Definition loop_inv (t : content_diversity.theme) (day : Z)
    (st : content_diversity.loop_state) : Prop :=
  0 <= content_diversity.counter st <= 10
  /\ content_diversity.activity_index st
     = (day - 1 + content_diversity.counter st)
         `mod` Py.len (content_diversity.activities t)
  /\ content_diversity.script_index st
     = (day - 1 + content_diversity.counter st)
         `mod` Py.len (content_diversity.scripts t)
  /\ content_diversity.activities t
       !! Z.to_nat (content_diversity.activity_index st)
     = Some (content_diversity.activity st)
  /\ content_diversity.scripts t
       !! Z.to_nat (content_diversity.script_index st)
     = Some (content_diversity.script st).

Lemma loop_entry_inv t day :
  content_diversity.activities t <> [] -> content_diversity.scripts t <> [] ->
  exists st, content_diversity.loop_entry t day = Ok st
             /\ loop_inv t day st /\ content_diversity.counter st = 0.
Proof.
  intros Ha Hs. unfold content_diversity.loop_entry.
  destruct (getitem_mod_ok (content_diversity.activities t) (day - 1) Ha)
    as (a & -> & Hla).
  destruct (getitem_mod_ok (content_diversity.scripts t) (day - 1) Hs)
    as (s & -> & Hls).
  eexists. split; [reflexivity|]. split; [|done].
  unfold loop_inv. cbn. rewrite Z.add_0_r. repeat split; (done || lia).
Qed.

Lemma loop_body_inv t day used st :
  content_diversity.activities t <> [] -> content_diversity.scripts t <> [] ->
  loop_inv t day st -> content_diversity.loop_cond used st = true ->
  exists st', content_diversity.loop_body t st = Ok st'
              /\ loop_inv t day st'
              /\ content_diversity.counter st' = content_diversity.counter st + 1.
Proof.
  intros Ha Hs (Hc & Hai & Hsi & _ & _) Hcond.
  unfold content_diversity.loop_cond in Hcond.
  apply andb_true_iff in Hcond as [_ Hlt%Z.ltb_lt].
  unfold content_diversity.loop_body.
  destruct (getitem_mod_ok (content_diversity.activities t)
              (content_diversity.activity_index st + 1) Ha) as (a & -> & Hla).
  destruct (getitem_mod_ok (content_diversity.scripts t)
              (content_diversity.script_index st + 1) Hs) as (s & -> & Hls).
  eexists. split; [reflexivity|]. split; [|done].
  unfold loop_inv. cbn. repeat split; try (done || lia).
  - rewrite Hai, Z.add_mod_idemp_l; [f_equal; lia|].
    unfold Py.len. destruct (content_diversity.activities t); [done|simpl; lia].
  - rewrite Hsi, Z.add_mod_idemp_l; [f_equal; lia|].
    unfold Py.len. destruct (content_diversity.scripts t); [done|simpl; lia].
Qed.

Lemma loop_terminates t day used st0 fuel :
  content_diversity.activities t <> [] -> content_diversity.scripts t <> [] ->
  loop_inv t day st0 -> content_diversity.counter st0 = 0 ->
  (11 <= fuel)%nat ->
  exists st,
    while fuel (content_diversity.loop_cond used)
      (content_diversity.loop_body t) st0 = Some (Ok st)
    /\ loop_inv t day st
    /\ content_diversity.loop_cond used st = false.
Proof.
  intros Ha Hs Hinv H0 Hfuel.
  apply (while_terminates _ _ (loop_inv t day)
           (fun st => Z.to_nat (10 - content_diversity.counter st)));
    [|done|lia].
  intros st Hst Hcond.
  destruct (loop_body_inv t day used st Ha Hs Hst Hcond) as (st' & Hb & Hi & Hc).
  exists st'. split; [done|]. split; [done|].
  unfold content_diversity.loop_cond in Hcond.
  apply andb_true_iff in Hcond as [_ Hlt%Z.ltb_lt]. lia.
Qed.

(** The rotation of the supporting elements never leaves its list. *)
Lemma supporting_ok day :
  exists v c h tm ct,
    Py.getitem (content_diversity.visuals niche)
      (day `mod` Py.len (content_diversity.visuals niche)) = Ok v
    /\ Py.getitem (content_diversity.captions niche city)
         (day `mod` Py.len (content_diversity.captions niche city)) = Ok c
    /\ Py.getitem (content_diversity.hashtags_sets niche city)
         (day `mod` Py.len (content_diversity.hashtags_sets niche city)) = Ok h
    /\ Py.getitem content_diversity.times
         (day `mod` Py.len content_diversity.times) = Ok tm
    /\ Py.getitem content_diversity.ctas
         (day `mod` Py.len content_diversity.ctas) = Ok ct.
Proof.
  destruct (getitem_mod_ok (content_diversity.visuals niche) day)
    as (v & Hv & _); [done|].
  destruct (getitem_mod_ok (content_diversity.captions niche city) day)
    as (c & Hc & _); [done|].
  destruct (getitem_mod_ok (content_diversity.hashtags_sets niche city) day)
    as (h & Hh & _); [done|].
  destruct (getitem_mod_ok content_diversity.times day) as (tm & Htm & _);
    [done|].
  destruct (getitem_mod_ok content_diversity.ctas day) as (ct & Hct & _);
    [done|].
  by exists v, c, h, tm, ct.
Qed.

Lemma diverse_select_ok day used fuel :
  (11 <= fuel)%nat ->
  exists t st f,
    content_diversity.select fuel niche city day used = Some (Ok (st, f))
    /\ content_diversity.select_theme niche city day = Ok t
    /\ loop_inv t day st
    /\ content_diversity.loop_cond used st = false
    /\ sel_activity f = content_diversity.activity st
    /\ sel_script f = content_diversity.script st.
Proof.
  intros Hfuel. unfold content_diversity.select.
  destruct (select_theme_ok day) as (t & Ht & Hla & Hls).
  assert (Ha : content_diversity.activities t <> [])
    by (intros E; rewrite E in Hla; done).
  assert (Hs : content_diversity.scripts t <> [])
    by (intros E; rewrite E in Hls; done).
  rewrite Ht.
  destruct (loop_entry_inv t day Ha Hs) as (st0 & -> & Hinv0 & H0).
  destruct (loop_terminates t day used st0 fuel Ha Hs Hinv0 H0 Hfuel)
    as (st & -> & Hinv & Hcond).
  destruct (supporting_ok day) as (v & c & h & tm & ct & -> & -> & -> & -> & ->).
  cbn [mbind result_bind mret result_ret].
  exists t, st. eexists. split; [reflexivity|]. done.
Qed.

End diverse.

(** The retries so far all met a used signature: for every [j] below
    [counter], the pair at position [(day - 1 + j) mod len] of the
    theme's lists has its signature in the used set. *)
Definition collided (t : content_diversity.theme) (day : Z)
    (used : gset string) (counter : Z) : Prop :=
  forall j a s,
    0 <= j < counter ->
    content_diversity.activities t
      !! Z.to_nat ((day - 1 + j) `mod` Py.len (content_diversity.activities t))
    = Some a ->
    content_diversity.scripts t
      !! Z.to_nat ((day - 1 + j) `mod` Py.len (content_diversity.scripts t))
    = Some s ->
    content_diversity.signature a s ∈ used.

Definition retry_inv (t : content_diversity.theme) (day : Z)
    (used : gset string) (st : content_diversity.loop_state) : Prop :=
  loop_inv t day st
  /\ content_diversity.content_signature st
     = content_diversity.signature (content_diversity.activity st)
         (content_diversity.script st)
  /\ collided t day used (content_diversity.counter st).

Lemma retry_entry t day used st0 :
  content_diversity.loop_entry t day = Ok st0 ->
  loop_inv t day st0 -> content_diversity.counter st0 = 0 ->
  retry_inv t day used st0.
Proof.
  intros H Hinv H0. split; [done|]. split.
  - unfold content_diversity.loop_entry in H. invert_binds H.
    by injection H as <-.
  - intros j a s Hj. lia.
Qed.

Lemma retry_body t day used st :
  content_diversity.activities t <> [] -> content_diversity.scripts t <> [] ->
  retry_inv t day used st -> content_diversity.loop_cond used st = true ->
  exists st', content_diversity.loop_body t st = Ok st'
              /\ retry_inv t day used st'
              /\ content_diversity.counter st' = content_diversity.counter st + 1.
Proof.
  intros Ha Hs (Hinv & Hsig & Hcol) Hcond.
  destruct (loop_body_inv t day used st Ha Hs Hinv Hcond)
    as (st' & Hb & Hinv' & Hc).
  exists st'. split; [done|]. split; [|done]. split; [done|]. split.
  - unfold content_diversity.loop_body in Hb. invert_binds Hb.
    injection Hb as <-. reflexivity.
  - intros j a s Hj Hla Hls. rewrite Hc in Hj.
    destruct (decide (j < content_diversity.counter st)) as [Hlt|Hge].
    + apply (Hcol j a s); [lia|done|done].
    + assert (j = content_diversity.counter st) as -> by lia.
      destruct Hinv as (_ & Hai & Hsi & Hact & Hscr).
      rewrite <- Hai, Hact in Hla. rewrite <- Hsi, Hscr in Hls.
      injection Hla as <-. injection Hls as <-. rewrite <- Hsig.
      unfold content_diversity.loop_cond in Hcond.
      apply andb_true_iff in Hcond as [Hin _].
      by apply bool_decide_eq_true in Hin.
Qed.

Lemma retry_select niche city day used fuel :
  (11 <= fuel)%nat ->
  exists t st f,
    content_diversity.select fuel niche city day used = Some (Ok (st, f))
    /\ content_diversity.select_theme niche city day = Ok t
    /\ retry_inv t day used st
    /\ content_diversity.loop_cond used st = false
    /\ sel_activity f = content_diversity.activity st
    /\ sel_script f = content_diversity.script st.
Proof.
  intros Hfuel. unfold content_diversity.select.
  destruct (select_theme_ok niche city day) as (t & Ht & Hla & Hls).
  assert (Ha : content_diversity.activities t <> [])
    by (intros E; rewrite E in Hla; done).
  assert (Hs : content_diversity.scripts t <> [])
    by (intros E; rewrite E in Hls; done).
  rewrite Ht.
  destruct (loop_entry_inv t day Ha Hs) as (st0 & Hst0 & Hinv0 & H0).
  rewrite Hst0.
  destruct (while_terminates (content_diversity.loop_cond used)
              (content_diversity.loop_body t) (retry_inv t day used)
              (fun st => Z.to_nat (10 - content_diversity.counter st))
              fuel st0) as (st & -> & Hinv & Hcond).
  - intros st Hst Hcond.
    destruct (retry_body t day used st Ha Hs Hst Hcond) as (st' & Hb & Hi & Hc).
    exists st'. split; [done|]. split; [done|].
    unfold content_diversity.loop_cond in Hcond.
    apply andb_true_iff in Hcond as [_ Hlt%Z.ltb_lt]. lia.
  - by apply retry_entry.
  - lia.
  - destruct (supporting_ok niche city day)
      as (v & c & h & tm & ct & -> & -> & -> & -> & ->).
    cbn [mbind result_bind mret result_ret].
    exists t, st. eexists. split; [reflexivity|]. done.
Qed.

(** C8: in [generate_diverse_content] the collision loop always ends, for
    every niche, city, day and set of used signatures: eleven tests of its
    condition suffice, every larger allowance gives the same result, and
    the function then returns its post.  [counter] retries were made, 10
    at most.  Retry [j] looks at the activity and the script one position
    further than retry [j - 1], at position [(day - 1 + j) mod len] of the
    theme's lists; every pair looked at before the last had its signature
    in the used set; the pair returned is the one at position
    [(day - 1 + counter) mod len], and its signature is outside the used
    set unless all 10 retries were spent. *)
Theorem generate_diverse_content_terminates niche city day
    (used_content : gset string) :
  exists st f,
    (forall fuel, (11 <= fuel)%nat ->
       content_diversity.select fuel niche city day used_content
       = Some (Ok (st, f)))
    /\ 0 <= content_diversity.counter st <= 10
    /\ content_diversity.loop_cond used_content st = false
    /\ content_diversity.generate_diverse_content niche city day used_content
       = Ok (format_post day f)
    /\ exists th,
         content_diversity.select_theme niche city day = Ok th
         /\ content_diversity.activities th
              !! Z.to_nat ((day - 1 + content_diversity.counter st)
                             `mod` Py.len (content_diversity.activities th))
            = Some (sel_activity f)
         /\ content_diversity.scripts th
              !! Z.to_nat ((day - 1 + content_diversity.counter st)
                             `mod` Py.len (content_diversity.scripts th))
            = Some (sel_script f)
         /\ (content_diversity.signature (sel_activity f) (sel_script f)
               ∉ used_content
             \/ content_diversity.counter st = 10)
         /\ forall j, 0 <= j < content_diversity.counter st ->
              exists a s,
                content_diversity.activities th
                  !! Z.to_nat ((day - 1 + j)
                                 `mod` Py.len (content_diversity.activities th))
                = Some a
                /\ content_diversity.scripts th
                     !! Z.to_nat ((day - 1 + j)
                                    `mod` Py.len (content_diversity.scripts th))
                   = Some s
                /\ content_diversity.signature a s ∈ used_content.
Proof.
  destruct (retry_select niche city day used_content 11 ltac:(lia))
    as (t & st & f & Hsel & Ht & (Hinv & Hsig & Hcol) & Hcond & Hfa & Hfs).
  exists st, f. split; [|split; [|split; [|split]]].
  - intros fuel Hfuel.
    unfold content_diversity.select in *.
    destruct (content_diversity.select_theme niche city day) as [t0|]; [|done].
    destruct (content_diversity.loop_entry t0 day) as [st0|]; [|done].
    destruct (while 11 _ _ st0) as [r|] eqn:Hw; [|done].
    rewrite (while_more_fuel _ _ 11 fuel st0 r Hw Hfuel). done.
  - apply Hinv.
  - done.
  - unfold content_diversity.generate_diverse_content,
      content_diversity.generate_diverse_content_fuel,
      content_diversity.loop_fuel.
    by rewrite Hsel.
  - exists t. split; [done|].
    destruct Hinv as (Hc & Hai & Hsi & Hact & Hscr).
    rewrite Hfa, Hfs, <- Hai, <- Hsi. split; [done|]. split; [done|]. split.
    + unfold content_diversity.loop_cond in Hcond. rewrite <- Hsig.
      apply andb_false_iff in Hcond as [Hin | Hlt].
      * left. by apply bool_decide_eq_false in Hin.
      * right. lia.
    + intros j Hj.
      destruct (select_theme_ok niche city day) as (t' & Ht' & Hla & Hls).
      rewrite Ht in Ht'. injection Ht' as <-.
      destruct (lookup_lt_is_Some_2 (content_diversity.activities t)
                  (Z.to_nat ((day - 1 + j)
                     `mod` Py.len (content_diversity.activities t))))
        as [a Ha].
      { pose proof (Z.mod_pos_bound (day - 1 + j)
                      (Py.len (content_diversity.activities t)) ltac:(lia)).
        unfold Py.len in *. lia. }
      destruct (lookup_lt_is_Some_2 (content_diversity.scripts t)
                  (Z.to_nat ((day - 1 + j)
                     `mod` Py.len (content_diversity.scripts t))))
        as [s Hs].
      { pose proof (Z.mod_pos_bound (day - 1 + j)
                      (Py.len (content_diversity.scripts t)) ltac:(lia)).
        unfold Py.len in *. lia. }
      exists a, s. split; [done|]. split; [done|].
      apply (Hcol j a s); [lia|done|done].
Qed.

Lemma while_not_entered {S} (cond : S -> bool) (body : S -> result S) fuel s :
  cond s = false -> while (Datatypes.S fuel) cond body s = Some (Ok s).
Proof. intros H. simpl. by rewrite H. Qed.

Lemma while_inv {S} (cond : S -> bool) (body : S -> result S)
    (inv : S -> Prop) fuel s r :
  (forall s s', inv s -> cond s = true -> body s = Ok s' -> inv s') ->
  inv s -> while fuel cond body s = Some (Ok r) -> inv r.
Proof.
  intros Hstep. revert s. induction fuel as [|fuel IH]; intros s Hs H; [done|].
  simpl in H. destruct (cond s) eqn:Hc; [|by injection H as <-].
  destruct (body s) as [s'|e] eqn:Hb; [|done]. eauto.
Qed.

(** Where the deduplicating generator takes its supporting strings from. *)
Lemma diverse_select_positions fuel niche city day used st f :
  content_diversity.select fuel niche city day used = Some (Ok (st, f)) ->
  content_diversity.visuals niche
    !! Z.to_nat (day `mod` Py.len (content_diversity.visuals niche))
  = Some (sel_visual f)
  /\ content_diversity.captions niche city
       !! Z.to_nat (day `mod` Py.len (content_diversity.captions niche city))
     = Some (sel_caption f)
  /\ content_diversity.hashtags_sets niche city
       !! Z.to_nat
            (day `mod` Py.len (content_diversity.hashtags_sets niche city))
     = Some (sel_hashtags f)
  /\ content_diversity.times
       !! Z.to_nat (day `mod` Py.len content_diversity.times)
     = Some (sel_time f)
  /\ content_diversity.ctas
       !! Z.to_nat (day `mod` Py.len content_diversity.ctas)
     = Some (sel_cta f).
Proof.
  unfold content_diversity.select. intros H.
  destruct (content_diversity.select_theme niche city day) as [t|]; [|done].
  destruct (content_diversity.loop_entry t day) as [st0|]; [|done].
  destruct (while fuel _ _ st0) as [[st1|]|]; [|done..].
  injection H as H.
  change (Py.len (content_diversity.visuals niche)) with 8 in *.
  change (Py.len (content_diversity.captions niche city)) with 5 in *.
  change (Py.len (content_diversity.hashtags_sets niche city)) with 5 in *.
  change (Py.len content_diversity.times) with 6 in *.
  change (Py.len content_diversity.ctas) with 8 in *.
  pose proof (Z.mod_pos_bound day 8 ltac:(lia)).
  pose proof (Z.mod_pos_bound day 5 ltac:(lia)).
  pose proof (Z.mod_pos_bound day 6 ltac:(lia)).
  invert_binds H.
  apply getitem_inv in G, G0, G1, G2, G3; try lia.
  destruct (is_beauty niche); injection H as <- <-; done.
Qed.

(** Lines 85-92 of fallback_content.py: the hashtags added after the
    joined list, by the kind of niche. *)
Definition location_hashtags (niche city : string) : string :=
  if is_beauty niche then
    " #" +:+ Py.replace Py.space "" city +:+ "Salon #"
    +:+ Py.replace Py.space "" city +:+ "Beauty #Local"
    +:+ Py.title (Py.replace Py.space "" niche)
  else
    " #" +:+ Py.replace Py.space "" city +:+ "Business #"
    +:+ Py.title (Py.replace Py.space "" city)
    +:+ Py.title (Py.replace Py.space "" niche) +:+ " #Local"
    +:+ Py.title (Py.replace Py.space "" niche).

Lemma fallback_select_hashtags niche city day f :
  fallback_content.select niche city day = Ok f ->
  sel_hashtags f
  = (Py.join " " (fallback_content.hashtags
                    (fallback_content.get_niche_templates city niche))
     +:+ " #" +:+ Py.replace Py.space "" city +:+ "Local")
    +:+ location_hashtags niche city.
Proof.
  intros Hf. unfold fallback_content.select in Hf. invert_binds Hf.
  unfold location_hashtags.
  destruct (is_beauty niche); injection Hf as <-; reflexivity.
Qed.

(** C5 (as amended): both template generators are pure functions of their
    arguments and pick by position, but not every string sits at position
    [(day - 1) mod len(list)].  In [get_fallback_content], whenever it
    returns, with [i = (day - 1) mod 10]: the activity, the script and the
    caption are at position [(day - 1) mod len(list)] of their lists; the
    time and the call to action are at position [i mod 8]; the hashtag
    string is the whole hashtag list joined, followed by the tags of the
    city and the niche, whatever the day.  In [generate_diverse_content],
    on every day: the theme is that of [day mod 5]; the activity and the
    script are at position [(day - 1 + counter) mod len(list)] of the
    theme's lists, [counter] being the number of collisions met, which is
    0 when the first signature is not in the used set; the visual,
    caption, hashtags, time and call to action are at position
    [day mod len(list)]. *)
Theorem rotation_positions niche city day (used_content : gset string) :
  (forall f,
     fallback_content.select niche city day = Ok f ->
     let t := fallback_content.get_niche_templates city niche in
     let i := (day - 1) `mod` 10 in
     fallback_content.activities t
       !! Z.to_nat ((day - 1) `mod` Py.len (fallback_content.activities t))
     = Some (sel_activity f)
     /\ fallback_content.scripts t
          !! Z.to_nat ((day - 1) `mod` Py.len (fallback_content.scripts t))
        = Some (sel_script f)
     /\ fallback_content.captions t
          !! Z.to_nat ((day - 1) `mod` Py.len (fallback_content.captions t))
        = Some (sel_caption f)
     /\ fallback_content.times
          !! Z.to_nat (i `mod` Py.len fallback_content.times)
        = Some (sel_time f)
     /\ fallback_content.ctas !! Z.to_nat (i `mod` Py.len fallback_content.ctas)
        = Some (sel_cta f)
     /\ sel_hashtags f
        = (Py.join " " (fallback_content.hashtags t) +:+ " #"
           +:+ Py.replace Py.space "" city +:+ "Local")
          +:+ location_hashtags niche city
     /\ (forall day' f',
           fallback_content.select niche city day' = Ok f' ->
           sel_hashtags f' = sel_hashtags f))
  /\ exists th st g,
       content_diversity.select content_diversity.loop_fuel niche city day
         used_content = Some (Ok (st, g))
       /\ content_diversity.select_theme niche city day = Ok th
       /\ (content_diversity.content_themes niche city).*2
            !! Z.to_nat (day `mod` 5) = Some th
       /\ 0 <= content_diversity.counter st <= 10
       /\ content_diversity.activities th
            !! Z.to_nat ((day - 1 + content_diversity.counter st)
                           `mod` Py.len (content_diversity.activities th))
          = Some (sel_activity g)
       /\ content_diversity.scripts th
            !! Z.to_nat ((day - 1 + content_diversity.counter st)
                           `mod` Py.len (content_diversity.scripts th))
          = Some (sel_script g)
       /\ (forall st0,
             content_diversity.loop_entry th day = Ok st0 ->
             content_diversity.content_signature st0 ∉ used_content ->
             content_diversity.counter st = 0)
       /\ (forall j, 0 <= j < content_diversity.counter st ->
             exists a s,
               content_diversity.activities th
                 !! Z.to_nat ((day - 1 + j)
                                `mod` Py.len (content_diversity.activities th))
               = Some a
               /\ content_diversity.scripts th
                    !! Z.to_nat ((day - 1 + j)
                                   `mod` Py.len (content_diversity.scripts th))
                  = Some s
               /\ content_diversity.signature a s ∈ used_content)
       /\ content_diversity.visuals niche
            !! Z.to_nat (day `mod` Py.len (content_diversity.visuals niche))
          = Some (sel_visual g)
       /\ content_diversity.captions niche city
            !! Z.to_nat
                 (day `mod` Py.len (content_diversity.captions niche city))
          = Some (sel_caption g)
       /\ content_diversity.hashtags_sets niche city
            !! Z.to_nat
                 (day `mod` Py.len (content_diversity.hashtags_sets niche city))
          = Some (sel_hashtags g)
       /\ content_diversity.times
            !! Z.to_nat (day `mod` Py.len content_diversity.times)
          = Some (sel_time g)
       /\ content_diversity.ctas
            !! Z.to_nat (day `mod` Py.len content_diversity.ctas)
          = Some (sel_cta g).
Proof.
  split.
  - intros f Hf t i.
    destruct (fallback_select_positions niche city day f Hf)
      as (Ha & Hs & _ & Hc & Ht & Hct & _).
    fold t in Ha, Hs, Hc. fold i in Ha, Hs, Hc, Ht, Hct.
    change (Py.len (fallback_content.activities t)) with 10.
    change (Py.len (fallback_content.scripts t)) with 10.
    change (Py.len (fallback_content.captions t)) with 5.
    change (Py.len fallback_content.times) with 8.
    change (Py.len fallback_content.ctas) with 8.
    repeat split; try done.
    + rewrite <- (Z.mod_mod_divide (day - 1) 10 5); [done|by exists 2].
    + by apply (fallback_select_hashtags niche city day).
    + intros day' f' Hf'.
      by rewrite (fallback_select_hashtags niche city day f Hf),
        (fallback_select_hashtags niche city day' f' Hf').
  - destruct (retry_select niche city day used_content 11 ltac:(lia))
      as (th & st & g & Hsel & Hth & (Hinv & _ & Hcol) & Hcond & Hga & Hgs).
    destruct (diverse_select_positions _ _ _ _ _ _ _ Hsel)
      as (Hv & Hc & Hh & Ht & Hct).
    destruct Hinv as (Hcnt & Hai & Hsi & Hla & Hls).
    exists th, st, g. rewrite Hga, Hgs, <- Hai, <- Hsi.
    split; [done|]. split; [done|]. split.
    { clear -Hth. unfold content_diversity.select_theme in Hth.
      change (Py.len ((content_diversity.content_themes niche city).*1))
        with 5 in Hth.
      pose proof (Z.mod_pos_bound day 5 ltac:(lia)) as Hb.
      destruct (Z.to_nat (day `mod` 5)) as [|[|[|[|[|k]]]]] eqn:E; [..|lia];
        (replace (day `mod` 5) with (Z.of_nat (Z.to_nat (day `mod` 5))) in Hth
           by lia); rewrite E in Hth; cbn in Hth; by injection Hth as <-. }
    repeat split; try (done || lia).
    + intros st0 Hst0 Hnotin.
      unfold content_diversity.select, content_diversity.loop_fuel in Hsel.
      rewrite Hth, Hst0 in Hsel.
      rewrite while_not_entered in Hsel.
      * destruct (supporting_ok niche city day)
          as (? & ? & ? & ? & ? & E1 & E2 & E3 & E4 & E5).
        rewrite E1, E2, E3, E4, E5 in Hsel. cbn in Hsel.
        injection Hsel as <- _.
        unfold content_diversity.loop_entry in Hst0. invert_binds Hst0.
        by injection Hst0 as <-.
      * unfold content_diversity.loop_cond.
        by rewrite bool_decide_eq_false_2.
    + intros j Hj.
      destruct (select_theme_ok niche city day) as (t' & Ht' & Hlena & Hlens).
      rewrite Hth in Ht'. injection Ht' as <-.
      destruct (lookup_lt_is_Some_2 (content_diversity.activities th)
                  (Z.to_nat ((day - 1 + j)
                     `mod` Py.len (content_diversity.activities th))))
        as [a Ha].
      { pose proof (Z.mod_pos_bound (day - 1 + j)
                      (Py.len (content_diversity.activities th)) ltac:(lia)).
        unfold Py.len in *. lia. }
      destruct (lookup_lt_is_Some_2 (content_diversity.scripts th)
                  (Z.to_nat ((day - 1 + j)
                     `mod` Py.len (content_diversity.scripts th))))
        as [s Hs].
      { pose proof (Z.mod_pos_bound (day - 1 + j)
                      (Py.len (content_diversity.scripts th)) ltac:(lia)).
        unfold Py.len in *. lia. }
      exists a, s. split; [done|]. split; [done|].
      apply (Hcol j a s); [lia|done|done].
Qed.

Lemma rotation_positions_witness :
  exists f,
    fallback_content.select "hair" "Austin" 12 = Ok f
    /\ fallback_content.times !! 1%nat = Some (sel_time f)
    /\ fallback_content.captions (fallback_content.get_niche_templates "Austin" "hair")
         !! 1%nat = Some (sel_caption f).
Proof.
  eexists. split; [reflexivity|].
  destruct (proj1 (rotation_positions "hair" "Austin" 12 ∅) _ eq_refl)
    as (_ & _ & Hc & Ht & _).
  split; [exact Ht | exact Hc].
Defined.

(** C5 as stated fails in both generators.  On day 11 the fallback
    generator takes the time slot at position 0, not at position
    [(11 - 1) mod 8 = 2]; on day 1 the deduplicating generator takes the
    visual at position 1, not at position [(1 - 1) mod 8 = 0]. *)
Lemma rotation_not_day_minus_one :
  (exists f,
     fallback_content.select "hair" "Austin" 11 = Ok f
     /\ fallback_content.times
          !! Z.to_nat ((11 - 1) `mod` Py.len fallback_content.times)
        <> Some (sel_time f))
  /\ (exists st g,
        content_diversity.select content_diversity.loop_fuel "hair" "Austin" 1 ∅
        = Some (Ok (st, g))
        /\ content_diversity.visuals "hair"
             !! Z.to_nat ((1 - 1) `mod` Py.len (content_diversity.visuals "hair"))
           <> Some (sel_visual g)).
Proof.
  split.
  - eexists. split; [reflexivity|]. vm_compute. discriminate.
  - eexists _, _. split; [vm_compute; reflexivity|]. vm_compute. discriminate.
Qed.

(** ** The generator *)

(** Services that are down, and services that answer a fixed text. *)
Definition silent : ssds_ai.services :=
  {| ssds_ai.get_live_hashtags := fun _ => "#BeautyTrends #SalonLife #BeautyGoals";
     ssds_ai.create := fun _ => ssds_ai.Failed ServiceError |}.

Definition answering (c : string) : ssds_ai.services :=
  {| ssds_ai.get_live_hashtags := fun _ => "#BeautyTrends #SalonLife #BeautyGoals";
     ssds_ai.create := fun _ => ssds_ai.Content (Some c) |}.

(** The prior entries hold text under the two keys the prompt reads, as
    the entries the callers build do. *)
Definition textual (previous_posts : list pydict) : Prop :=
  Forall (fun post : pydict =>
            forall key z, post !! key = Some (PInt z) ->
                          key <> "Activity" /\ key <> "Visual")
         previous_posts.

(** The service gave nothing to return: it raised, or its content is
    [None] or empty. *)
Definition no_content (c : ssds_ai.completion) : bool :=
  match c with
  | ssds_ai.Content (Some s) => negb (Py.truthy s)
  | _ => true
  end.

Definition is_str (v : pyval) : Prop :=
  match v with PStr _ => True | PInt _ => False end.

Lemma collect_is_str key previous_posts :
  textual previous_posts -> key = "Activity" \/ key = "Visual" ->
  Forall is_str (ssds_ai.collect key previous_posts).
Proof.
  intros Ht Hkey. unfold ssds_ai.collect.
  induction Ht as [|post l Hpost _ IH]; [constructor|].
  simpl. apply Forall_app. split; [|done].
  destruct (post !! key) as [[s|z]|] eqn:E; [| |constructor].
  - destruct (truthy_val (PStr s)); repeat constructor.
  - destruct (Hpost key z E). by destruct Hkey.
Qed.

Lemma strs_ok l : Forall is_str l -> exists ss, ssds_ai.strs l = Ok ss.
Proof.
  induction 1 as [|[s|z] l Hv _ [ss IH]]; [by exists []| |done].
  simpl. rewrite IH. by eexists.
Qed.

Lemma key_concepts_ok l : Forall is_str l -> exists ks, ssds_ai.key_concepts l = Ok ks.
Proof.
  induction 1 as [|[s|z] l Hv _ [ks IH]]; [by exists []| |done].
  simpl. rewrite IH.
  destruct (Py.truthy s), (10 <? Z.of_nat (String.length s)); by eexists.
Qed.

Lemma previous_context_ok previous_posts :
  textual previous_posts ->
  exists ctx, ssds_ai.previous_context previous_posts = Ok ctx.
Proof.
  intros Ht. unfold ssds_ai.previous_context.
  destruct previous_posts as [|p l] eqn:E; [by eexists|]. rewrite <- E in *.
  destruct (strs_ok _ (collect_is_str "Activity" _ Ht (or_introl eq_refl)))
    as [ss Hss].
  destruct (key_concepts_ok _ (collect_is_str "Visual" _ Ht (or_intror eq_refl)))
    as [ks Hks].
  rewrite Hss, Hks.
  destruct (ssds_ai.collect "Activity" previous_posts),
    (ssds_ai.collect "Visual" previous_posts), ks; by eexists.
Qed.

Lemma trend_hashtags_pipe_free n :
  pipe_free (ssds_ai.hashtags (ssds_ai.get_live_trends n)).
Proof.
  unfold ssds_ai.get_live_trends. generalize (Py.lower n). intros k.
  unfold ssds_ai.trends. cbn [content_diversity.dict_getitem].
  repeat (destruct (String.eqb _ k); [reflexivity|]). reflexivity.
Qed.

Lemma emergency_content_fields niche city day n :
  pipe_free niche -> pipe_free city ->
  fields (ssds_ai.emergency_content niche city day
            (ssds_ai.hashtags (ssds_ai.get_live_trends n))) = 9%nat.
Proof.
  intros Hn Hc. pose proof (trend_hashtags_pipe_free n) as Hh.
  rewrite fields_count. unfold ssds_ai.emergency_content. f_equal.
  count_pipes.
Qed.

Lemma fallback_post_fields niche city day post :
  pipe_free niche -> pipe_free city ->
  fallback_content.get_fallback_content niche city day = Ok post ->
  fields post = 9%nat.
Proof.
  intros Hn Hc H. unfold fallback_content.get_fallback_content in H.
  apply fmap_Ok in H as (f & Hf & <-).
  apply fields_format_post.
  exact (fallback_select_pipe_free niche city Hn Hc day f Hf).
Qed.

Lemma nine_fields_nonempty post : fields post = 9%nat -> post <> "".
Proof. by intros H ->. Qed.

(** C2 (as amended): for niche and city strings without a pipe and prior
    entries that hold text, [generate_social_post] never raises.  When
    the service call raises or yields no content, the result is the
    fallback content, or the hard-coded final string when the fallback
    itself fails, and both are non-empty with exactly 9 pipe-delimited
    fields.  When the service yields non-empty content and the fallback
    was built, the result is that content stripped, whatever its number
    of fields: the generator does not validate it, its callers do. *)
Theorem generate_social_post_degrades w niche city day previous_posts :
  pipe_free niche -> pipe_free city -> textual previous_posts ->
  exists prompt post,
    ssds_ai.generate_social_post w niche city day previous_posts = Ok post
    /\ (forall fallback_post,
          fallback_content.get_fallback_content niche city day
          = Ok fallback_post ->
          fields fallback_post = 9%nat
          /\ post = match ssds_ai.create w prompt with
                    | ssds_ai.Content (Some c) =>
                        if Py.truthy c then Py.strip c else fallback_post
                    | _ => fallback_post
                    end)
    /\ (forall e,
          fallback_content.get_fallback_content niche city day = Raise e ->
          post = ssds_ai.emergency_content niche city day
                   (ssds_ai.hashtags
                      (ssds_ai.get_live_trends (ssds_ai.primary_niche niche)))
          /\ fields post = 9%nat)
    /\ (no_content (ssds_ai.create w prompt) = true ->
        post <> "" /\ fields post = 9%nat).
Proof.
  intros Hn Hc Ht.
  destruct (previous_context_ok previous_posts Ht) as [ctx Hctx].
  unfold ssds_ai.generate_social_post. rewrite Hctx.
  cbn [mbind result_bind].
  match goal with
  | |- context [ssds_ai.create w ?p] => exists p
  end.
  destruct (fallback_content.get_fallback_content niche city day)
    as [fb|e] eqn:Hfb.
  - pose proof (fallback_post_fields niche city day fb Hn Hc Hfb) as Hf.
    destruct (ssds_ai.create w _) as [e'|[c|]] eqn:Hcreate;
      [| destruct (Py.truthy c) eqn:Hc' |].
    all: eexists; split; [reflexivity|].
    all: split; [by intros ? [= <-]|].
    all: split; [done|].
    all: cbn [no_content]; rewrite ?Hc'; intros Hno; try done.
    all: split; [by apply nine_fields_nonempty|done].
  - eexists. split; [reflexivity|]. split; [done|].
    pose proof (emergency_content_fields niche city day
                  (ssds_ai.primary_niche niche) Hn Hc) as Hf.
    split; [by intros _ _|].
    intros _. split; [by apply nine_fields_nonempty|done].
Qed.

Lemma generate_social_post_degrades_witness :
  pipe_free "hair, nails" /\ pipe_free "Austin" /\ textual []
  /\ ssds_ai.generate_social_post silent "hair, nails" "Austin" 9 []
     = Ok "Day 9 | Professional Content | Engaging hair, nails content | High-quality visuals | Professional hair, nails content for Austin | #HairTransformation #HairGoals #SalonLife #HairTrends #BeautyTok | Peak hours | Book today | Professional marketing image with @salonsuitedigitalstudio visible".
Proof.
  split; [reflexivity|]. split; [reflexivity|]. split; [constructor|].
  destruct (generate_social_post_degrades silent "hair, nails" "Austin" 9 []
              eq_refl eq_refl (Forall_nil_2 _))
    as (prompt & post & Hpost & _ & Hraise & _).
  destruct (Hraise IndexError eq_refl) as [-> _]. exact Hpost.
Defined.

(** C2 as stated fails when the service answers: a one-field answer is
    returned as it is, and an answer of white space is returned as the
    empty string. *)
Lemma generate_social_post_unvalidated :
  ~ (exists post,
       ssds_ai.generate_social_post (answering "Post a client photo today")
         "hair" "Austin" 1 [] = Ok post
       /\ post <> "" /\ fields post = 9%nat)
  /\ ~ (exists post,
          ssds_ai.generate_social_post (answering "  ") "hair" "Austin" 1 []
          = Ok post
          /\ post <> "" /\ fields post = 9%nat).
Proof.
  split; intros (post & H & Hne & Hf); vm_compute in H; injection H as <-.
  - vm_compute in Hf. discriminate.
  - by apply Hne.
Qed.

(** ** The request handler of main.py *)

(** The form passes the validation of lines 70-82 with [n] days. *)
Definition accepted (f : main.form) (n : Z) : Prop :=
  Py.truthy (main.combined_niche (main.niches f)
               (Py.strip (default "" (main.customNiche f)))) = true
  /\ Py.truthy (Py.strip (default "" (main.city f))) = true
  /\ Py.int (default "7" (main.days f)) = Ok n.

(** The niche and the city the handler works with. *)
Definition niche_of (f : main.form) : string :=
  main.combined_niche (main.niches f) (Py.strip (default "" (main.customNiche f))).
Definition city_of (f : main.form) : string :=
  Py.strip (default "" (main.city f)).

Lemma main_day_turn_appends w niche city num_days acc day :
  exists entry,
    main.day_turn w niche city num_days acc day
    = (acc.1 ++ [entry],
       if num_days <=? 7 then acc.2 ++ [day] else acc.2).
Proof.
  destruct acc as [calendar_data calls]. unfold main.day_turn, main.attempt.
  destruct (num_days <=? 7).
  - destruct (ssds_ai.generate_social_post _ _ _ _ _);
      match goal with
      | |- context [mbind ?k ?m] => destruct (mbind k m)
      end; by eexists.
  - match goal with
    | |- context [mbind ?k ?m] => destruct (mbind k m)
    end; by eexists.
Qed.

Lemma main_loop w niche city num_days days acc :
  let r := foldl (main.day_turn w niche city num_days) acc days in
  length r.1 = (length acc.1 + length days)%nat
  /\ r.2 = if num_days <=? 7 then acc.2 ++ days else acc.2.
Proof.
  revert acc. induction days as [|day days IH]; intros acc; simpl.
  - split; [lia|]. destruct (num_days <=? 7); [by rewrite app_nil_r|done].
  - destruct (main_day_turn_appends w niche city num_days acc day)
      as [entry ->].
    destruct (IH (acc.1 ++ [entry],
                  if num_days <=? 7 then acc.2 ++ [day] else acc.2))
      as [Hl Hc].
    split.
    + rewrite Hl. simpl. rewrite length_app. simpl. lia.
    + rewrite Hc. simpl. destruct (num_days <=? 7); [|done].
      by rewrite <- app_assoc.
Qed.

Lemma main_accepted_run w f n :
  accepted f n -> 1 <= n <= 30 ->
  let r := foldl (main.day_turn w (niche_of f) (city_of f) n) ([], [])
             (Py.range 1 (n + 1)) in
  main.calendar_data (main.generate_calendar w (main.POST f)) = r.1
  /\ main.ai_calls (main.generate_calendar w (main.POST f)) = r.2.
Proof.
  intros (Hn & Hc & Hd) Hr. unfold main.generate_calendar.
  fold (niche_of f) in *. fold (city_of f) in *.
  rewrite Hn, Hc, Hd. cbn [negb orb].
  replace ((n <? 1) || (n >? 30)) with false by lia.
  replace (Z.min n 30) with n by lia.
  destruct (foldl _ _ _) as [[|e l] calls]; [done|].
  cbn. by destruct (main.to_html w (e :: l)).
Qed.

(** X1: a request that passes validation with a day count between 1 and
    30 gets a calendar of exactly that many entries, whatever the
    services do: every turn of the loop appends one entry, in its [try]
    or in its [except] branch. *)
Theorem main_one_entry_per_day w f n :
  accepted f n -> 1 <= n <= 30 ->
  length (main.calendar_data (main.generate_calendar w (main.POST f)))
  = Z.to_nat n.
Proof.
  intros Ha Hr. destruct (main_accepted_run w f n Ha Hr) as [-> _].
  destruct (main_loop w (niche_of f) (city_of f) n (Py.range 1 (n + 1)) ([], []))
    as [-> _].
  unfold Py.range. rewrite length_seqZ. simpl. lia.
Qed.

Definition form_hair (days : string) : main.form :=
  {| main.niches := ["hair"; "other"];
     main.customNiche := Some " nails ";
     main.city := Some "Austin";
     main.days := Some days |}.

Definition world_of (sv : ssds_ai.services) : main.world :=
  {| main.services_on := fun _ => sv;
     main.to_html := fun _ => main.Html "<table>" |}.

Lemma main_one_entry_per_day_witness :
  accepted (form_hair "12") 12 /\ 1 <= 12 <= 30
  /\ length (main.calendar_data
               (main.generate_calendar (world_of silent)
                  (main.POST (form_hair "12")))) = 12%nat.
Proof.
  assert (Ha : accepted (form_hair "12") 12) by (repeat split).
  assert (Hr : 1 <= 12 <= 30) by lia.
  split; [exact Ha|]. split; [exact Hr|].
  exact (main_one_entry_per_day (world_of silent) (form_hair "12") 12 Ha Hr).
Defined.

(** X2: the handler calls [generate_social_post] on every day, in order,
    when the request is for at most 7 days, and on no day at all when it
    is for 8 to 30 days. *)
Theorem main_generator_calls w f n :
  accepted f n -> 1 <= n <= 30 ->
  main.ai_calls (main.generate_calendar w (main.POST f))
  = if n <=? 7 then Py.range 1 (n + 1) else [].
Proof.
  intros Ha Hr. destruct (main_accepted_run w f n Ha Hr) as [_ ->].
  by destruct (main_loop w (niche_of f) (city_of f) n (Py.range 1 (n + 1))
                 ([], [])) as [_ ->].
Qed.

Lemma main_generator_calls_witness :
  accepted (form_hair "8") 8 /\ 1 <= 8 <= 30
  /\ main.ai_calls (main.generate_calendar (world_of (answering "x"))
                      (main.POST (form_hair "8"))) = [].
Proof.
  assert (Ha : accepted (form_hair "8") 8) by (repeat split).
  assert (Hr : 1 <= 8 <= 30) by lia.
  split; [exact Ha|]. split; [exact Hr|].
  exact (main_generator_calls (world_of (answering "x")) (form_hair "8") 8 Ha Hr).
Defined.

(** X3: a day count that parses to an integer below 1 or above 30 is
    answered with the range message: no table, no entry, and no call to
    the generator. *)
Theorem main_rejects_out_of_range w f n :
  accepted f n -> n < 1 \/ 30 < n ->
  let r := main.generate_calendar w (main.POST f) in
  main.error_message r = Some "Number of days must be between 1 and 30."
  /\ main.table_html r = None
  /\ main.calendar_data r = []
  /\ main.ai_calls r = [].
Proof.
  intros (Hn & Hc & Hd) Hr. unfold main.generate_calendar.
  rewrite Hn, Hc, Hd. cbn [negb orb].
  by replace ((n <? 1) || (n >? 30)) with true by lia.
Qed.

Lemma main_rejects_out_of_range_witness :
  accepted (form_hair "31") 31 /\ (31 < 1 \/ 30 < 31)
  /\ main.calendar_data
       (main.generate_calendar (world_of silent) (main.POST (form_hair "31")))
     = [].
Proof.
  assert (Ha : accepted (form_hair "31") 31) by (repeat split).
  assert (Hr : 31 < 1 \/ 30 < 31) by lia.
  split; [exact Ha|]. split; [exact Hr|].
  exact (proj1 (proj2 (proj2
           (main_rejects_out_of_range (world_of silent) (form_hair "31") 31
              Ha Hr)))).
Defined.

(** ** Stripping and splitting a post *)

Section strip_facts.

Implicit Types (s t p q r : string) (c a : ascii).









Lemma split_nonempty c s : exists h l, Py.split c s = h :: l.
Proof.
  pose proof (length_split c s) as H.
  destruct (Py.split c s) as [|h l]; [done|]. by exists h, l.
Qed.


End strip_facts.

Lemma first_niche_tag_ok niche :
  main.first_niche_tag niche
  = Ok (Py.replace Py.space "" (hd "" (Py.split Py.comma niche))).
Proof.
  unfold main.first_niche_tag.
  destruct (split_nonempty Py.comma niche) as (h & l & ->).
  by erewrite getitem_lookup.
Qed.

Lemma part_or_default parts (i : nat) d :
  main.part_or parts (Z.of_nat i) (Ok d) = Ok (default d (parts !! i)).
Proof.
  unfold main.part_or, Py.len.
  destruct (Z.of_nat (length parts) >? Z.of_nat i) eqn:E.
  - destruct (lookup_lt_is_Some_2 parts i) as [a Ha]; [lia|].
    rewrite Ha. apply getitem_lookup; [lia|]. by rewrite Nat2Z.id.
  - rewrite lookup_ge_None_2; [done|lia].
Qed.

(** The nine keys of a calendar entry. *)
Definition entry_keys : list string :=
  ["Day"; "Activity"; "Script"; "Visual"; "Caption"; "Hashtags"; "Time";
   "CTA"; "Prompt"].

(** The defaults of lines 141-151, in the order of the keys. *)
Definition entry_defaults (niche city : string) (day : Z) : list string :=
  ["Day " +:+ Py.str day; "Social media post";
   "Professional " +:+ niche +:+ " content"; "Professional visual";
   "Quality " +:+ niche +:+ " in " +:+ city;
   "#" +:+ Py.replace Py.space "" (hd "" (Py.split Py.comma niche)) +:+ " #"
     +:+ Py.replace Py.space "" city;
   "Peak hours"; "Book now";
   "Professional " +:+ niche +:+ " business in " +:+ city].

(** Every field of the entry is the parsed one or its default. *)
Ltac calendar_entry_norm parts :=
  unfold main.calendar_entry;
  rewrite (part_or_default parts 0), (part_or_default parts 1),
    (part_or_default parts 2), (part_or_default parts 3),
    (part_or_default parts 4);
  rewrite first_niche_tag_ok; cbn [mbind result_bind mret result_ret];
  rewrite (part_or_default parts 5), (part_or_default parts 6),
    (part_or_default parts 7), (part_or_default parts 8);
  cbn [mbind result_bind mret result_ret].


(** X4: the assembler of main.py never raises and always yields an entry
    with exactly the nine keys: the key at position [i] holds the [i]-th
    parsed field when the post has one, and the default of that position
    otherwise; fields beyond the ninth are dropped. *)
Theorem calendar_entry_complete niche city day parts :
  exists e : pydict,
    main.calendar_entry niche city day parts = Ok e
    /\ dom e = list_to_set entry_keys
    /\ forall (i : nat) key d,
         entry_keys !! i = Some key ->
         entry_defaults niche city day !! i = Some d ->
         e !! key = Some (PStr (default d (parts !! i))).
Proof.
  calendar_entry_norm parts.
  eexists. split; [reflexivity|]. split.
  - rewrite dom_list_to_map_L. reflexivity.
  - intros i key d Hk Hd.
    do 9 (destruct i as [|i];
          [injection Hk as <-; injection Hd as <-; reflexivity|]).
    done.
Qed.










(** ** The governor and the handler of ultra_safe_main.py *)

Lemma foldl_snoc {A B} (f : A -> B -> A) (a : A) (l : list B) (b : B) :
  foldl f a (l ++ [b]) = f (foldl f a l) b.
Proof. by rewrite foldl_app. Qed.

(** X6: whatever the order in which requests enter and leave
    [safe_request], the counter of [UltraSafety] equals the number of
    requests that are inside the [with] block, and stays between 0 and the
    bound of 5. *)
Theorem ultra_counter_counts_requests y :
  ultra_safe_main.reachable y ->
  ultra_safe_main.active_requests (ultra_safe_main.safety y)
  = ultra_safe_main.inside y
  /\ 0 <= ultra_safe_main.inside y <= 5
  /\ ultra_safe_main.max_requests (ultra_safe_main.safety y) = 5.
Proof.
  intros [events ->].
  induction events as [|e events IH] using rev_ind; [done|].
  rewrite foldl_snoc.
  destruct (foldl ultra_safe_main.step _ events) as [[a m] i].
  cbn in IH. destruct IH as (-> & Hi & ->).
  destruct e; unfold ultra_safe_main.step, ultra_safe_main.safe_request_enter,
    ultra_safe_main.safe_request_exit; cbn.
  - destruct (i >=? 5) eqn:E; cbn; repeat split; lia.
  - destruct (0 <? i) eqn:E; cbn; repeat split; lia.
Qed.

Lemma ultra_counter_counts_requests_witness :
  ultra_safe_main.reachable
    (foldl ultra_safe_main.step
       {| ultra_safe_main.safety := ultra_safe_main.init;
          ultra_safe_main.inside := 0 |}
       (replicate 7 ultra_safe_main.Enter ++ [ultra_safe_main.Leave]))
  /\ ultra_safe_main.active_requests
       (ultra_safe_main.safety
          (foldl ultra_safe_main.step
             {| ultra_safe_main.safety := ultra_safe_main.init;
                ultra_safe_main.inside := 0 |}
             (replicate 7 ultra_safe_main.Enter ++ [ultra_safe_main.Leave])))
     = 4.
Proof.
  assert (Hr : ultra_safe_main.reachable
    (foldl ultra_safe_main.step
       {| ultra_safe_main.safety := ultra_safe_main.init;
          ultra_safe_main.inside := 0 |}
       (replicate 7 ultra_safe_main.Enter ++ [ultra_safe_main.Leave])))
    by (by eexists).
  split; [exact Hr|].
  destruct (ultra_counter_counts_requests _ Hr) as (H & _ & _). exact H.
Defined.

Lemma create_safe_content_ok niche city day :
  exists (e : pydict) activity,
    ultra_safe_main.create_safe_content niche city day = Ok e
    /\ e !! "Day" = Some (PStr ("Day " +:+ Py.str day))
    /\ ultra_safe_main.activities !! Z.to_nat ((day - 1) `mod` 7)
       = Some activity
    /\ e !! "Activity" = Some (PStr activity).
Proof.
  unfold ultra_safe_main.create_safe_content.
  assert (Hn : exists sn,
    (if Py.truthy niche
     then Py.strip <$> Py.getitem (Py.split Py.comma niche) 0
     else Ok "business") = Ok sn).
  { destruct (Py.truthy niche); [|by eexists].
    destruct (split_nonempty Py.comma niche) as (h & l & ->).
    erewrite getitem_lookup; [by eexists|done|done]. }
  destruct Hn as [sn ->]. cbn [mbind result_bind].
  set (sc := if Py.truthy city then Py.strip city else "local").
  destruct (getitem_mod_ok ultra_safe_main.activities (day - 1))
    as (a & -> & Ha); [done|].
  destruct (getitem_mod_ok (ultra_safe_main.scripts sn sc) (day - 1))
    as (s & -> & _); [done|].
  destruct (getitem_mod_ok ultra_safe_main.times (day - 1))
    as (t & -> & _); [done|].
  destruct (getitem_mod_ok ultra_safe_main.ctas (day - 1))
    as (c & -> & _); [done|].
  cbn [mbind result_bind mret result_ret].
  eexists _, a. split; [reflexivity|]. split; [reflexivity|].
  split; [exact Ha|reflexivity].
Qed.

(** The entry the loop of ultra_safe_main.py appends for a day. *)
Definition ultra_entry (niche city : string) (day : Z) : pydict :=
  match ultra_safe_main.create_safe_content niche city day with
  | Ok e => e
  | Raise _ => main.emergency_entry niche city day
  end.

Lemma ultra_loop niche city days acc :
  foldl (ultra_safe_main.day_turn niche city) acc days
  = acc ++ (ultra_entry niche city <$> days).
Proof.
  revert acc. induction days as [|d days IH]; intros acc; simpl.
  - by rewrite app_nil_r.
  - rewrite IH. unfold ultra_safe_main.day_turn, ultra_entry.
    destruct (ultra_safe_main.create_safe_content niche city d);
      by rewrite <- app_assoc.
Qed.

Lemma ultra_admitted_calendar to_html f n :
  accepted f n -> 1 <= n <= 10 ->
  ultra_safe_main.calendar_data (ultra_safe_main.admitted to_html f)
  = ultra_entry (niche_of f) (city_of f) <$> Py.range 1 (n + 1).
Proof.
  intros (Hn & Hc & Hd) Hr. unfold ultra_safe_main.admitted.
  fold (niche_of f) in *. fold (city_of f) in *.
  rewrite Hn, Hc, Hd. cbn [negb orb].
  replace ((n <? 1) || (n >? 10)) with false by lia.
  rewrite ultra_loop. cbn [app].
  destruct (ultra_entry _ _ <$> _) as [|e l]; [done|].
  by destruct (to_html (e :: l)).
Qed.

(** X7: an admitted request for 1 to 10 days gets exactly that many
    entries from ultra_safe_main.py; the entry of day [d] is labelled
    [Day d] and carries the activity at position [(d - 1) mod 7]; the
    counter of the governor is back at its value when the handler
    returns. *)
Theorem ultra_calendar to_html s f n :
  ultra_safe_main.active_requests s < ultra_safe_main.max_requests s ->
  accepted f n -> 1 <= n <= 10 ->
  let r := ultra_safe_main.generate_calendar to_html s (main.POST f) in
  r.2 = s
  /\ length (ultra_safe_main.calendar_data r.1) = Z.to_nat n
  /\ forall d, 1 <= d <= n ->
       exists (e : pydict) activity,
         ultra_safe_main.calendar_data r.1 !! Z.to_nat (d - 1) = Some e
         /\ e !! "Day" = Some (PStr ("Day " +:+ Py.str d))
         /\ ultra_safe_main.activities !! Z.to_nat ((d - 1) `mod` 7)
            = Some activity
         /\ e !! "Activity" = Some (PStr activity).
Proof.
  intros Hs Ha Hr. unfold ultra_safe_main.generate_calendar,
    ultra_safe_main.safe_request_enter.
  replace (_ >=? _) with false by lia. cbn [fst snd].
  rewrite (ultra_admitted_calendar to_html f n Ha Hr).
  split; [|split].
  - destruct s. unfold ultra_safe_main.safe_request_exit. cbn. f_equal. lia.
  - rewrite length_fmap. unfold Py.range. rewrite length_seqZ. lia.
  - intros d Hd.
    destruct (create_safe_content_ok (niche_of f) (city_of f) d)
      as (e & a & He & Hday & Ha' & Hact).
    exists e, a. split; [|done].
    rewrite list_lookup_fmap. unfold Py.range.
    rewrite lookup_seqZ_lt by lia. cbn.
    replace (1 + Z.of_nat (Z.to_nat (d - 1))) with d by lia.
    unfold ultra_entry. by rewrite He.
Qed.

Lemma ultra_calendar_witness :
  ultra_safe_main.active_requests ultra_safe_main.init
  < ultra_safe_main.max_requests ultra_safe_main.init
  /\ accepted (form_hair "10") 10 /\ 1 <= 10 <= 10
  /\ length (ultra_safe_main.calendar_data
               (ultra_safe_main.generate_calendar
                  (fun _ => main.Html "<table>") ultra_safe_main.init
                  (main.POST (form_hair "10"))).1) = 10%nat.
Proof.
  assert (Hs : ultra_safe_main.active_requests ultra_safe_main.init
               < ultra_safe_main.max_requests ultra_safe_main.init)
    by reflexivity.
  assert (Ha : accepted (form_hair "10") 10) by (repeat split).
  assert (Hr : 1 <= 10 <= 10) by lia.
  split; [exact Hs|]. split; [exact Ha|]. split; [exact Hr|].
  exact (proj1 (proj2 (ultra_calendar (fun _ => main.Html "<table>")
                         ultra_safe_main.init (form_hair "10") 10 Hs Ha Hr))).
Defined.

(** X8: when the counter has reached the bound, ultra_safe_main.py
    answers a submitted form at once with its unavailable message, builds
    no entry and leaves the counter as it is; the form is not even
    validated. *)
Theorem ultra_rejects_when_saturated to_html s f :
  ultra_safe_main.max_requests s <= ultra_safe_main.active_requests s ->
  ultra_safe_main.generate_calendar to_html s (main.POST f)
  = ({| ultra_safe_main.table_html := None;
        ultra_safe_main.error_message := Some
          "System temporarily unavailable. Please try again in a moment.";
        ultra_safe_main.calendar_data := [] |}, s).
Proof.
  intros Hs. unfold ultra_safe_main.generate_calendar,
    ultra_safe_main.safe_request_enter.
  by replace (_ >=? _) with true by lia.
Qed.

Lemma ultra_rejects_when_saturated_witness :
  ultra_safe_main.max_requests
    {| ultra_safe_main.active_requests := 5; ultra_safe_main.max_requests := 5 |}
  <= ultra_safe_main.active_requests
       {| ultra_safe_main.active_requests := 5;
          ultra_safe_main.max_requests := 5 |}
  /\ ultra_safe_main.calendar_data
       (ultra_safe_main.generate_calendar (fun _ => main.Html "<table>")
          {| ultra_safe_main.active_requests := 5;
             ultra_safe_main.max_requests := 5 |}
          (main.POST (form_hair "3"))).1 = [].
Proof.
  assert (Hs : ultra_safe_main.max_requests
    {| ultra_safe_main.active_requests := 5; ultra_safe_main.max_requests := 5 |}
    <= ultra_safe_main.active_requests
         {| ultra_safe_main.active_requests := 5;
            ultra_safe_main.max_requests := 5 |}) by reflexivity.
  split; [exact Hs|].
  by rewrite (ultra_rejects_when_saturated (fun _ => main.Html "<table>")
                _ (form_hair "3") Hs).
Defined.

(** X9: an admitted request whose day count parses to an integer below 1
    or above 10 is answered by ultra_safe_main.py with its range message,
    without table or entry, and the counter is back at its value. *)
Theorem ultra_rejects_out_of_range to_html s f n :
  ultra_safe_main.active_requests s < ultra_safe_main.max_requests s ->
  accepted f n -> n < 1 \/ 10 < n ->
  ultra_safe_main.generate_calendar to_html s (main.POST f)
  = ({| ultra_safe_main.table_html := None;
        ultra_safe_main.error_message :=
          Some "Number of days must be between 1 and 10.";
        ultra_safe_main.calendar_data := [] |}, s).
Proof.
  intros Hs (Hn & Hc & Hd) Hr. unfold ultra_safe_main.generate_calendar,
    ultra_safe_main.safe_request_enter, ultra_safe_main.admitted.
  replace (_ >=? _) with false by lia.
  rewrite Hn, Hc, Hd. cbn [negb orb].
  replace ((n <? 1) || (n >? 10)) with true by lia.
  f_equal. destruct s. unfold ultra_safe_main.safe_request_exit. cbn.
  f_equal. lia.
Qed.

Lemma ultra_rejects_out_of_range_witness :
  ultra_safe_main.active_requests ultra_safe_main.init
  < ultra_safe_main.max_requests ultra_safe_main.init
  /\ accepted (form_hair "11") 11 /\ (11 < 1 \/ 10 < 11)
  /\ ultra_safe_main.error_message
       (ultra_safe_main.generate_calendar (fun _ => main.Html "<table>")
          ultra_safe_main.init (main.POST (form_hair "11"))).1
     = Some "Number of days must be between 1 and 10.".
Proof.
  assert (Hs : ultra_safe_main.active_requests ultra_safe_main.init
               < ultra_safe_main.max_requests ultra_safe_main.init)
    by reflexivity.
  assert (Ha : accepted (form_hair "11") 11) by (repeat split).
  assert (Hr : 11 < 1 \/ 10 < 11) by lia.
  split; [exact Hs|]. split; [exact Ha|]. split; [exact Hr|].
  by rewrite (ultra_rejects_out_of_range (fun _ => main.Html "<table>")
                ultra_safe_main.init (form_hair "11") 11 Hs Ha Hr).
Defined.

(** ** The governor and the handler of deployment_main.py *)

(** X10: whatever calls [ProductionSafety] receives, in whatever order
    (also an [end_request] that no [start_request] preceded), its counter
    stays between 0 and the bound of 2. *)
Theorem production_counter_bounded s :
  deployment_main.reachable s ->
  0 <= deployment_main.active_requests s <= deployment_main.max_concurrent s
  /\ deployment_main.max_concurrent s = 2.
Proof.
  intros [calls ->].
  induction calls as [|c calls IH] using rev_ind; [done|].
  rewrite foldl_snoc.
  destruct (foldl deployment_main.step _ calls) as [m a].
  cbn in IH. destruct IH as (Ha & ->).
  destruct c; unfold deployment_main.step, deployment_main.start_request,
    deployment_main.end_request; cbn; [lia| |lia].
  destruct (a >=? 2) eqn:E; cbn; lia.
Qed.

Lemma production_counter_bounded_witness :
  deployment_main.reachable
    (foldl deployment_main.step deployment_main.init
       [deployment_main.EndRequest; deployment_main.StartRequest;
        deployment_main.StartRequest; deployment_main.StartRequest])
  /\ deployment_main.active_requests
       (foldl deployment_main.step deployment_main.init
          [deployment_main.EndRequest; deployment_main.StartRequest;
           deployment_main.StartRequest; deployment_main.StartRequest])
     <= 2.
Proof.
  assert (Hr : deployment_main.reachable
    (foldl deployment_main.step deployment_main.init
       [deployment_main.EndRequest; deployment_main.StartRequest;
        deployment_main.StartRequest; deployment_main.StartRequest]))
    by (by eexists).
  split; [exact Hr|].
  destruct (production_counter_bounded _ Hr) as ((_ & H) & Hm).
  rewrite Hm in H. exact H.
Defined.

(** An admitted [start_request] followed by [end_request] restores the
    governor. *)
Lemma production_round_trip s :
  deployment_main.can_process s = true ->
  0 <= deployment_main.active_requests s ->
  deployment_main.end_request (deployment_main.start_request s).2 = s.
Proof.
  destruct s as [m a].
  unfold deployment_main.can_process, deployment_main.start_request,
    deployment_main.end_request. cbn. intros E Ha.
  replace (a >=? m) with false by lia. cbn. f_equal. lia.
Qed.

(** X11: [can_process] tells exactly whether [start_request] would be
    admitted; a rejected [start_request] leaves the state as it is, and an
    admitted one followed by [end_request] restores a non-negative
    counter. *)
Theorem production_start_end s :
  (deployment_main.can_process s = true
   <-> (deployment_main.start_request s).1 = None)
  /\ (deployment_main.can_process s = false ->
      deployment_main.start_request s = (Some deployment_main.busy, s))
  /\ (deployment_main.can_process s = true ->
      0 <= deployment_main.active_requests s ->
      deployment_main.end_request (deployment_main.start_request s).2 = s).
Proof.
  destruct s as [m a].
  unfold deployment_main.can_process, deployment_main.start_request,
    deployment_main.end_request. cbn.
  destruct (a <? m) eqn:E.
  - replace (a >=? m) with false by lia. cbn. repeat split; try done.
    intros _ Ha. f_equal. lia.
  - replace (a >=? m) with true by lia. cbn. repeat split; done.
Qed.

Lemma production_start_end_witness :
  deployment_main.can_process deployment_main.init = true
  /\ 0 <= deployment_main.active_requests deployment_main.init
  /\ (deployment_main.start_request deployment_main.init).1 = None
  /\ deployment_main.end_request
       (deployment_main.start_request deployment_main.init).2
     = deployment_main.init.
Proof.
  split; [reflexivity|]. split; [done|].
  destruct (production_start_end deployment_main.init) as (Hcan & _ & Hround).
  split.
  - exact (proj1 Hcan eq_refl).
  - apply Hround; [reflexivity|done].
Defined.

Lemma deployment_entry_ok niche city day :
  exists (e : pydict) activity,
    deployment_calendar.calendar_entry niche city day = Ok e
    /\ e !! "Day" = Some (PStr ("Day " +:+ Py.str day))
    /\ deployment_calendar.activities !! Z.to_nat ((day - 1) `mod` 10)
       = Some activity
    /\ e !! "Activity" = Some (PStr activity).
Proof.
  unfold deployment_calendar.calendar_entry.
  destruct (getitem_mod_ok deployment_calendar.activities (day - 1))
    as (a & -> & Ha); [done|].
  destruct (getitem_mod_ok (deployment_calendar.scripts niche city) (day - 1))
    as (s & -> & _); [done|].
  destruct (getitem_mod_ok deployment_calendar.times (day - 1))
    as (t & -> & _); [done|].
  destruct (getitem_mod_ok deployment_calendar.ctas (day - 1))
    as (c & -> & _); [done|].
  rewrite first_niche_tag_ok.
  cbn [mbind result_bind mret result_ret].
  eexists _, a. split; [reflexivity|]. split; [reflexivity|].
  split; [exact Ha|reflexivity].
Qed.

Definition deployment_entry (niche city : string) (day : Z) : pydict :=
  match deployment_calendar.calendar_entry niche city day with
  | Ok e => e
  | Raise _ => main.emergency_entry niche city day
  end.

Lemma deployment_loop niche city days acc :
  foldl (deployment_calendar.day_turn niche city) acc days
  = acc ++ (deployment_entry niche city <$> days).
Proof.
  revert acc. induction days as [|d days IH]; intros acc; simpl.
  - by rewrite app_nil_r.
  - rewrite IH. unfold deployment_calendar.day_turn, deployment_entry.
    destruct (deployment_calendar.calendar_entry niche city d);
      by rewrite <- app_assoc.
Qed.

(** X12: run on its own with a counter between 0 and the bound,
    deployment_main.py answers a validated request for 1 to 10 days with
    exactly that many entries, the entry of day [d] labelled [Day d] with
    the activity at position [(d - 1) mod 10], and leaves the counter at
    the value it found. *)
Theorem deployment_calendar_days to_html s f n :
  0 <= deployment_main.active_requests s < deployment_main.max_concurrent s ->
  accepted f n -> 1 <= n <= 10 ->
  let r := deployment_calendar.generate_calendar to_html s (main.POST f) in
  r.2 = s
  /\ length (ultra_safe_main.calendar_data r.1) = Z.to_nat n
  /\ forall d, 1 <= d <= n ->
       exists (e : pydict) activity,
         ultra_safe_main.calendar_data r.1 !! Z.to_nat (d - 1) = Some e
         /\ e !! "Day" = Some (PStr ("Day " +:+ Py.str d))
         /\ deployment_calendar.activities !! Z.to_nat ((d - 1) `mod` 10)
            = Some activity
         /\ e !! "Activity" = Some (PStr activity).
Proof.
  intros Hs (Hn & Hc & Hd) Hr.
  pose proof (production_round_trip s) as Hround.
  assert (Hcan : deployment_main.can_process s = true)
    by (unfold deployment_main.can_process; lia).
  specialize (Hround Hcan ltac:(lia)).
  unfold deployment_calendar.generate_calendar. rewrite Hcan. cbn [negb].
  unfold deployment_main.start_request in *.
  replace (_ >=? _) with false in * by lia. cbn [fst snd] in *.
  split; [exact Hround|].
  unfold deployment_calendar.admitted.
  fold (niche_of f) in *. fold (city_of f) in *.
  rewrite Hn, Hc, Hd. cbn [negb orb].
  replace ((n <? 1) || (n >? 10)) with false by lia.
  rewrite deployment_loop. cbn [app].
  assert (Hcal : forall r' : ultra_safe_main.response,
    ultra_safe_main.calendar_data r'
    = deployment_entry (niche_of f) (city_of f) <$> Py.range 1 (n + 1) ->
    length (ultra_safe_main.calendar_data r') = Z.to_nat n
    /\ forall d, 1 <= d <= n ->
         exists (e : pydict) activity,
           ultra_safe_main.calendar_data r' !! Z.to_nat (d - 1) = Some e
           /\ e !! "Day" = Some (PStr ("Day " +:+ Py.str d))
           /\ deployment_calendar.activities !! Z.to_nat ((d - 1) `mod` 10)
              = Some activity
           /\ e !! "Activity" = Some (PStr activity)).
  { intros r' ->. split.
    - rewrite length_fmap. unfold Py.range. rewrite length_seqZ. lia.
    - intros d Hd'.
      destruct (deployment_entry_ok (niche_of f) (city_of f) d)
        as (e & a & He & Hday & Ha' & Hact).
      exists e, a. split; [|done].
      rewrite list_lookup_fmap. unfold Py.range.
      rewrite lookup_seqZ_lt by lia. cbn.
      replace (1 + Z.of_nat (Z.to_nat (d - 1))) with d by lia.
      unfold deployment_entry. by rewrite He. }
  apply Hcal.
  destruct (deployment_entry _ _ <$> _) as [|e l]; [done|].
  by destruct (to_html (e :: l)).
Qed.

Lemma deployment_calendar_days_witness :
  0 <= deployment_main.active_requests deployment_main.init
    < deployment_main.max_concurrent deployment_main.init
  /\ accepted (form_hair "10") 10 /\ 1 <= 10 <= 10
  /\ length (ultra_safe_main.calendar_data
               (deployment_calendar.generate_calendar
                  (fun _ => main.Html "<table>") deployment_main.init
                  (main.POST (form_hair "10"))).1) = 10%nat.
Proof.
  assert (Hs : 0 <= deployment_main.active_requests deployment_main.init
               < deployment_main.max_concurrent deployment_main.init)
    by (split; reflexivity || discriminate).
  assert (Ha : accepted (form_hair "10") 10) by (repeat split).
  assert (Hr : 1 <= 10 <= 10) by lia.
  split; [exact Hs|]. split; [exact Ha|]. split; [exact Hr|].
  exact (proj1 (proj2 (deployment_calendar_days (fun _ => main.Html "<table>")
                         deployment_main.init (form_hair "10") 10 Hs Ha Hr))).
Defined.

(** An order of steps: [rounds p k] lets, [k] times over, one request
    fail at [start_request] and run its [finally], and the next request
    start. *)
Fixpoint rounds (p k : nat) : list nat :=
  match k with
  | O => []
  | S k' => [p; p; S p] ++ rounds (S (S p)) k'
  end.

Definition overtaking (k : nat) : list nat :=
  seq 0 (2 + 2 * k) ++ [0; 1]%nat ++ rounds 2 k.

Lemma insert_middle {A} (pre : list A) (x y : A) (rest : list A) :
  <[length pre := y]> (pre ++ x :: rest) = pre ++ y :: rest.
Proof.
  rewrite insert_app_r_alt by lia. by rewrite Nat.sub_diag.
Qed.

(** One step of the request that stands at position [n]. *)
Lemma advance_at pre st rest s n :
  n = length pre ->
  deployment_calendar.advance
    {| deployment_calendar.safety := s;
       deployment_calendar.requests := pre ++ st :: rest |} n
  = match st with
    | deployment_calendar.Arrived =>
        {| deployment_calendar.safety := s;
           deployment_calendar.requests :=
             pre ++ (if deployment_main.can_process s
                     then deployment_calendar.Checked
                     else deployment_calendar.Returned) :: rest |}
    | deployment_calendar.Checked =>
        {| deployment_calendar.safety := (deployment_main.start_request s).2;
           deployment_calendar.requests :=
             pre ++ (match (deployment_main.start_request s).1 with
                     | Some _ => deployment_calendar.Rejected
                     | None => deployment_calendar.Running
                     end) :: rest |}
    | deployment_calendar.Running | deployment_calendar.Rejected =>
        {| deployment_calendar.safety := deployment_main.end_request s;
           deployment_calendar.requests :=
             pre ++ deployment_calendar.Returned :: rest |}
    | deployment_calendar.Returned =>
        {| deployment_calendar.safety := s;
           deployment_calendar.requests := pre ++ st :: rest |}
    end.
Proof.
  intros ->. unfold deployment_calendar.advance.
  cbn [deployment_calendar.requests deployment_calendar.safety].
  rewrite (list_lookup_middle pre rest st (length pre) eq_refl).
  destruct st; rewrite ?insert_middle; try done.
  by destruct (deployment_main.start_request s) as [[msg|] s'].
Qed.

Lemma advance_all_checked s done_ todo :
  deployment_main.can_process s = true ->
  foldl deployment_calendar.advance
    {| deployment_calendar.safety := s;
       deployment_calendar.requests :=
         replicate done_ deployment_calendar.Checked
         ++ replicate todo deployment_calendar.Arrived |}
    (seq done_ todo)
  = {| deployment_calendar.safety := s;
       deployment_calendar.requests :=
         replicate (done_ + todo) deployment_calendar.Checked |}.
Proof.
  intros Hs. revert done_. induction todo as [|todo IH]; intros done_.
  - simpl. by rewrite app_nil_r, Nat.add_0_r.
  - cbn [seq foldl]. rewrite (replicate_S todo).
    rewrite advance_at by (by rewrite length_replicate).
    rewrite Hs, cons_middle, app_assoc, <- replicate_S_end.
    rewrite (IH (S done_)). f_equal. f_equal. lia.
Qed.

Lemma advance_rounds pre k :
  foldl deployment_calendar.advance
    {| deployment_calendar.safety :=
         {| deployment_main.max_concurrent := 2;
            deployment_main.active_requests := 2 |};
       deployment_calendar.requests :=
         pre ++ replicate (2 * k) deployment_calendar.Checked |}
    (rounds (length pre) k)
  = {| deployment_calendar.safety :=
         {| deployment_main.max_concurrent := 2;
            deployment_main.active_requests := 2 |};
       deployment_calendar.requests :=
         pre ++ concat (replicate k [deployment_calendar.Returned;
                                     deployment_calendar.Running]) |}.
Proof.
  revert pre. induction k as [|k IH]; intros pre; [done|].
  replace (2 * S k)%nat with (S (S (2 * k))) by lia.
  cbn [rounds app foldl replicate concat].
  set (rest := replicate (2 * k) deployment_calendar.Checked).
  (* the request at [length pre] is rejected by [start_request] *)
  rewrite (advance_at pre _ _ _ (length pre) eq_refl).
  change (deployment_main.start_request _)
    with (Some deployment_main.busy,
          {| deployment_main.max_concurrent := 2;
             deployment_main.active_requests := 2 |}).
  cbn [fst snd].
  (* its [finally] calls [end_request] *)
  rewrite (advance_at pre _ _ _ (length pre) eq_refl).
  change (deployment_main.end_request _)
    with {| deployment_main.max_concurrent := 2;
            deployment_main.active_requests := 1 |}.
  (* the next request is admitted *)
  rewrite (cons_middle deployment_calendar.Returned pre), app_assoc.
  rewrite (advance_at (pre ++ [deployment_calendar.Returned]) _ _ _
             (S (length pre))) by (rewrite length_app; simpl; lia).
  change (deployment_main.start_request _)
    with (None (A := string),
          {| deployment_main.max_concurrent := 2;
             deployment_main.active_requests := 2 |}).
  cbn [fst snd].
  rewrite cons_middle, app_assoc.
  replace (S (S (length pre)))
    with (length ((pre ++ [deployment_calendar.Returned])
                  ++ [deployment_calendar.Running]))
    by (rewrite !length_app; simpl; lia).
  subst rest. rewrite IH. f_equal. by rewrite <- !app_assoc.
Qed.

Lemma running_rounds k :
  length (filter (fun st => st = deployment_calendar.Running)
            (concat (replicate k [deployment_calendar.Returned;
                                  deployment_calendar.Running]))) = k.
Proof.
  induction k as [|k IH]; [done|].
  cbn [replicate concat app].
  rewrite filter_cons_False, filter_cons_True by done.
  cbn [length]. by rewrite IH.
Qed.

(** X13: the counter of deployment_main.py does not bound the requests
    that are running.  A request that passed [can_process] before others
    were admitted is rejected by [start_request], and the [finally] of the
    handler then calls [end_request] for it all the same, which takes one
    off the counter although that request never added one; the next
    request is then admitted.  For every [k] there is an order of steps of
    [2 + 2k] requests that leaves [2 + k] of them in the body of the
    handler at once, the counter showing the bound of 2. *)
Theorem deployment_running_exceeds_bound k :
  let y := foldl deployment_calendar.advance
             {| deployment_calendar.safety := deployment_main.init;
                deployment_calendar.requests :=
                  replicate (2 + 2 * k) deployment_calendar.Arrived |}
             (overtaking k) in
  deployment_calendar.running y = (2 + k)%nat
  /\ deployment_main.active_requests (deployment_calendar.safety y) = 2
  /\ deployment_main.max_concurrent (deployment_calendar.safety y) = 2.
Proof.
  assert (Hstate :
    foldl deployment_calendar.advance
      {| deployment_calendar.safety := deployment_main.init;
         deployment_calendar.requests :=
           replicate (2 + 2 * k) deployment_calendar.Arrived |}
      (overtaking k)
    = {| deployment_calendar.safety :=
           {| deployment_main.max_concurrent := 2;
              deployment_main.active_requests := 2 |};
         deployment_calendar.requests :=
           [deployment_calendar.Running; deployment_calendar.Running]
           ++ concat (replicate k [deployment_calendar.Returned;
                                   deployment_calendar.Running]) |}).
  { unfold overtaking. rewrite !foldl_app.
    pose proof (advance_all_checked deployment_main.init 0 (2 + 2 * k) eq_refl)
      as H0.
    cbn [replicate app] in H0. rewrite H0. clear H0.
    cbn [Nat.add replicate foldl].
    pose proof (advance_at [] deployment_calendar.Checked
      (deployment_calendar.Checked
       :: replicate (2 * k) deployment_calendar.Checked)
      deployment_main.init 0 eq_refl) as H1.
    cbn [app] in H1. rewrite H1. clear H1.
    change (deployment_main.start_request deployment_main.init)
      with (None (A := string),
            {| deployment_main.max_concurrent := 2;
               deployment_main.active_requests := 1 |}).
    cbn [fst snd].
    pose proof (advance_at [deployment_calendar.Running]
      deployment_calendar.Checked
      (replicate (2 * k) deployment_calendar.Checked)
      {| deployment_main.max_concurrent := 2;
         deployment_main.active_requests := 1 |} 1 eq_refl) as H2.
    cbn [app] in H2. rewrite H2. clear H2.
    change (deployment_main.start_request _)
      with (None (A := string),
            {| deployment_main.max_concurrent := 2;
               deployment_main.active_requests := 2 |}).
    cbn [fst snd].
    exact (advance_rounds
      [deployment_calendar.Running; deployment_calendar.Running] k). }
  intros y. subst y. rewrite Hstate.
  unfold deployment_calendar.running.
  cbn [deployment_calendar.requests deployment_calendar.safety
       deployment_main.active_requests deployment_main.max_concurrent app].
  split; [|done].
  rewrite !filter_cons_True by done.
  cbn [length]. by rewrite running_rounds.
Qed.

Example deployment_three_running :
  deployment_calendar.running
    (foldl deployment_calendar.advance
       {| deployment_calendar.safety := deployment_main.init;
          deployment_calendar.requests :=
            replicate 4 deployment_calendar.Arrived |}
       [0; 1; 2; 3; 0; 1; 2; 2; 3]%nat) = 3%nat.
Proof. reflexivity. Qed.

(** ** The batch generator of crash_prevention.py *)

(** The day numbers of a batch calendar, entry by entry. *)
Definition days_of (calendar_data : list pydict) : list (option pyval) :=
  (fun e : pydict => e !! "day") <$> calendar_data.

(** A batch entry has the day under [day] and nothing under the
    capitalised keys that the prompt and the signatures read. *)
Definition batch_entry (day : Z) (e : pydict) : Prop :=
  e !! "day" = Some (PInt day)
  /\ e !! "Activity" = None /\ e !! "Script" = None /\ e !! "Visual" = None.

Lemma post_data_batch_entry day fields_ e :
  crash_prevention.post_data day fields_ = Ok e -> batch_entry day e.
Proof.
  unfold crash_prevention.post_data. intros H. invert_binds H.
  injection H as <-. by repeat split.
Qed.

Lemma batch_day_turn sv disturbed niche city calendar_data day :
  crash_prevention.day_turn sv disturbed niche city calendar_data day
  = calendar_data
  \/ exists e,
       crash_prevention.day_turn sv disturbed niche city calendar_data day
       = calendar_data ++ [e]
       /\ batch_entry day e.
Proof.
  unfold crash_prevention.day_turn.
  destruct (Py.truthy _); [|by left].
  destruct (Py.len _ >=? 9); [|by left].
  destruct (crash_prevention.post_data day _) as [e|] eqn:E; [|by left].
  right. exists e. split; [done|]. by eapply post_data_batch_entry.
Qed.

Lemma batch_loop sv disturbed niche city days acc :
  exists kept entries,
    foldl (crash_prevention.day_turn sv disturbed niche city) acc days
    = acc ++ entries
    /\ sublist kept days
    /\ Forall2 batch_entry kept entries.
Proof.
  revert acc. induction days as [|day days IH]; intros acc.
  - exists [], []. by rewrite app_nil_r.
  - cbn [foldl].
    destruct (batch_day_turn sv disturbed niche city acc day)
      as [-> | (e & -> & He)].
    + destruct (IH acc) as (kept & entries & -> & Hs & Hf).
      exists kept, entries. split; [done|]. split; [|done].
      by apply sublist_cons.
    + destruct (IH (acc ++ [e])) as (kept & entries & -> & Hs & Hf).
      exists (day :: kept), (e :: entries).
      split; [by rewrite <- app_assoc|]. split; [|by constructor].
      by apply sublist_skip.
Qed.

(** The days the loop of line 215 goes through: 1 up to 9 at most. *)
Lemma day_range_bounds days d :
  d ∈ crash_prevention.day_range days -> 1 <= d <= 9 /\ d <= days.
Proof.
  unfold crash_prevention.day_range, Py.range.
  intros (i & Hi)%list_elem_of_lookup_1.
  apply lookup_seqZ in Hi as [-> Hi]. lia.
Qed.

(** At most 9 posts for a business. *)
Lemma business_calendar_length sv disturbed business days :
  (length (crash_prevention.business_calendar sv disturbed business days)
   <= 9)%nat.
Proof.
  unfold crash_prevention.business_calendar.
  destruct (batch_loop sv disturbed
              (default "business" (business !! "niche"))
              (default "local" (business !! "city"))
              (crash_prevention.day_range days) [])
    as (kept & entries & -> & Hs & Hf).
  cbn [app]. rewrite <- (Forall2_length _ _ _ Hf).
  apply sublist_length in Hs. rewrite Hs.
  unfold crash_prevention.day_range, Py.range. rewrite length_seqZ. lia.
Qed.

(** X14: whatever the services and the protection do and however many
    days are asked for, [safe_batch_generation] gives a business at most
    9 posts; their day numbers appear in increasing order without
    repetition, each between 1 and 9 and no larger than the days asked
    for.  A day whose post has fewer than 9 fields leaves no entry, so
    there may be gaps. *)
Theorem batch_calendar_days sv disturbed business days :
  let calendar_data :=
    crash_prevention.business_calendar sv disturbed business days in
  exists kept,
    days_of calendar_data = (fun d => Some (PInt d)) <$> kept
    /\ sublist kept (crash_prevention.day_range days)
    /\ (length calendar_data <= 9)%nat
    /\ Forall (fun d => 1 <= d <= 9 /\ d <= days) kept.
Proof.
  unfold crash_prevention.business_calendar.
  destruct (batch_loop sv disturbed
              (default "business" (business !! "niche"))
              (default "local" (business !! "city"))
              (crash_prevention.day_range days) [])
    as (kept & entries & -> & Hs & Hf).
  cbn [app]. exists kept. split; [|split; [done|split]].
  - unfold days_of. clear Hs.
    induction Hf as [|d e kept entries [He _] _ IH]; [done|].
    cbn [fmap list_fmap]. by rewrite He, <- IH.
  - rewrite <- (Forall2_length _ _ _ Hf).
    apply sublist_length in Hs. rewrite Hs.
    unfold crash_prevention.day_range, Py.range. rewrite length_seqZ. lia.
  - apply Forall_forall. intros d Hd. apply day_range_bounds.
    by eapply elem_of_sublist.
Qed.


(** Entries without the capitalised keys. *)
Definition lower_keyed (e : pydict) : Prop :=
  e !! "Activity" = None /\ e !! "Script" = None /\ e !! "Visual" = None.

Lemma lower_keyed_signatures entries :
  Forall lower_keyed entries ->
  crash_prevention.used_signatures entries
  = Ok (match entries with [] => ∅ | _ => {[ "_" ]} end).
Proof.
  induction 1 as [|e entries (Ha & Hs & _) _ IH]; [done|].
  cbn [crash_prevention.used_signatures]. unfold crash_prevention.get_str.
  rewrite Ha, Hs, IH. cbn [mbind result_bind mret result_ret].
  f_equal. change (Py.lower "" +:+ "_" +:+ Py.lower (Py.left 30 "")) with "_".
  destruct entries; [apply union_empty_r_L|apply union_idemp_L].
Qed.

Lemma lower_keyed_context entries :
  Forall lower_keyed entries -> ssds_ai.previous_context entries = Ok "".
Proof.
  intros Hf.
  assert (Hc : forall key, key = "Activity" \/ key = "Visual" ->
                 ssds_ai.collect key entries = []).
  { intros key Hkey. unfold ssds_ai.collect.
    induction Hf as [|e entries (Ha & _ & Hv) _ IH]; [done|].
    cbn [flat_map]. rewrite IH.
    by destruct Hkey as [-> | ->]; rewrite ?Ha, ?Hv. }
  unfold ssds_ai.previous_context.
  rewrite (Hc "Activity" (or_introl eq_refl)),
    (Hc "Visual" (or_intror eq_refl)).
  by destruct entries.
Qed.

Lemma batch_entries_lower_keyed kept entries :
  Forall2 batch_entry kept entries -> Forall lower_keyed entries.
Proof.
  induction 1 as [|d e kept entries (_ & Ha & Hs & Hv) _ IH];
    constructor; done.
Qed.

(** X15: the entries a batch builds are keyed in lower case, while the
    signature set and the prompt read the capitalised keys.  So the set
    of used signatures handed to [generate_diverse_content] never holds a
    real signature (it is empty, or holds the signature of two empty
    strings), and the prompt sent to the service never lists the prior
    activities or visuals. *)
Theorem batch_history_unread sv disturbed business days :
  let calendar_data :=
    crash_prevention.business_calendar sv disturbed business days in
  crash_prevention.used_signatures calendar_data
  = Ok (match calendar_data with [] => ∅ | _ => {[ "_" ]} end)
  /\ ssds_ai.previous_context calendar_data = Ok "".
Proof.
  unfold crash_prevention.business_calendar.
  destruct (batch_loop sv disturbed
              (default "business" (business !! "niche"))
              (default "local" (business !! "city"))
              (crash_prevention.day_range days) [])
    as (kept & entries & -> & _ & Hf).
  cbn [app]. apply batch_entries_lower_keyed in Hf.
  split; [by apply lower_keyed_signatures|by apply lower_keyed_context].
Qed.

(** The single post [get_emergency_fallback] makes when it is given no
    argument, as the wrapper of a parameterless function does. *)
Definition generic_post : string := crash_prevention.get_emergency_fallback None.

Definition generic_entry (day : Z) : pydict :=
  match crash_prevention.post_data day (Py.split Py.pipe generic_post) with
  | Ok e => e
  | Raise _ => ∅
  end.

Lemma disturbed_day_turn sv disturbed niche city calendar_data day :
  disturbed day = true ->
  crash_prevention.day_turn sv disturbed niche city calendar_data day
  = calendar_data ++ [generic_entry day].
Proof.
  intros Hd. unfold crash_prevention.day_turn,
    crash_prevention.safe_generation_wrapper. rewrite Hd.
  fold generic_post. unfold generic_entry.
  change (Py.truthy generic_post) with true.
  change (Py.len (Py.split Py.pipe generic_post) >=? 9) with true.
  cbn iota.
  destruct (crash_prevention.post_data day _) as [e|err] eqn:E; [done|].
  exfalso. unfold crash_prevention.post_data in E.
  do 8 (match type of E with
        | context [Py.getitem ?l ?i] =>
            let x := fresh "x" in
            let Hx := fresh "Hx" in
            destruct (getitem_in_range l i) as [x Hx];
            [split; [lia|reflexivity]|];
            rewrite Hx in E; cbn [mbind result_bind] in E
        end).
  discriminate E.
Qed.

(** X16: when the protection of [safe_generation_wrapper] itself raises
    on every day (as its alarm signal does off the main thread), each
    business gets one entry per day of the loop, and every entry is built
    from the same generic post: the calendar does not depend on the niche
    and city of the business, nor on the services. *)
Theorem batch_disturbed_generic sv disturbed business days :
  (forall d, disturbed d = true) ->
  crash_prevention.business_calendar sv disturbed business days
  = generic_entry <$> crash_prevention.day_range days.
Proof.
  intros Hd. unfold crash_prevention.business_calendar.
  generalize (crash_prevention.day_range days). intros l.
  change (generic_entry <$> l) with ([] ++ (generic_entry <$> l)).
  generalize (@nil pydict). induction l as [|d l IH]; intros acc.
  - by rewrite app_nil_r.
  - cbn [foldl]. rewrite disturbed_day_turn by done.
    rewrite IH. by rewrite <- app_assoc.
Qed.

Lemma batch_disturbed_generic_witness :
  (forall d : Z, (fun _ : Z => true) d = true)
  /\ (fun e : pydict => e !! "activity")
       <$> crash_prevention.business_calendar (fun _ => silent)
             (fun _ => true) {[ "niche" := "hair"; "city" := "Austin" ]} 2
     = [Some (PStr "Business Content"); Some (PStr "Business Content")].
Proof.
  assert (H : forall d : Z, (fun _ : Z => true) d = true) by reflexivity.
  split; [exact H|].
  by rewrite (batch_disturbed_generic (fun _ => silent) (fun _ => true)
                {[ "niche" := "hair"; "city" := "Austin" ]} 2 H).
Defined.

(** ** Chunking *)

Lemma slice_app {A} (l : list A) (a b c : Z) :
  0 <= a <= b -> b <= c ->
  Py.slice l a b ++ Py.slice l b c = Py.slice l a c.
Proof.
  intros Hab Hbc. unfold Py.slice.
  replace (Z.to_nat b) with (Z.to_nat a + Z.to_nat (b - a))%nat by lia.
  rewrite <- drop_drop, take_take_drop. f_equal. lia.
Qed.

Lemma slice_beyond {A} (l : list A) (a b : Z) :
  Py.len l <= a -> Py.slice l a b = [].
Proof.
  intros Ha. unfold Py.slice, Py.len in *.
  rewrite drop_ge by lia. by rewrite take_nil.
Qed.

Lemma slice_all {A} (l : list A) (b : Z) :
  Py.len l <= b -> Py.slice l 0 b = l.
Proof.
  intros Hb. unfold Py.slice, Py.len in *. cbn [Z.to_nat drop].
  apply take_ge. lia.
Qed.

(** The slices cut at the multiples of a positive size, taken in order,
    make up the list again. *)
Lemma slices_cover {A} (l : list A) (size : Z) (m : nat) (j : Z) :
  0 < size -> 0 <= j ->
  concat ((fun k => Py.slice l (k * size) (Z.min (k * size + size) (Py.len l)))
            <$> seqZ j (Z.of_nat m))
  = Py.slice l (j * size) (Z.min ((j + Z.of_nat m) * size) (Py.len l)).
Proof.
  intros Hsize. revert j. induction m as [|m IH]; intros j Hj.
  - rewrite seqZ_nil by lia. cbn. unfold Py.slice.
    replace (Z.to_nat _) with 0%nat by lia. done.
  - rewrite seqZ_cons by lia. cbn [fmap list_fmap concat].
    replace (Z.pred (Z.of_nat (S m))) with (Z.of_nat m) by lia.
    rewrite (IH (Z.succ j)) by lia.
    destruct (Z.le_gt_cases (j * size + size) (Py.len l)) as [Hle|Hgt].
    + rewrite (Z.min_l (j * size + size)) by lia.
      replace (Z.succ j * size) with (j * size + size) by lia.
      rewrite slice_app by nia. f_equal. f_equal. lia.
    + rewrite (Z.min_r (j * size + size)) by lia.
      rewrite (slice_beyond l (Z.succ j * size)) by lia.
      rewrite app_nil_r. f_equal. nia.
Qed.

Lemma fmap_business_imap (g : nat -> gmap string string -> crash_prevention.batch_result) l :
  (forall i b, crash_prevention.business (g i b) = b) ->
  crash_prevention.business <$> imap g l = l.
Proof.
  revert g. induction l as [|x l IH]; intros g Hg; [done|].
  rewrite imap_cons, fmap_cons, Hg, IH; [done|]. intros i b. apply Hg.
Qed.

Lemma fmap_business_chunk w businesses days chunk :
  crash_prevention.business
    <$> crash_prevention.process_chunk w businesses days chunk
  = Py.slice businesses chunk.1 chunk.2.
Proof.
  destruct chunk as [a b]. unfold crash_prevention.process_chunk.
  by apply fmap_business_imap.
Qed.

Lemma batch_result_shape w position b days :
  let r := crash_prevention.process_business w position b days in
  crash_prevention.status r = "completed"
  /\ crash_prevention.posts_generated r
     = Py.len (crash_prevention.calendar_data r)
  /\ (length (crash_prevention.calendar_data r) <= 9)%nat.
Proof.
  cbn. repeat split. apply business_calendar_length.
Qed.

Lemma safe_chunk_size_positive memory max_chunk_size :
  0 < max_chunk_size ->
  0 < crash_prevention.safe_chunk_size memory max_chunk_size.
Proof.
  intros H. unfold crash_prevention.safe_chunk_size.
  destruct (negb _); [lia|]. destruct (negb _); lia.
Qed.

(** X17: with a positive [max_chunk_size], whatever the memory sample,
    [safe_batch_generation] returns exactly one record per business, in
    the order of the input: cutting the list into chunks loses, repeats
    and reorders nothing.  Every record is marked completed, counts its
    own posts, and holds at most 9 of them. *)
Theorem batch_one_record_per_business w businesses days max_chunk_size :
  0 < max_chunk_size ->
  exists results,
    crash_prevention.safe_batch_generation w businesses days max_chunk_size
    = Ok results
    /\ crash_prevention.business <$> results = businesses
    /\ Forall (fun r =>
                 crash_prevention.status r = "completed"
                 /\ crash_prevention.posts_generated r
                    = Py.len (crash_prevention.calendar_data r)
                 /\ (length (crash_prevention.calendar_data r) <= 9)%nat)
              results.
Proof.
  intros Hmax. unfold crash_prevention.safe_batch_generation,
    crash_prevention.chunk_large_request, Py.range3.
  pose proof (safe_chunk_size_positive (crash_prevention.memory_percent w)
                max_chunk_size Hmax) as Hsize.
  set (size := crash_prevention.safe_chunk_size _ max_chunk_size) in *.
  replace (size =? 0) with false by lia.
  replace (0 <? size) with true by lia.
  cbn [mbind result_bind mret result_ret].
  eexists. split; [reflexivity|].
  set (total := Py.len businesses).
  assert (Htotal : 0 <= total) by (unfold total, Py.len; lia).
  set (n := (total - 0 + size - 1) `div` size).
  assert (Hn : 0 <= n /\ total <= n * size).
  { unfold n. split.
    - apply Z.div_pos; lia.
    - pose proof (Z.mod_pos_bound (total - 0 + size - 1) size Hsize).
      pose proof (Z.div_mod (total - 0 + size - 1) size ltac:(lia)). nia. }
  split.
  - transitivity
      (concat ((fun k => Py.slice businesses (k * size)
                           (Z.min (k * size + size) (Py.len businesses)))
                 <$> seqZ 0 n)).
    + fold total. generalize (seqZ 0 n). intros ks.
      induction ks as [|k ks IH]; [done|].
      cbn [fmap list_fmap mbind list_bind concat] in *.
      rewrite fmap_app, fmap_business_chunk. cbn [fst snd].
      rewrite IH. by replace (0 + k * size) with (k * size) by lia.
    + replace n with (Z.of_nat (Z.to_nat n)) by lia.
      rewrite slices_cover by lia.
      replace (0 * size) with 0 by lia. apply slice_all.
      fold total. lia.
  - apply Forall_forall. intros r Hr.
    apply list_elem_of_bind in Hr as (chunk & Hr & _).
    destruct chunk as [a b]. unfold crash_prevention.process_chunk in Hr.
    apply elem_of_lookup_imap in Hr as (i & b0 & -> & _).
    apply batch_result_shape.
Qed.

Lemma batch_one_record_per_business_witness :
  0 < 5
  /\ exists results,
       crash_prevention.safe_batch_generation
         {| crash_prevention.memory_percent := QArith_base.Qmake 431 10;
            crash_prevention.services_on := fun _ _ => silent;
            crash_prevention.disturbed_on := fun _ _ => false |}
         (replicate 12 ∅) 3 5 = Ok results
       /\ crash_prevention.business <$> results = replicate 12 ∅.
Proof.
  split; [reflexivity|].
  destruct (batch_one_record_per_business
              {| crash_prevention.memory_percent := QArith_base.Qmake 431 10;
                 crash_prevention.services_on := fun _ _ => silent;
                 crash_prevention.disturbed_on := fun _ _ => false |}
              (replicate 12 ∅) 3 5 eq_refl) as (results & H1 & H2 & _).
  exists results. split; [exact H1 | exact H2].
Defined.

(** X18: [max_chunk_size] is not checked.  When the memory sample is at
    most 40 percent, so that the argument is used, a value of 0 makes
    [safe_batch_generation] raise [ValueError] (a range with step 0), and
    a negative value makes it return no record at all, however many
    businesses are given. *)
Theorem batch_bad_chunk_size w businesses days max_chunk_size :
  QArith_base.Qle_bool (crash_prevention.memory_percent w)
    (QArith_base.inject_Z 40) = true ->
  (max_chunk_size = 0 ->
   crash_prevention.safe_batch_generation w businesses days max_chunk_size
   = Raise ValueError)
  /\ (max_chunk_size < 0 ->
      crash_prevention.safe_batch_generation w businesses days max_chunk_size
      = Ok []).
Proof.
  intros Hmem.
  assert (Hmem' : QArith_base.Qle_bool (crash_prevention.memory_percent w)
                    (QArith_base.inject_Z 60) = true).
  { apply QArith_base.Qle_bool_iff. apply QArith_base.Qle_bool_iff in Hmem.
    eapply QArith_base.Qle_trans; [exact Hmem|]. by vm_compute. }
  unfold crash_prevention.safe_batch_generation,
    crash_prevention.safe_chunk_size, crash_prevention.chunk_large_request,
    Py.range3.
  rewrite Hmem, Hmem'. cbn [negb]. split.
  - intros ->. done.
  - intros Hneg. replace (Z.min max_chunk_size 10) with max_chunk_size by lia.
    replace (max_chunk_size =? 0) with false by lia.
    replace (0 <? max_chunk_size) with false by lia.
    cbn [mbind result_bind mret result_ret].
    rewrite seqZ_nil; [done|].
    assert (0 <= Py.len businesses) by (unfold Py.len; lia).
    assert ((0 - Py.len businesses - max_chunk_size - 1)
              `div` (- max_chunk_size) < 1)
      by (apply Z.div_lt_upper_bound; lia).
    lia.
Qed.

Lemma batch_bad_chunk_size_witness :
  QArith_base.Qle_bool (QArith_base.Qmake 355 10) (QArith_base.inject_Z 40)
  = true
  /\ crash_prevention.safe_batch_generation
       {| crash_prevention.memory_percent := QArith_base.Qmake 355 10;
          crash_prevention.services_on := fun _ _ => silent;
          crash_prevention.disturbed_on := fun _ _ => false |}
       (replicate 3 ∅) 7 0 = Raise ValueError.
Proof.
  split; [reflexivity|].
  exact (proj1 (batch_bad_chunk_size
                  {| crash_prevention.memory_percent := QArith_base.Qmake 355 10;
                     crash_prevention.services_on := fun _ _ => silent;
                     crash_prevention.disturbed_on := fun _ _ => false |}
                  (replicate 3 ∅) 7 0 eq_refl) eq_refl).
Defined.

(** ** More on the template generators *)

Lemma dict_getitem_elem {V} (d : list (string * V)) key v :
  content_diversity.dict_getitem d key = Ok v -> (key, v) ∈ d.
Proof.
  induction d as [|[k v'] d IH]; [done|]. cbn.
  destruct (String.eqb k key) eqn:E.
  - apply String.eqb_eq in E as ->. intros [= ->]. apply list_elem_of_here.
  - intros H. apply list_elem_of_further. by apply IH.
Qed.

Lemma diverse_select_prompt fuel niche city day used st f :
  content_diversity.select fuel niche city day used = Some (Ok (st, f)) ->
  pipe_free niche -> pipe_free city -> pipe_free (sel_prompt f).
Proof.
  unfold content_diversity.select. intros H Hn Hc.
  destruct (content_diversity.select_theme niche city day) as [t|]; [|done].
  destruct (content_diversity.loop_entry t day) as [st0|]; [|done].
  destruct (while fuel _ _ st0) as [[st1|]|]; [|done..].
  injection H as H. invert_binds H.
  destruct (is_beauty niche); injection H as <- <-; cbn [sel_prompt];
    count_pipes.
Qed.

Section diverse_pipes.

Variables niche city : string.
Hypothesis Hniche : pipe_free niche.
Hypothesis Hcity : pipe_free city.

Lemma themes_pipe_free :
  Forall (fun kt : string * content_diversity.theme =>
            Forall pipe_free (content_diversity.activities kt.2)
            /\ Forall pipe_free (content_diversity.scripts kt.2))
         (content_diversity.content_themes niche city).
Proof using Hniche Hcity.
  repeat constructor; count_pipes.
Qed.

Lemma diverse_lists_pipe_free :
  Forall pipe_free (content_diversity.visuals niche)
  /\ Forall pipe_free (content_diversity.captions niche city)
  /\ Forall pipe_free (content_diversity.hashtags_sets niche city)
  /\ Forall pipe_free content_diversity.times
  /\ Forall pipe_free content_diversity.ctas.
Proof using Hniche Hcity.
  repeat split; repeat constructor;
    cbn [content_diversity.hashtags_sets]; count_pipes.
Qed.

End diverse_pipes.

(** X19: for a niche and a city without a pipe character,
    [generate_diverse_content] returns, for every day (also 0 and the
    negative ones) and every set of used signatures, a post of exactly 9
    pipe-delimited fields: unlike the fallback generator it indexes every
    list modulo its own length and never raises. *)
Theorem generate_diverse_content_nine_fields niche city day
    (used_content : gset string) :
  pipe_free niche -> pipe_free city ->
  exists post,
    content_diversity.generate_diverse_content niche city day used_content
    = Ok post
    /\ fields post = 9%nat.
Proof.
  intros Hn Hc.
  destruct (diverse_select_ok niche city day used_content 11 ltac:(lia))
    as (t & st & f & Hsel & Ht & Hinv & _ & Hfa & Hfs).
  exists (format_post day f). split.
  - unfold content_diversity.generate_diverse_content,
      content_diversity.generate_diverse_content_fuel,
      content_diversity.loop_fuel. by rewrite Hsel.
  - apply fields_format_post.
    destruct (diverse_select_positions _ _ _ _ _ _ _ Hsel)
      as (Hv & Hcp & Hh & Htm & Hct).
    destruct (diverse_lists_pipe_free niche city Hn Hc)
      as (Fv & Fc & Fh & Ft & Fct).
    destruct Hinv as (_ & _ & _ & Hla & Hls).
    assert (Hth : Forall pipe_free (content_diversity.activities t)
                  /\ Forall pipe_free (content_diversity.scripts t)).
    { unfold content_diversity.select_theme in Ht.
      apply bind_Ok in Ht as (key & _ & Ht).
      apply dict_getitem_elem in Ht.
      exact (proj1 (Forall_forall _ _) (themes_pipe_free niche city Hn Hc)
               _ Ht). }
    destruct Hth as [Fa Fs].
    repeat split.
    + rewrite Hfa.
      exact (proj1 (Forall_forall _ _) Fa _ (list_elem_of_lookup_2 _ _ _ Hla)).
    + rewrite Hfs.
      exact (proj1 (Forall_forall _ _) Fs _ (list_elem_of_lookup_2 _ _ _ Hls)).
    + exact (proj1 (Forall_forall _ _) Fv _ (list_elem_of_lookup_2 _ _ _ Hv)).
    + exact (proj1 (Forall_forall _ _) Fc _ (list_elem_of_lookup_2 _ _ _ Hcp)).
    + exact (proj1 (Forall_forall _ _) Fh _ (list_elem_of_lookup_2 _ _ _ Hh)).
    + exact (proj1 (Forall_forall _ _) Ft _ (list_elem_of_lookup_2 _ _ _ Htm)).
    + exact (proj1 (Forall_forall _ _) Fct _ (list_elem_of_lookup_2 _ _ _ Hct)).
    + by eapply diverse_select_prompt.
Qed.

Lemma generate_diverse_content_nine_fields_witness :
  pipe_free "nail art" /\ pipe_free "Dallas"
  /\ exists post,
       content_diversity.generate_diverse_content "nail art" "Dallas" (-4) ∅
       = Ok post
       /\ fields post = 9%nat.
Proof.
  split; [reflexivity|]. split; [reflexivity|].
  exact (generate_diverse_content_nine_fields "nail art" "Dallas" (-4) ∅
           eq_refl eq_refl).
Defined.

(** The signature kept in the loop state is that of the current pair. *)
Definition signed (st : content_diversity.loop_state) : Prop :=
  content_diversity.content_signature st
  = content_diversity.signature (content_diversity.activity st)
      (content_diversity.script st).

(** X20: the activity and script that [generate_diverse_content] settles
    on have a signature outside the used set, unless the loop spent all
    of its 10 retries: uniqueness is attempted, not guaranteed. *)
Theorem generate_diverse_content_signature niche city day
    (used_content : gset string) :
  exists st f,
    content_diversity.select content_diversity.loop_fuel niche city day
      used_content = Some (Ok (st, f))
    /\ (content_diversity.signature (sel_activity f) (sel_script f)
          ∉ used_content
        \/ content_diversity.counter st = 10).
Proof.
  destruct (diverse_select_ok niche city day used_content 11 ltac:(lia))
    as (t & st & f & Hsel & Ht & Hinv & Hcond & Hfa & Hfs).
  exists st, f. split; [done|].
  assert (Hsig : signed st).
  { unfold content_diversity.select, content_diversity.loop_fuel in Hsel.
    rewrite Ht in Hsel.
    destruct (content_diversity.loop_entry t day) as [st0|] eqn:Hst0; [|done].
    destruct (while 11 _ _ st0) as [[st1|]|] eqn:Hw; [|done..].
    assert (st1 = st) as ->.
    { injection Hsel as Hsel. invert_binds Hsel.
      by destruct (is_beauty niche); injection Hsel as -> _. }
    eapply (while_inv _ _ signed); [| |exact Hw].
    - intros s s' _ _ Hb. unfold content_diversity.loop_body in Hb.
      invert_binds Hb. by injection Hb as <-.
    - unfold content_diversity.loop_entry in Hst0. invert_binds Hst0.
      by injection Hst0 as <-. }
  unfold content_diversity.loop_cond in Hcond. rewrite Hfa, Hfs, <- Hsig.
  apply andb_false_iff in Hcond as [Hin | Hlt].
  - left. by apply bool_decide_eq_false in Hin.
  - right. destruct Hinv as (Hc & _). lia.
Qed.

(** X21: [get_fallback_content] raises [IndexError] exactly on the days
    whose rotation index [(day - 1) mod 10] is 8 or 9 (days 9, 10, 19, 20,
    29, 30, ...), whatever the niche and the city: its list of visuals
    has 8 items and is indexed without a modulus.  On every other day it
    returns a post that starts with the day label. *)
Theorem get_fallback_content_raises_iff niche city day :
  (fallback_content.get_fallback_content niche city day = Raise IndexError
   <-> 8 <= (day - 1) `mod` 10)
  /\ ((exists rest,
         fallback_content.get_fallback_content niche city day
         = Ok ("Day " +:+ Py.str day +:+ " | " +:+ rest))
      <-> (day - 1) `mod` 10 < 8).
Proof.
  destruct (Z.le_gt_cases 8 ((day - 1) `mod` 10)) as [Hge|Hlt].
  - pose proof (get_fallback_content_raises niche city day Hge) as Hr.
    split; split; try done; try lia.
    intros [rest H]. congruence.
  - destruct (fallback_select_ok niche city day ltac:(lia)) as [f Hf].
    assert (Hok : fallback_content.get_fallback_content niche city day
                  = Ok (format_post day f))
      by (unfold fallback_content.get_fallback_content; by rewrite Hf).
    split; split; try lia.
    + rewrite Hok. done.
    + intros _. rewrite Hok. by eexists.
Qed.

Lemma get_fallback_content_raises_iff_witness :
  8 <= (19 - 1) `mod` 10
  /\ fallback_content.get_fallback_content "hair" "Austin" 19
     = Raise IndexError
  /\ (3 - 1) `mod` 10 < 8
  /\ exists rest,
       fallback_content.get_fallback_content "hair" "Austin" 3
       = Ok ("Day " +:+ Py.str 3 +:+ " | " +:+ rest).
Proof.
  split; [done|]. split.
  - exact (proj2 (proj1 (get_fallback_content_raises_iff "hair" "Austin" 19))
             ltac:(done)).
  - split; [done|].
    exact (proj2 (proj2 (get_fallback_content_raises_iff "hair" "Austin" 3))
             ltac:(done)).
Defined.

(** ** The primary niche *)

Lemma contains_comma s :
  Py.contains "," s = negb (Nat.eqb (Py.count Py.comma s) 0).
Proof.
  induction s as [|a s IH]; [done|].
  cbn [Py.contains Py.count String.prefix].
  destruct (ascii_dec "," a) as [<-|Hne].
  - rewrite Ascii.eqb_refl. by destruct s.
  - replace (Ascii.eqb a Py.comma) with false
      by (symmetry; apply Ascii.eqb_neq; unfold Py.comma; congruence).
    by rewrite IH.
Qed.

Lemma split_head_no_sep c s : Py.count c (hd "" (Py.split c s)) = 0%nat.
Proof.
  induction s as [|a s IH]; [done|]. cbn [Py.split].
  destruct (Ascii.eqb a c) eqn:E; [done|].
  destruct (Py.split c s) as [|w ws]; cbn in *; by rewrite E.
Qed.

(** X22: the primary niche, under which the trend table is looked up,
    never holds a comma: it is the niche itself when that has none, and
    otherwise what stands before the first comma, stripped. *)
Theorem primary_niche_no_comma niche :
  Py.count Py.comma (ssds_ai.primary_niche niche) = 0%nat
  /\ (Py.count Py.comma niche = 0%nat -> ssds_ai.primary_niche niche = niche)
  /\ (forall a b, Py.count Py.comma a = 0%nat ->
        ssds_ai.primary_niche (a +:+ "," +:+ b) = Py.strip a).
Proof.
  unfold ssds_ai.primary_niche. repeat split.
  - rewrite contains_comma.
    destruct (Nat.eqb_spec (Py.count Py.comma niche) 0) as [E|E]; [done|].
    cbn [negb]. rewrite count_strip by done. apply split_head_no_sep.
  - intros H. rewrite contains_comma, H. done.
  - intros a b Ha. rewrite contains_comma, !count_app, Ha.
    cbn [negb Nat.eqb Nat.add Py.count]. rewrite Ascii.eqb_refl.
    cbn [Nat.add Nat.eqb negb].
    change ("," +:+ b) with (String Py.comma b).
    by rewrite split_app_sep.
Qed.

Lemma primary_niche_no_comma_witness :
  Py.count Py.comma "hair salon" = 0%nat
  /\ ssds_ai.primary_niche "hair salon" = "hair salon"
  /\ ssds_ai.primary_niche ("hair salon" +:+ "," +:+ " nails, brows")
     = Py.strip "hair salon".
Proof.
  split; [reflexivity|].
  destruct (primary_niche_no_comma "hair salon") as (_ & Hsame & _).
  destruct (primary_niche_no_comma ("hair salon" +:+ "," +:+ " nails, brows"))
    as (_ & _ & Hfirst).
  split.
  - exact (Hsame eq_refl).
  - exact (Hfirst "hair salon" " nails, brows" eq_refl).
Defined.

(** X23: the emergency post of crash_prevention.py has exactly 9
    pipe-delimited fields, for the arguments of a wrapped call whose
    niche and city hold no pipe as well as for a call without
    arguments. *)
Theorem get_emergency_fallback_nine_fields niche city day :
  pipe_free niche -> pipe_free city ->
  fields (crash_prevention.get_emergency_fallback (Some (niche, city, day)))
  = 9%nat
  /\ fields (crash_prevention.get_emergency_fallback None) = 9%nat.
Proof.
  intros Hn Hc. split; [|reflexivity].
  rewrite fields_count. cbn [crash_prevention.get_emergency_fallback default
    from_option id]. f_equal. count_pipes.
Qed.

Lemma get_emergency_fallback_nine_fields_witness :
  pipe_free "pizza" /\ pipe_free "Rome"
  /\ fields (crash_prevention.get_emergency_fallback (Some ("pizza", "Rome", 4)))
     = 9%nat.
Proof.
  split; [reflexivity|]. split; [reflexivity|].
  exact (proj1 (get_emergency_fallback_nine_fields "pizza" "Rome" 4
                  eq_refl eq_refl)).
Defined.

(** The service gives no content, whatever the prompt. *)
Definition down (sv : ssds_ai.services) : Prop :=
  forall prompt, no_content (ssds_ai.create sv prompt) = true.

Lemma generate_social_post_down sv niche city day previous_posts :
  pipe_free niche -> pipe_free city -> down sv ->
  Forall lower_keyed previous_posts ->
  exists post,
    ssds_ai.generate_social_post sv niche city day previous_posts = Ok post
    /\ fields post = 9%nat.
Proof.
  intros Hn Hc Hdown Hprev. unfold ssds_ai.generate_social_post.
  rewrite (lower_keyed_context _ Hprev). cbn [mbind result_bind].
  destruct (fallback_content.get_fallback_content niche city day)
    as [fb|e] eqn:Hfb.
  - pose proof (fallback_post_fields niche city day fb Hn Hc Hfb) as Hf.
    match goal with
    | |- context [ssds_ai.create sv ?p] =>
        pose proof (Hdown p) as Hno;
        destruct (ssds_ai.create sv p) as [e'|[c|]]
    end; [by eexists| |by eexists].
    cbn in Hno. apply negb_true_iff in Hno. rewrite Hno. by eexists.
  - eexists. split; [reflexivity|]. by apply emergency_content_fields.
Qed.

Lemma nine_fields_post_data day post :
  fields post = 9%nat ->
  Py.truthy post = true
  /\ (Py.len (Py.split Py.pipe post) <? 6) = false
  /\ (Py.len (Py.split Py.pipe post) >=? 9) = true
  /\ exists e, crash_prevention.post_data day (Py.split Py.pipe post) = Ok e.
Proof.
  intros Hf. unfold fields in Hf.
  assert (Hlen : Py.len (Py.split Py.pipe post) = 9)
    by (unfold Py.len; lia).
  split; [by destruct post|]. rewrite Hlen. split; [done|]. split; [done|].
  unfold crash_prevention.post_data.
  do 8 (match goal with
        | |- context [Py.getitem ?l ?i] =>
            let x := fresh "x" in
            destruct (getitem_in_range l i) as [x ->]; [lia|];
            cbn [mbind result_bind]
        end).
  by eexists.
Qed.

Lemma silent_day_turn sv disturbed niche city calendar_data day :
  pipe_free niche -> pipe_free city -> down (sv day) ->
  disturbed day = false -> Forall lower_keyed calendar_data ->
  exists e,
    crash_prevention.day_turn sv disturbed niche city calendar_data day
    = calendar_data ++ [e]
    /\ batch_entry day e.
Proof.
  intros Hn Hc Hdown Hd Hprev.
  unfold crash_prevention.day_turn, crash_prevention.safe_generation_wrapper,
    crash_prevention.generate_single_post.
  rewrite Hd.
  destruct (generate_social_post_down (sv day) niche city day calendar_data
              Hn Hc Hdown Hprev) as (post & -> & Hf).
  cbn [mbind result_bind].
  destruct (nine_fields_post_data day post Hf) as (Ht & H6 & H9 & e & He).
  rewrite Ht, H6. cbn [negb orb]. rewrite Ht, H9, He.
  exists e. split; [done|]. by eapply post_data_batch_entry.
Qed.

(** X24: when the service gives no content on any day and the
    protection does not interfere, a business whose niche and city hold
    no pipe gets one entry for each day of the loop, in order: days 1 to
    [min(days, 9)], none skipped.  The fallback content fills the days,
    and the hard-coded post of [generate_social_post] the ninth, on which
    the fallback raises. *)
Theorem batch_service_down sv disturbed business days :
  pipe_free (default "business" (business !! "niche")) ->
  pipe_free (default "local" (business !! "city")) ->
  (forall d, down (sv d)) -> (forall d, disturbed d = false) ->
  days_of (crash_prevention.business_calendar sv disturbed business days)
  = (fun d => Some (PInt d)) <$> crash_prevention.day_range days.
Proof.
  intros Hn Hc Hdown Hd. unfold crash_prevention.business_calendar.
  set (niche := default "business" (business !! "niche")) in *.
  set (city := default "local" (business !! "city")) in *.
  generalize (crash_prevention.day_range days). intros l.
  assert (Hgen : forall acc, Forall lower_keyed acc ->
    days_of (foldl (crash_prevention.day_turn sv disturbed niche city) acc l)
    = days_of acc ++ ((fun d => Some (PInt d)) <$> l)).
  { induction l as [|d l IH]; intros acc Hacc.
    - by rewrite app_nil_r.
    - cbn [foldl].
      destruct (silent_day_turn sv disturbed niche city acc d Hn Hc
                  (Hdown d) (Hd d) Hacc) as (e & -> & He).
      rewrite IH.
      + unfold days_of. rewrite fmap_app. cbn [fmap list_fmap].
        destruct He as (-> & _). by rewrite <- app_assoc.
      + apply Forall_app. split; [done|]. constructor; [|done].
        by destruct He as (_ & ? & ? & ?). }
  by rewrite (Hgen [] (Forall_nil_2 _)).
Qed.

Lemma batch_service_down_witness :
  pipe_free (default "business" (({[ "niche" := "hair" ]} : gmap string string) !! "niche"))
  /\ pipe_free (default "local" (({[ "niche" := "hair" ]} : gmap string string) !! "city"))
  /\ (forall d : Z, down ((fun _ => silent) d))
  /\ (forall d : Z, (fun _ : Z => false) d = false)
  /\ days_of (crash_prevention.business_calendar (fun _ => silent)
                (fun _ => false) {[ "niche" := "hair" ]} 12)
     = (fun d => Some (PInt d)) <$> [1; 2; 3; 4; 5; 6; 7; 8; 9].
Proof.
  assert (H1 : pipe_free (default "business"
    (({[ "niche" := "hair" ]} : gmap string string) !! "niche")))
    by reflexivity.
  assert (H2 : pipe_free (default "local"
    (({[ "niche" := "hair" ]} : gmap string string) !! "city")))
    by reflexivity.
  assert (H3 : forall d : Z, down ((fun _ => silent) d))
    by (intros d prompt; reflexivity).
  assert (H4 : forall d : Z, (fun _ : Z => false) d = false) by reflexivity.
  split; [exact H1|]. split; [exact H2|]. split; [exact H3|].
  split; [exact H4|].
  exact (batch_service_down (fun _ => silent) (fun _ => false)
           {[ "niche" := "hair" ]} 12 H1 H2 H3 H4).
Defined.

(** ** Image prompts and image generation *)

Lemma prefix_append sub x : String.prefix sub (sub +:+ x) = true.
Proof.
  induction sub as [|c sub IH]; [by destruct x|].
  rewrite append_cons. cbn. by destruct (ascii_dec c c).
Qed.

Lemma contains_append_r sub a b :
  Py.contains sub b = true -> Py.contains sub (a +:+ b) = true.
Proof.
  intros H. induction a as [|c a IH]; [done|].
  rewrite append_cons. cbn [Py.contains]. rewrite IH. apply orb_true_r.
Qed.

Lemma contains_prefix sub x : Py.contains sub (sub +:+ x) = true.
Proof.
  destruct (sub +:+ x) eqn:E; cbn [Py.contains]; rewrite <- E,
    prefix_append; done.
Qed.

(** Whatever the prompt, the enhanced prompt starts with it and names
    the studio handle. *)
Lemma enhanced_prompt_branded prompt :
  String.prefix prompt (image_ai.enhance_prompt_with_branding prompt) = true
  /\ Py.contains image_ai.branding
       (image_ai.enhance_prompt_with_branding prompt) = true.
Proof.
  unfold image_ai.enhance_prompt_with_branding. split.
  - apply prefix_append.
  - do 2 apply contains_append_r. apply contains_prefix.
Qed.

Lemma lstrip_idem s : Py.lstrip (Py.lstrip s) = Py.lstrip s.
Proof.
  induction s as [|c s IH]; [done|]. cbn.
  destruct (Py.is_space c) eqn:E; [done|]. cbn. by rewrite E.
Qed.

Lemma rstrip_idem s : Py.rstrip (Py.rstrip s) = Py.rstrip s.
Proof.
  induction s as [|c s IH]; [done|]. cbn.
  destruct (Py.rstrip s) as [|d t] eqn:E.
  - destruct (Py.is_space c) eqn:Ec; [done|]. cbn. by rewrite Ec.
  - cbn. cbn in IH. by rewrite IH.
Qed.

(** Stripping on the right leaves a string that starts with no blank
    as it is on the left. *)
Lemma lstrip_rstrip s : Py.lstrip s = s -> Py.lstrip (Py.rstrip s) = Py.rstrip s.
Proof.
  destruct s as [|c s]; [done|]. cbn.
  destruct (Py.is_space c) eqn:E.
  - intros H. exfalso.
    assert (Hl : forall t, (String.length (Py.lstrip t) <= String.length t)%nat).
    { induction t as [|a t IHt]; [done|]. cbn.
      destruct (Py.is_space a); cbn; lia. }
    specialize (Hl s). rewrite H in Hl. cbn in Hl. lia.
  - intros _. destruct (Py.rstrip s); cbn; by rewrite E.
Qed.

Lemma strip_idem s : Py.strip (Py.strip s) = Py.strip s.
Proof.
  unfold Py.strip.
  rewrite (lstrip_rstrip (Py.lstrip s)) by apply lstrip_idem.
  apply rstrip_idem.
Qed.

Lemma validate_prompt_returns prompt r :
  image_ai.validate_prompt prompt = image_ai.Returns r ->
  r = Py.strip prompt
  /\ 10 <= image_ai.strlen r <= 4000
  /\ Forall (fun word => Py.contains word (Py.lower r) = false)
       image_ai.prohibited_words.
Proof.
  unfold image_ai.validate_prompt.
  destruct (negb _ || negb _); [done|].
  destruct (_ <? 10) eqn:E1; [done|].
  destruct (_ >? 4000) eqn:E2; [done|].
  destruct (existsb _ _) eqn:E3; [done|].
  intros [= <-]. split; [done|]. split; [lia|].
  apply Forall_forall. intros word Hw.
  destruct (Py.contains word _) eqn:E; [|done].
  assert (existsb (fun word => Py.contains word (Py.lower (Py.strip prompt)))
            image_ai.prohibited_words = true); [|congruence].
  apply existsb_exists. exists word. split; [|done].
  by apply list_elem_of_In.
Qed.

(** X25: a prompt that [validate_prompt] returns is the stripped input,
    is 10 to 4000 characters long and holds none of the prohibited words
    in any letter case; validating it again returns it unchanged. *)
Theorem validate_prompt_accepts prompt r :
  image_ai.validate_prompt prompt = image_ai.Returns r ->
  r = Py.strip prompt
  /\ 10 <= image_ai.strlen r <= 4000
  /\ Forall (fun word => Py.contains word (Py.lower r) = false)
       image_ai.prohibited_words
  /\ image_ai.validate_prompt r = image_ai.Returns r.
Proof.
  intros H. destruct (validate_prompt_returns prompt r H) as (Hr & Hlen & Hw).
  repeat split; try done; try lia.
  unfold image_ai.validate_prompt in *.
  destruct (negb (Py.truthy prompt) || negb (Py.truthy (Py.strip prompt)))
    eqn:E0; [done|].
  destruct (image_ai.strlen (Py.strip prompt) <? 10) eqn:E1; [done|].
  destruct (image_ai.strlen (Py.strip prompt) >? 4000) eqn:E2; [done|].
  destruct (existsb _ image_ai.prohibited_words) eqn:E3; [done|].
  subst r. rewrite strip_idem, E1, E2, E3.
  apply orb_false_iff in E0 as [_ E0]. rewrite E0.
  by destruct (Py.strip prompt).
Qed.

Lemma validate_prompt_accepts_witness :
  image_ai.validate_prompt "  a bright modern hair salon  "
  = image_ai.Returns "a bright modern hair salon"
  /\ image_ai.validate_prompt "a bright modern hair salon"
     = image_ai.Returns "a bright modern hair salon".
Proof.
  split; [reflexivity|].
  exact (proj2 (proj2 (proj2
           (validate_prompt_accepts "  a bright modern hair salon  "
              "a bright modern hair salon" eq_refl)))).
Defined.

(** A word without white space. *)
Definition solid (w : string) : bool :=
  forallb (fun c => negb (Py.is_space c)) (list_ascii_of_string w).

Lemma is_space_to_lower c : Py.is_space (Py.to_lower c) = Py.is_space c.
Proof. by destruct c as [[] [] [] [] [] [] [] []]. Qed.

Lemma lower_lstrip s : Py.lower (Py.lstrip s) = Py.lstrip (Py.lower s).
Proof.
  induction s as [|c s IH]; [done|]. cbn. rewrite is_space_to_lower.
  by destruct (Py.is_space c).
Qed.

Lemma lower_rstrip s : Py.lower (Py.rstrip s) = Py.rstrip (Py.lower s).
Proof.
  induction s as [|c s IH]; [done|]. cbn. rewrite <- IH, is_space_to_lower.
  destruct (Py.rstrip s); cbn; [by destruct (Py.is_space c)|done].
Qed.

Lemma lower_strip s : Py.lower (Py.strip s) = Py.strip (Py.lower s).
Proof. unfold Py.strip. by rewrite lower_rstrip, lower_lstrip. Qed.

Lemma contains_nil w : w <> "" -> Py.contains w "" = false.
Proof. by destruct w. Qed.

Lemma prefix_cons_inv a w c s :
  String.prefix (String a w) (String c s) = true ->
  a = c /\ String.prefix w s = true.
Proof. cbn. by destruct (ascii_dec a c). Qed.

Lemma contains_lstrip w s :
  w <> "" -> solid w = true ->
  Py.contains w s = true -> Py.contains w (Py.lstrip s) = true.
Proof.
  intros Hw Hs. destruct w as [|a w]; [done|].
  apply andb_true_iff in Hs as [Ha _]. apply negb_true_iff in Ha.
  induction s as [|c s IH]; [done|]. cbn [Py.lstrip].
  destruct (Py.is_space c) eqn:Ec; [|done].
  intros H. apply IH. cbn [Py.contains] in H.
  apply orb_true_iff in H as [H|H]; [|done].
  apply prefix_cons_inv in H as [-> _]. congruence.
Qed.

Lemma prefix_rstrip w s :
  w <> "" -> solid w = true ->
  String.prefix w s = true -> String.prefix w (Py.rstrip s) = true.
Proof.
  revert s. induction w as [|a w IH]; [done|]. intros s _ Hs H.
  destruct s as [|c s]; [done|].
  apply prefix_cons_inv in H as [<- H].
  apply andb_true_iff in Hs as [Ha Hs]. apply negb_true_iff in Ha.
  cbn [Py.rstrip]. destruct w as [|b w].
  - destruct (Py.rstrip s); rewrite ?Ha; cbn; by destruct (ascii_dec a a).
  - specialize (IH s ltac:(done) Hs H).
    destruct (Py.rstrip s) as [|d t]; [done|].
    cbn [String.prefix]. by destruct (ascii_dec a a).
Qed.

Lemma contains_rstrip w s :
  w <> "" -> solid w = true ->
  Py.contains w s = true -> Py.contains w (Py.rstrip s) = true.
Proof.
  intros Hw Hs. induction s as [|c s IH]; [done|]. intros H.
  cbn [Py.contains] in H. apply orb_true_iff in H as [H|H].
  - pose proof (prefix_rstrip w (String c s) Hw Hs H) as Hp.
    destruct (Py.rstrip (String c s)); cbn [Py.contains]; by rewrite Hp.
  - specialize (IH H). cbn [Py.rstrip].
    destruct (Py.rstrip s) as [|d t].
    + by rewrite contains_nil in IH.
    + cbn [Py.contains] in *. rewrite IH. apply orb_true_r.
Qed.

Lemma contains_strip w s :
  w <> "" -> solid w = true ->
  Py.contains w s = true -> Py.contains w (Py.strip s) = true.
Proof.
  intros Hw Hs H. unfold Py.strip.
  by apply contains_rstrip, contains_lstrip.
Qed.

Lemma strip_blank s :
  forallb Py.is_space (list_ascii_of_string s) = true -> Py.strip s = "".
Proof.
  intros H. unfold Py.strip.
  assert (Hl : Py.lstrip s = ""); [|by rewrite Hl].
  induction s as [|c s IH]; [done|]. cbn in *.
  apply andb_true_iff in H as [-> H]. by apply IH.
Qed.

(** X26: [validate_prompt] refuses an empty prompt and a prompt of white
    space alone with the message for an empty prompt, and it refuses
    every prompt in which one of the prohibited words occurs, in whatever
    letter case and whatever the white space around the prompt. *)
Theorem validate_prompt_refuses prompt :
  (forallb Py.is_space (list_ascii_of_string prompt) = true ->
   image_ai.validate_prompt prompt = image_ai.Raises "Prompt cannot be empty")
  /\ (forall word,
        word ∈ image_ai.prohibited_words ->
        Py.contains word (Py.lower prompt) = true ->
        exists message,
          image_ai.validate_prompt prompt = image_ai.Raises message).
Proof.
  split.
  - intros H. unfold image_ai.validate_prompt.
    rewrite (strip_blank prompt H). cbn. by rewrite orb_true_r.
  - intros word Hw Hc.
    destruct (image_ai.validate_prompt prompt) as [r|m] eqn:E; [|by eexists].
    exfalso.
    destruct (validate_prompt_returns prompt r E) as (-> & _ & Hf).
    rewrite Forall_forall in Hf. specialize (Hf word Hw).
    rewrite lower_strip, contains_strip in Hf; [done| | |done].
    + intros ->. by repeat (apply elem_of_cons in Hw as [Hw|Hw]; [done|]);
        apply elem_of_nil in Hw.
    + unfold image_ai.prohibited_words in Hw.
      repeat (apply elem_of_cons in Hw as [->|Hw]; [done|]).
      by apply elem_of_nil in Hw.
Qed.

Lemma validate_prompt_refuses_witness :
  image_ai.validate_prompt "   " = image_ai.Raises "Prompt cannot be empty"
  /\ exists message,
       image_ai.validate_prompt "  Poster for an ILLEGAL street race "
       = image_ai.Raises message.
Proof.
  split.
  - exact (proj1 (validate_prompt_refuses "   ") eq_refl).
  - refine (proj2 (validate_prompt_refuses
                     "  Poster for an ILLEGAL street race ")
              "illegal" _ eq_refl).
    unfold image_ai.prohibited_words. set_solver.
Defined.

Lemma image_turns generate enhanced size ks acc :
  let images := foldl (image_ai.image_turn generate enhanced size) acc ks in
  image_ai.index_of <$> images
  = (image_ai.index_of <$> acc) ++ ((fun i => i + 1) <$> ks)
  /\ (Forall (fun im => image_ai.size_of im = size) acc ->
      Forall (fun im => image_ai.size_of im = size) images).
Proof.
  revert acc. induction ks as [|i ks IH]; intros acc; cbn [foldl].
  - by rewrite app_nil_r.
  - destruct (IH (image_ai.image_turn generate enhanced size acc i))
      as [-> Hs].
    unfold image_ai.image_turn in *.
    destruct (generate i enhanced size); rewrite fmap_app, <- app_assoc;
      (split; [done|]); intros Hacc; apply Hs, Forall_app;
      (split; [done|]); by constructor.
Qed.

Lemma generate_images_valid generate prompt num_images size :
  1 <= num_images <= 4 -> size ∈ image_ai.sizes ->
  exists images,
    image_ai.generate_images generate prompt num_images size
    = image_ai.Returns images
    /\ image_ai.index_of <$> images = Py.range 1 (Z.min num_images 3 + 1)
    /\ Py.len images = Z.min num_images 3
    /\ Forall (fun im => image_ai.size_of im = size) images.
Proof.
  unfold image_ai.generate_images.
  intros Hn Hs.
  replace ((num_images <? 1) || (num_images >? 4)) with false by lia.
  rewrite (bool_decide_eq_true_2 _ Hs). cbn [negb].
  eexists. split; [reflexivity|].
  match goal with
  | |- context [foldl ?f [] ?l] =>
      destruct (image_turns generate
                  (image_ai.enhance_prompt_with_branding prompt) size l [])
        as [Hi Hsz]
  end.
  cbn zeta in Hi, Hsz.
  assert (Hidx : forall a n, (fun i => i + 1) <$> Py.range a n
                             = Py.range (a + 1) (n + 1)).
  { intros a n. unfold Py.range.
    replace (n + 1 - (a + 1)) with (n - a) by lia.
    apply list_eq. intros k. rewrite list_lookup_fmap.
    destruct (decide (Z.of_nat k < n - a)).
    - rewrite !lookup_seqZ_lt by lia. cbn. f_equal. lia.
    - rewrite !lookup_seqZ_ge by lia. done. }
  replace (if num_images >? 3 then 3 else num_images)
    with (Z.min num_images 3) in * by (destruct (num_images >? 3) eqn:?; lia).
  rewrite Hi, Hidx. split; [done|]. split; [|by apply Hsz].
  unfold Py.len. rewrite <- (length_fmap image_ai.index_of), Hi.
  cbn [fmap list_fmap app]. rewrite length_fmap.
  unfold Py.range. rewrite length_seqZ. lia.
Qed.

Lemma generate_images_invalid generate prompt num_images size :
  ~ (1 <= num_images <= 4 /\ size ∈ image_ai.sizes) ->
  exists message,
    image_ai.generate_images generate prompt num_images size
    = image_ai.Raises message.
Proof.
  unfold image_ai.generate_images.
  intros Hnot.
  destruct ((num_images <? 1) || (num_images >? 4)) eqn:En; [by eexists|].
  destruct (bool_decide (size ∈ image_ai.sizes)) eqn:Es; [|by eexists].
  apply bool_decide_eq_true in Es. exfalso. apply Hnot. split; [lia|done].
Qed.

(** X27: for a count from 1 to 4 and one of the three sizes,
    [generate_images] returns, whatever the service does, exactly
    [min(num_images, 3)] entries, a picture or a placeholder each,
    numbered 1, 2, ... in order and all of the size asked for: a count
    of 4 is accepted and gives 3.  For every other count or size it
    raises. *)
Theorem generate_images_count generate prompt num_images size :
  (1 <= num_images <= 4 -> size ∈ image_ai.sizes ->
   exists images,
     image_ai.generate_images generate prompt num_images size
     = image_ai.Returns images
     /\ image_ai.index_of <$> images = Py.range 1 (Z.min num_images 3 + 1)
     /\ Py.len images = Z.min num_images 3
     /\ Forall (fun im => image_ai.size_of im = size) images)
  /\ (~ (1 <= num_images <= 4 /\ size ∈ image_ai.sizes) ->
      exists message,
        image_ai.generate_images generate prompt num_images size
        = image_ai.Raises message).
Proof.
  split.
  - apply generate_images_valid.
  - apply generate_images_invalid.
Qed.

Lemma generate_images_count_witness :
  exists images,
    image_ai.generate_images (fun _ _ _ => image_ai.NoImage)
      "a bright modern hair salon" 4 "1024x1024"
    = image_ai.Returns images
    /\ image_ai.index_of <$> images = [1; 2; 3].
Proof.
  destruct (proj1 (generate_images_count (fun _ _ _ => image_ai.NoImage)
                     "a bright modern hair salon" 4 "1024x1024"))
    as (images & H & Hi & _).
  - lia.
  - unfold image_ai.sizes. set_solver.
  - exists images. split; [exact H|exact Hi].
Defined.

(** ** The image route of main.py *)

Lemma generate_images_returns generate prompt num_images size images :
  image_ai.generate_images generate prompt num_images size
  = image_ai.Returns images ->
  1 <= num_images <= 4
  /\ image_ai.index_of <$> images = Py.range 1 (Z.min num_images 3 + 1)
  /\ Py.len images = Z.min num_images 3.
Proof.
  intros H.
  destruct (decide (1 <= num_images <= 4 /\ size ∈ image_ai.sizes))
    as [[Hn Hs]|Hnot].
  - destruct (generate_images_valid generate prompt num_images size Hn Hs)
      as (images' & H' & Hi & Hl & _).
    rewrite H in H'. injection H' as <-. done.
  - destruct (generate_images_invalid generate prompt num_images size Hnot)
      as (m & Hm). congruence.
Qed.

(** X28: whatever the request and whatever the service does, the image
    page shows at most 3 images, numbered 1, 2, ... in order.  A form
    that asks for fewer than 1 image gets no image and a message; a form
    that asks for more than 3 and gets images gets exactly 3 and the
    message that the count was limited. *)
Theorem image_generator_images generate r :
  let p := image_generator.image_generator generate r in
  (length (image_generator.images_of p) <= 3)%nat
  /\ (fun s => image_ai.index_of (image_generator.img s))
       <$> image_generator.images_of p
     = Py.range 1 (Py.len (image_generator.images_of p) + 1)
  /\ (forall f n,
        image_generator.how r = image_generator.POST f ->
        image_generator.asked f = Ok n ->
        (n < 1 ->
         image_generator.images_of p = []
         /\ is_Some (image_generator.error_of p))
        /\ (3 < n -> image_generator.images_of p <> [] ->
            length (image_generator.images_of p) = 3%nat
            /\ image_generator.error_of p
               = Some "Limited to 3 images for stability. Generating 3 images...")).
Proof.
  cbn zeta. unfold image_generator.image_generator.
  set (suggested := if bool_decide (_ = _) then _ else _). clearbody suggested.
  destruct (image_generator.how r) as [|f] eqn:Hhow.
  { cbn. repeat split; try done; try lia. }
  destruct (image_generator.asked f) as [n|e] eqn:Hask; cycle 1.
  { cbn. repeat split; try done; try lia. }
  set (refined := bool_decide (image_generator.is_refinement f = Some "true")).
  set (base := Py.strip (default "" (image_generator.base_prompt f))).
  set (prompt := if refined && Py.truthy base && _ then _ else _).
  clearbody prompt.
  assert (Hother : forall e m : string,
    let p := image_generator.ErrorOnly e in
    (length (image_generator.images_of p) <= 3)%nat
    /\ (fun s => image_ai.index_of (image_generator.img s))
         <$> image_generator.images_of p
       = Py.range 1 (Py.len (image_generator.images_of p) + 1)
    /\ (forall f0 n0,
          image_generator.POST f = image_generator.POST f0 ->
          image_generator.asked f0 = Ok n0 ->
          (n0 < 1 -> image_generator.images_of p = []
                     /\ is_Some (image_generator.error_of p))
          /\ (3 < n0 -> image_generator.images_of p <> [] ->
              length (image_generator.images_of p) = 3%nat
              /\ image_generator.error_of p = Some m))).
  { intros e m. cbn. repeat split; try done; try lia. }
  destruct (negb (Py.truthy prompt)); [apply Hother|].
  destruct (n >? 3) eqn:En.
  - destruct (image_ai.validate_prompt prompt) as [v|e]; [|apply Hother].
    destruct (image_ai.generate_images generate v 3 _) as [images|m] eqn:Hg.
    + apply generate_images_returns in Hg as (_ & Hi & Hl).
      cbn [image_generator.images_of image_generator.error_of].
      unfold Py.len in *. rewrite length_fmap.
      rewrite <- list_fmap_compose.
      rewrite (list_fmap_ext _ image_ai.index_of images) by (by intros).
      split; [lia|]. split.
      { rewrite Hi, Hl. done. }
      intros f0 n0 [= <-] Hn0. rewrite Hask in Hn0. injection Hn0 as <-.
      split; [lia|]. intros _ _. split; [lia|done].
    + cbn. repeat split; try done; try lia.
  - destruct (image_ai.validate_prompt prompt) as [v|e]; [|apply Hother].
    destruct (image_ai.generate_images generate v n _) as [images|m] eqn:Hg.
    + apply generate_images_returns in Hg as (Hn & Hi & Hl).
      cbn [image_generator.images_of image_generator.error_of].
      unfold Py.len in *. rewrite length_fmap.
      rewrite <- list_fmap_compose.
      rewrite (list_fmap_ext _ image_ai.index_of images) by (by intros).
      split; [lia|]. split.
      { rewrite Hi, Hl. done. }
      intros f0 n0 [= <-] Hn0. rewrite Hask in Hn0. injection Hn0 as <-.
      split; lia.
    + cbn. repeat split; try done; try lia.
Qed.

Lemma image_generator_images_witness :
  let r := {| image_generator.how :=
                image_generator.POST
                  {| image_generator.prompt := Some "a bright modern hair salon";
                     image_generator.num_images := Some "0";
                     image_generator.image_size := None;
                     image_generator.is_refinement := None;
                     image_generator.base_prompt := None;
                     image_generator.refinement_details := None |};
              image_generator.args_prompts := None;
              image_generator.session_prompts := None |} in
  let p := image_generator.image_generator (fun _ _ _ => image_ai.NoImage) r in
  image_generator.images_of p = [] /\ is_Some (image_generator.error_of p).
Proof.
  intros r p.
  exact (proj1 (proj2 (proj2 (image_generator_images
                                (fun _ _ _ => image_ai.NoImage) r))
                 _ 0 eq_refl eq_refl) ltac:(lia)).
Defined.

(** ** Splitting a large request *)

Lemma slice_clamp {A} (l : list A) (a b : Z) :
  0 <= a -> Py.slice l a b = Py.slice l a (Z.min b (Py.len l)).
Proof.
  intros Ha. unfold Py.slice, Py.len.
  destruct (Z.le_gt_cases b (Z.of_nat (length l))) as [H|H].
  - by rewrite Z.min_l by lia.
  - rewrite Z.min_r by lia.
    destruct (Z.le_gt_cases (Z.of_nat (length l)) a) as [Hge|Hlt].
    + rewrite drop_ge by lia. by rewrite !take_nil.
    + rewrite !take_ge; [done| |]; rewrite length_drop; lia.
Qed.

Lemma slice_length {A} (l : list A) (a b : Z) :
  (length (Py.slice l a b) <= Z.to_nat (b - a))%nat.
Proof. unfold Py.slice. rewrite length_take. lia. Qed.

(** The starts of the slices and what they cut, for a positive size. *)
Lemma slices_of_range {A} (l : list A) (size : Z) :
  0 < size ->
  exists n,
    Py.range3 0 (Py.len l) size = Ok ((fun k => 0 + k * size) <$> seqZ 0 n)
    /\ concat ((fun i => Py.slice l i (i + size))
                 <$> ((fun k => 0 + k * size) <$> seqZ 0 n)) = l.
Proof.
  intros Hsize. unfold Py.range3.
  replace (size =? 0) with false by lia.
  replace (0 <? size) with true by lia.
  set (total := Py.len l).
  assert (Htotal : 0 <= total) by (unfold total, Py.len; lia).
  set (n := (total - 0 + size - 1) `div` size).
  assert (Hn : 0 <= n /\ total <= n * size).
  { unfold n. split.
    - apply Z.div_pos; lia.
    - pose proof (Z.mod_pos_bound (total - 0 + size - 1) size Hsize).
      pose proof (Z.div_mod (total - 0 + size - 1) size ltac:(lia)). nia. }
  exists n. split; [done|].
  rewrite <- list_fmap_compose.
  transitivity
    (concat ((fun k => Py.slice l (k * size) (Z.min (k * size + size) (Py.len l)))
               <$> seqZ 0 n)).
  - f_equal. apply list_fmap_ext. intros i k Hk. cbn.
    apply lookup_seqZ in Hk as [-> _].
    replace (0 + (0 + Z.of_nat i) * size) with ((0 + Z.of_nat i) * size) by lia.
    apply slice_clamp. lia.
  - replace n with (Z.of_nat (Z.to_nat n)) by lia.
    rewrite slices_cover by lia.
    replace (0 * size) with 0 by lia. apply slice_all. fold total. lia.
Qed.

(** X29: for a non-negative [max_batch_size], whenever
    [split_large_request] returns, the batches taken in order hold the
    businesses of the request again, none lost, repeated or moved, each
    batch keeps the number of days, and no batch holds more than
    [max_batch_size] business-days.  It returns whenever the request fits
    in one batch or [days] is at most [max_batch_size]; when one
    business alone exceeds the limit ([days] above [max_batch_size]) and
    the request does not fit, it raises [ValueError] from [range] with a
    zero step. *)
Theorem split_large_request_batches {A} (businesses : list A)
    (days max_batch_size : Z) :
  0 <= max_batch_size ->
  (Py.len businesses * days <= max_batch_size \/ days <= max_batch_size ->
   exists batches,
     enterprise_features.split_large_request businesses days max_batch_size
     = Ok batches
     /\ concat (enterprise_features.businesses <$> batches) = businesses
     /\ Forall (fun b =>
                  enterprise_features.days b = days
                  /\ Py.len (enterprise_features.businesses b) * days
                     <= max_batch_size) batches)
  /\ (max_batch_size < Py.len businesses * days -> max_batch_size < days ->
      enterprise_features.split_large_request businesses days max_batch_size
      = Raise ValueError).
Proof.
  intros Hmax. unfold enterprise_features.split_large_request. split.
  - intros Hfit.
    destruct (Py.len businesses * days <=? max_batch_size) eqn:E.
    { eexists. split; [reflexivity|]. cbn. rewrite app_nil_r.
      split; [done|]. constructor; [|done]. cbn. lia. }
    assert (Hlen : 0 <= Py.len businesses) by (unfold Py.len; lia).
    assert (Hdays : 0 < days) by nia.
    replace (days >? 0) with true by lia.
    set (size := max_batch_size `div` days).
    assert (Hsize : 0 < size /\ size * days <= max_batch_size).
    { unfold size. split.
      - apply Z.div_str_pos. lia.
      - pose proof (Z.mul_div_le max_batch_size days Hdays). lia. }
    destruct (slices_of_range businesses size (proj1 Hsize)) as (n & -> & Hc).
    cbn [mbind result_bind mret result_ret].
    eexists. split; [reflexivity|].
    rewrite <- list_fmap_compose. split; [exact Hc|].
    apply Forall_fmap, Forall_forall. intros i _. cbn.
    split; [done|].
    pose proof (slice_length businesses i (i + size)) as Hl.
    unfold Py.len. nia.
  - intros Hbig Hone.
    replace (Py.len businesses * days <=? max_batch_size) with false by lia.
    assert (Hlen : 0 <= Py.len businesses) by (unfold Py.len; lia).
    assert (Hdays : 0 < days) by lia.
    replace (days >? 0) with true by lia.
    rewrite Z.div_small by lia. done.
Qed.

Lemma split_large_request_batches_witness :
  exists batches,
    enterprise_features.split_large_request ["a"; "b"; "c"; "d"; "e"] 20 50
    = Ok batches
    /\ concat (enterprise_features.businesses <$> batches)
       = ["a"; "b"; "c"; "d"; "e"]
    /\ enterprise_features.split_large_request ["a"] 60 50 = Raise ValueError.
Proof.
  destruct (proj1 (split_large_request_batches ["a"; "b"; "c"; "d"; "e"]
                     20 50 ltac:(lia)) ltac:(lia))
    as (batches & H & Hc & _).
  exists batches. split; [exact H|]. split; [exact Hc|].
  exact (proj2 (split_large_request_batches ["a"] 60 50 ltac:(lia))
           ltac:(unfold Py.len; cbn; lia) ltac:(lia)).
Defined.

(** ** The parallel batch of performance_optimizer.py *)

Lemma optimizer_day_turn sv niche city calendar_data day :
  performance_optimizer.day_turn sv niche city calendar_data day
  = calendar_data
  \/ exists e,
       performance_optimizer.day_turn sv niche city calendar_data day
       = calendar_data ++ [e]
       /\ batch_entry day e.
Proof.
  unfold performance_optimizer.day_turn.
  destruct (crash_prevention.generate_single_post _ _ _ _ _); [|by left].
  destruct (Py.truthy _); [|by left].
  destruct (Py.len _ >=? 9); [|by left].
  destruct (crash_prevention.post_data day _) as [e|] eqn:E; [|by left].
  right. exists e. split; [done|]. by eapply post_data_batch_entry.
Qed.

Lemma optimizer_loop sv niche city days acc :
  exists kept entries,
    foldl (performance_optimizer.day_turn sv niche city) acc days
    = acc ++ entries
    /\ sublist kept days
    /\ Forall2 batch_entry kept entries.
Proof.
  revert acc. induction days as [|day days IH]; intros acc.
  - exists [], []. by rewrite app_nil_r.
  - cbn [foldl].
    destruct (optimizer_day_turn sv niche city acc day)
      as [-> | (e & -> & He)].
    + destruct (IH acc) as (kept & entries & -> & Hs & Hf).
      exists kept, entries. split; [done|]. split; [|done].
      by apply sublist_cons.
    + destruct (IH (acc ++ [e])) as (kept & entries & -> & Hs & Hf).
      exists (day :: kept), (e :: entries).
      split; [by rewrite <- app_assoc|]. split; [|by constructor].
      by apply sublist_skip.
Qed.

(** The calendar of one business: its day numbers are days of the
    request, in order, each at most once. *)
Definition dated (days : Z) (calendar_data : list pydict) : Prop :=
  exists kept,
    days_of calendar_data = (fun d => Some (PInt d)) <$> kept
    /\ sublist kept (Py.range 1 (days + 1)).

Lemma single_business_dated sv niche city days :
  dated days (performance_optimizer._generate_single_business sv niche city days).
Proof.
  unfold performance_optimizer._generate_single_business.
  destruct (optimizer_loop sv niche city (Py.range 1 (days + 1)) [])
    as (kept & entries & -> & Hs & Hf).
  exists kept. split; [|done]. cbn [app]. unfold days_of. clear Hs.
  induction Hf as [|d e kept entries [He _] _ IH]; [done|].
  cbn [fmap list_fmap]. by rewrite He, <- IH.
Qed.

(** A record of the parallel batch is well formed: when completed it
    counts its own posts and its calendar is dated. *)
Definition sound (days : Z) (r : performance_optimizer.record) : Prop :=
  match r with
  | performance_optimizer.Completed _ calendar_data posts_generated =>
      posts_generated = Py.len calendar_data /\ dated days calendar_data
  | performance_optimizer.TimedOut _ _ => True
  end.

Definition keyed (business : gmap string string) : Prop :=
  is_Some (business !! "niche") /\ is_Some (business !! "city").

Lemma process_business_chunk_ok w position businesses days :
  Forall keyed businesses ->
  exists results,
    performance_optimizer._process_business_chunk w position businesses days
    = Ok results
    /\ performance_optimizer.business_of <$> results = businesses
    /\ Forall (sound days) results.
Proof.
  intros Hk. unfold performance_optimizer._process_business_chunk.
  assert (Hs : exists futures,
    performance_optimizer.submit w position businesses days = Ok futures
    /\ (fun f => f.1.1) <$> futures = businesses
    /\ Forall (fun f => dated days f.2) futures).
  { revert position. induction Hk as [|b bs [[n Hn] [c Hc]] _ IH];
      intros position; [by exists []|].
    cbn [performance_optimizer.submit]. unfold performance_optimizer.subscript.
    rewrite Hn, Hc. cbn [mbind result_bind].
    destruct (IH (position + 1)) as (futures & -> & Hb & Hd).
    cbn [mbind result_bind mret result_ret]. eexists. split; [reflexivity|].
    cbn [fmap list_fmap fst snd]. rewrite Hb. split; [done|].
    constructor; [|done]. apply single_business_dated. }
  destruct Hs as (futures & -> & Hb & Hd).
  cbn [mbind result_bind mret result_ret]. eexists. split; [reflexivity|].
  split.
  - rewrite <- Hb, <- list_fmap_compose. apply list_fmap_ext.
    intros i [[b p] cal] _. cbn.
    by destruct (performance_optimizer.timed_out w p).
  - apply Forall_fmap. eapply Forall_impl; [exact Hd|].
    intros [[b p] cal] Hcal. cbn in *.
    by destruct (performance_optimizer.timed_out w p).
Qed.

Lemma process_chunks_ok w businesses days chunk_size starts results :
  Forall keyed businesses ->
  exists more,
    performance_optimizer.process_chunks w businesses days chunk_size starts
      results
    = Ok (results ++ more)
    /\ performance_optimizer.business_of <$> more
       = concat ((fun i => Py.slice businesses i (i + chunk_size)) <$> starts)
    /\ Forall (sound days) more.
Proof.
  intros Hk. revert results.
  induction starts as [|i starts IH]; intros results.
  - exists []. by rewrite app_nil_r.
  - cbn [performance_optimizer.process_chunks].
    destruct (process_business_chunk_ok w i
                (Py.slice businesses i (i + chunk_size)) days)
      as (chunk & -> & Hb & Hs).
    { apply Forall_forall. intros b Hb. rewrite Forall_forall in Hk.
      apply Hk. unfold Py.slice in Hb.
      eapply elem_of_sublist; [exact Hb|].
      etrans; [apply sublist_take|apply sublist_drop]. }
    cbn [mbind result_bind].
    destruct (IH (results ++ chunk)) as (more & -> & Hb' & Hs').
    exists (chunk ++ more). split; [by rewrite app_assoc|].
    split; [|by apply Forall_app].
    rewrite fmap_app, Hb, Hb'. done.
Qed.

(** X30: [batch_generate_parallel] with a positive [max_concurrent] and
    businesses that all have a niche and a city returns one record per
    business, in the order of the input; a completed record counts its
    own posts, and the day numbers of its calendar are days of the
    request, 1 to [days] with no cap, in increasing order.  With an
    empty list of businesses and a non-negative [max_concurrent] it
    raises [ValueError]: the chunk size is 0 and [range] refuses a zero
    step. *)
Theorem batch_generate_parallel_records w businesses days max_concurrent :
  (0 < max_concurrent -> businesses <> [] -> Forall keyed businesses ->
   exists results,
     performance_optimizer.batch_generate_parallel w businesses days
       max_concurrent = Ok results
     /\ performance_optimizer.business_of <$> results = businesses
     /\ Forall (sound days) results)
  /\ (0 <= max_concurrent -> businesses = [] ->
      performance_optimizer.batch_generate_parallel w businesses days
        max_concurrent = Raise ValueError).
Proof.
  unfold performance_optimizer.batch_generate_parallel. split.
  - intros Hmax Hne Hk.
    set (size := Z.min max_concurrent (Py.len businesses)).
    assert (Hsize : 0 < size).
    { unfold size, Py.len. destruct businesses; [done|]. cbn. lia. }
    destruct (slices_of_range businesses size Hsize) as (n & -> & Hc).
    cbn [mbind result_bind].
    destruct (process_chunks_ok w businesses days size
                ((fun k => 0 + k * size) <$> seqZ 0 n) [] Hk)
      as (more & -> & Hb & Hs).
    exists more. split; [done|]. split; [|done]. by rewrite Hb, Hc.
  - intros Hmax ->. unfold Py.len, Py.range3. cbn [length].
    change (Z.of_nat 0) with 0. by rewrite Z.min_r by lia.
Qed.

Lemma batch_generate_parallel_records_witness :
  let w := {| performance_optimizer.services_on := fun _ _ => silent;
              performance_optimizer.timed_out := fun _ => false |} in
  let hair : gmap string string :=
    {[ "niche" := "hair"; "city" := "Rome" ]} in
  (exists results,
     performance_optimizer.batch_generate_parallel w [hair; hair; hair] 12 2
     = Ok results
     /\ performance_optimizer.business_of <$> results = [hair; hair; hair])
  /\ performance_optimizer.batch_generate_parallel w [] 12 10
     = Raise ValueError.
Proof.
  intros w hair. split.
  - destruct (proj1 (batch_generate_parallel_records w [hair; hair; hair] 12 2))
      as (results & H & Hb & _).
    + lia.
    + done.
    + repeat constructor; by eexists.
    + exists results. split; [exact H|exact Hb].
  - exact (proj2 (batch_generate_parallel_records w [] 12 10)
             ltac:(lia) eq_refl).
Defined.
